(** * gomcp: tool registry, module loader and plan dispatcher

    A shallow embedding of [pkg/server/server.go], [pkg/utils/utils.go],
    [pkg/mcp/types.go] and [pkg/reg/servicestools.go], with the
    properties of the dispatcher and of the loader proved over it.

    Conventions.
    - A Go [string] is a byte sequence: it is a [String.string] whose
      characters are the bytes.
    - A Go [map[string]T] is a [gmap string T]; the order in which
      [range] visits it is left to the runtime (see [GoRuntime]).
    - A Go [error] is its message; [nil] is [None].
    - [interface{}] values produced by [encoding/json] are trees of
      type [json]. *)

From Stdlib Require Import ZArith NArith Ascii String.
From stdpp Require Import base option strings gmap list.

#[local] Set Warnings "-register-all".
#[local] Open Scope Z_scope.

(** ** Results of fallible library calls *)

Inductive result (A : Type) : Type :=
  | Ok (a : A)
  | Err (msg : string).
Arguments Ok {A} a.
Arguments Err {A} msg.

(** ** Package [unicode/utf8] *)

Module utf8.

Definition RuneError : Z := 0xFFFD.
Definition MaxRune : Z := 0x10FFFF.
Definition RuneSelf : Z := 0x80.

Definition byte (c : ascii) : Z := Z.of_N (N_of_ascii c).
Definition chr (b : Z) : ascii := ascii_of_N (Z.to_N (b mod 256)).

(** Continuation bytes lie in [locb, hicb] = [0x80, 0xBF]. *)
Definition is_cont (b : Z) : bool := (0x80 <=? b) && (b <=? 0xBF).

(** [first] and [acceptRanges]: for a leading byte, the length of
    the sequence and the range accepted for the second byte; [None]
    for a byte that cannot start a sequence. ASCII is handled by the
    caller. *)
Definition first (s0 : Z) : option (nat * Z * Z) :=
  if s0 <? 0xC2 then None
  else if s0 <=? 0xDF then Some (2%nat, 0x80, 0xBF)
  else if s0 =? 0xE0 then Some (3%nat, 0xA0, 0xBF)
  else if s0 <=? 0xEC then Some (3%nat, 0x80, 0xBF)
  else if s0 =? 0xED then Some (3%nat, 0x80, 0x9F)
  else if s0 <=? 0xEF then Some (3%nat, 0x80, 0xBF)
  else if s0 =? 0xF0 then Some (4%nat, 0x90, 0xBF)
  else if s0 <=? 0xF3 then Some (4%nat, 0x80, 0xBF)
  else if s0 =? 0xF4 then Some (4%nat, 0x80, 0x8F)
  else None.

(** [DecodeRuneInString]: the rune at the head of [s] and its width
    in bytes. An ill-formed head decodes to [(RuneError, 1)], the
    empty string to [(RuneError, 0)]. *)
Definition DecodeRuneInString (s : string) : Z * nat :=
  match s with
  | EmptyString => (RuneError, 0%nat)
  | String c0 s1 =>
    let s0 := byte c0 in
    if s0 <? RuneSelf then (s0, 1%nat)
    else match first s0 with
    | None => (RuneError, 1%nat)
    | Some (sz, lo, hi) =>
      match s1 with
      | EmptyString => (RuneError, 1%nat)
      | String c1 s2 =>
        let b1 := byte c1 in
        if (b1 <? lo) || (hi <? b1) then (RuneError, 1%nat)
        else if (sz <=? 2)%nat then
          (Z.lor (Z.shiftl (Z.land s0 0x1F) 6) (Z.land b1 0x3F), 2%nat)
        else match s2 with
        | EmptyString => (RuneError, 1%nat)
        | String c2 s3 =>
          let b2 := byte c2 in
          if negb (is_cont b2) then (RuneError, 1%nat)
          else if (sz <=? 3)%nat then
            (Z.lor (Z.shiftl (Z.land s0 0x0F) 12)
               (Z.lor (Z.shiftl (Z.land b1 0x3F) 6) (Z.land b2 0x3F)), 3%nat)
          else match s3 with
          | EmptyString => (RuneError, 1%nat)
          | String c3 _ =>
            let b3 := byte c3 in
            if negb (is_cont b3) then (RuneError, 1%nat)
            else
              (Z.lor (Z.shiftl (Z.land s0 0x07) 18)
                 (Z.lor (Z.shiftl (Z.land b1 0x3F) 12)
                    (Z.lor (Z.shiftl (Z.land b2 0x3F) 6) (Z.land b3 0x3F))),
               4%nat)
          end
        end
      end
    end
  end.

Definition bytes (l : list Z) : string :=
  foldr (λ b acc, String (chr b) acc) EmptyString l.

(** [AppendRune]: the UTF-8 encoding of [r]; surrogates and values
    outside [0, MaxRune] are written as [RuneError]. The comparisons
    are on [uint32(r)]. *)
Definition EncodeRune (r : Z) : string :=
  let i := r mod 2 ^ 32 in
  let three (i : Z) :=
    bytes [Z.lor 0xE0 (Z.shiftr i 12);
           Z.lor 0x80 (Z.land (Z.shiftr i 6) 0x3F);
           Z.lor 0x80 (Z.land i 0x3F)] in
  if i <=? 0x7F then bytes [i]
  else if i <=? 0x7FF then
    bytes [Z.lor 0xC0 (Z.shiftr i 6); Z.lor 0x80 (Z.land i 0x3F)]
  else if (MaxRune <? i) || ((0xD800 <=? i) && (i <=? 0xDFFF)) then
    three RuneError
  else if i <=? 0xFFFF then three i
  else
    bytes [Z.lor 0xF0 (Z.shiftr i 18);
           Z.lor 0x80 (Z.land (Z.shiftr i 12) 0x3F);
           Z.lor 0x80 (Z.land (Z.shiftr i 6) 0x3F);
           Z.lor 0x80 (Z.land i 0x3F)].

Fixpoint drop (n : nat) (s : string) : string :=
  match n, s with
  | S n', String _ s' => drop n' s'
  | _, _ => s
  end.

(** The runes that [for _, c := range s] visits. The fuel is the
    number of bytes, which bounds the number of runes. *)
Fixpoint runes_fuel (fuel : nat) (s : string) : list Z :=
  match fuel, s with
  | S fuel', String _ _ =>
    let '(r, w) := DecodeRuneInString s in
    r :: runes_fuel fuel' (drop w s)
  | _, _ => []
  end.

Definition runes (s : string) : list Z := runes_fuel (String.length s) s.

End utf8.

(** ** Package [strings] *)

Module gostrings.

Definition HasPrefix (s prefix : string) : bool := String.prefix prefix s.

(** [TrimPrefix]: [s] without the leading [prefix], or [s] itself
    when it does not start with [prefix]. *)
Definition TrimPrefix (s prefix : string) : string :=
  if HasPrefix s prefix then utf8.drop (String.length prefix) s else s.

(** [Contains s substr]: [substr] occurs at some offset of [s]. *)
Fixpoint Contains (s substr : string) : bool :=
  HasPrefix s substr ||
  match s with
  | EmptyString => false
  | String _ s' => Contains s' substr
  end.

Definition is_ascii (c : ascii) : bool := utf8.byte c <? utf8.RuneSelf.

Definition is_upper (c : ascii) : bool :=
  (65 <=? utf8.byte c) && (utf8.byte c <=? 90).

Definition lower_byte (c : ascii) : ascii :=
  if is_upper c then utf8.chr (utf8.byte c + 32) else c.

Fixpoint all_bytes (p : ascii → bool) (s : string) : bool :=
  match s with
  | EmptyString => true
  | String c s' => p c && all_bytes p s'
  end.

Fixpoint map_bytes (f : ascii → ascii) (s : string) : string :=
  match s with
  | EmptyString => EmptyString
  | String c s' => String (f c) (map_bytes f s')
  end.

(** [Map]: every rune of [s] is replaced by the encoding of its
    image; a rune mapped to a negative value is dropped. Ill-formed
    bytes are visited as [RuneError]. *)
Definition Map (mapping : Z → Z) (s : string) : string :=
  foldr (λ c acc,
           let r := mapping c in
           if 0 <=? r then utf8.EncodeRune r +:+ acc else acc)
        EmptyString (utf8.runes s).

(** [ToLower]: an all-ASCII string has its bytes 'A'..'Z' shifted to
    'a'..'z'; any other string is mapped rune by rune through
    [unicode.ToLower], whose table is the parameter [tolower]. *)
Definition ToLower (tolower : Z → Z) (s : string) : string :=
  if all_bytes is_ascii s then map_bytes lower_byte s
  else Map tolower s.

End gostrings.

(** ** Values decoded by [encoding/json] into [interface{}]

    Numbers are kept as their literal (Go stores a [float64]; no code
    of this repository inspects a number). An object is a
    [map[string]interface{}]. *)

Inductive json : Type :=
  | JNull
  | JBool (b : bool)
  | JNum (lit : string)
  | JStr (s : string)
  | JArr (elems : list json)
  | JObj (fields : gmap string json).

(** A value of type [map[string]interface{}]; [None] is the nil map. *)
Abbreviation gomap := (option (gmap string json)).

(** ** Package [encoding/json]: a reference decoder

    [Unmarshal] into an [interface{}] target. The dispatcher below is
    parametric in the decoder (field [json_Unmarshal] of [GoRuntime]);
    this one instantiates it on concrete documents. It follows the
    grammar the Go scanner accepts: the four white-space bytes, the
    three literals, numbers, strings with their escapes, arrays and
    objects (a repeated key keeps its last value), at most
    [maxNestingDepth] open containers, nothing but white space after
    the top-level value, and a number has to fit a [float64]. The text
    of the decoder's error is not reproduced. *)

Module jsondec.

Import utf8.

Definition maxNestingDepth : Z := 10000.

Definition is_ws (b : Z) : bool :=
  (b =? 32) || (b =? 9) || (b =? 13) || (b =? 10).

Fixpoint skip_ws (s : string) : string :=
  match s with
  | String c r => if is_ws (byte c) then skip_ws r else s
  | EmptyString => EmptyString
  end.

Definition is_digit (b : Z) : bool := (48 <=? b) && (b <=? 57).

Definition hexval (b : Z) : option Z :=
  if is_digit b then Some (b - 48)
  else if (97 <=? b) && (b <=? 102) then Some (b - 97 + 10)
  else if (65 <=? b) && (b <=? 70) then Some (b - 65 + 10)
  else None.

(** [getu4], past the two bytes of the escape's head. *)
Definition hex4 (s : string) : option (Z * string) :=
  match s with
  | String a (String b (String c (String d r))) =>
    match hexval (byte a), hexval (byte b), hexval (byte c), hexval (byte d) with
    | Some x3, Some x2, Some x1, Some x0 =>
      Some (x3 * 4096 + x2 * 256 + x1 * 16 + x0, r)
    | _, _, _, _ => None
    end
  | _ => None
  end.

Definition IsSurrogate (r : Z) : bool := (0xD800 <=? r) && (r <? 0xE000).

(** [utf16.DecodeRune]. *)
Definition utf16_DecodeRune (r1 r2 : Z) : Z :=
  if (0xD800 <=? r1) && (r1 <? 0xDC00) && (0xDC00 <=? r2) && (r2 <? 0xE000)
  then Z.lor (Z.shiftl (r1 - 0xD800) 10) (r2 - 0xDC00) + 0x10000
  else RuneError.

(** The escape after a backslash other than [u]. *)
Definition simple_escape (b : Z) : option Z :=
  if (b =? 34) || (b =? 92) || (b =? 47) then Some b
  else if b =? 98 then Some 8
  else if b =? 102 then Some 12
  else if b =? 110 then Some 10
  else if b =? 114 then Some 13
  else if b =? 116 then Some 9
  else None.

(** [unquote], from the byte after the opening quote: the decoded
    string and what follows the closing quote. *)
Fixpoint string_body (fuel : nat) (s : string) : option (string * string) :=
  match fuel, s with
  | S fuel', String c r =>
    let b := byte c in
    let emit (out rest : string) :=
      match string_body fuel' rest with
      | Some (str, r') => Some (out +:+ str, r')
      | None => None
      end in
    if b =? 34 then Some (EmptyString, r)
    else if b =? 92 then
      match r with
      | String e r1 =>
        if byte e =? 117 then
          match hex4 r1 with
          | Some (rr, r2) =>
            if IsSurrogate rr then
              let rr1 :=
                match r2 with
                | String e1 (String e2 r3) =>
                  if (byte e1 =? 92) && (byte e2 =? 117) then
                    match hex4 r3 with
                    | Some (x, r4) => Some (x, r4)
                    | None => None
                    end
                  else None
                | _ => None
                end in
              match rr1 with
              | Some (x, r4) =>
                if utf16_DecodeRune rr x =? RuneError
                then emit (EncodeRune RuneError) r2
                else emit (EncodeRune (utf16_DecodeRune rr x)) r4
              | None => emit (EncodeRune RuneError) r2
              end
            else emit (EncodeRune rr) r2
          | None => None
          end
        else
          match simple_escape (byte e) with
          | Some x => emit (bytes [x]) r1
          | None => None
          end
      | EmptyString => None
      end
    else if b <? 32 then None
    else if b <? RuneSelf then emit (bytes [b]) r
    else
      let '(rr, size) := DecodeRuneInString s in
      emit (EncodeRune rr) (drop size s)
  | _, _ => None
  end.

Fixpoint take_digits (s : string) : string * string :=
  match s with
  | String c r =>
    if is_digit (byte c) then
      let '(d, r') := take_digits r in (String c d, r')
    else (EmptyString, s)
  | EmptyString => (EmptyString, EmptyString)
  end.

Fixpoint digits_value (acc : Z) (s : string) : Z :=
  match s with
  | String c r => digits_value (10 * acc + (byte c - 48)) r
  | EmptyString => acc
  end.

(** [strconv.ParseFloat] reports a range error when the literal
    rounds to an infinity: when its magnitude reaches
    [2^1024 - 2^970], half an ulp above the largest [float64]. The
    literal is [digits * 10^(exp - |frac|)]. *)
Definition float64_overflows (int frac : string) (exp : Z) : bool :=
  let d := digits_value 0 (int +:+ frac) in
  let k := exp - Z.of_nat (String.length frac) in
  let t := 2 ^ 1024 - 2 ^ 970 in
  if 0 <=? k then t <=? d * 10 ^ k else t * 10 ^ (- k) <=? d.

(** A number literal at the head of [s]: its text and the rest. *)
Definition number (s : string) : option (string * string) :=
  let '(sign, s1) :=
    match s with
    | String c r => if byte c =? 45 then (String c EmptyString, r) else (EmptyString, s)
    | EmptyString => (EmptyString, s)
    end in
  let '(int, s2) := take_digits s1 in
  let int_ok :=
    match int with
    | EmptyString => false
    | String c EmptyString => true
    | String c _ => negb (byte c =? 48)
    end in
  if negb int_ok then None else
  let frac_part :=
    match s2 with
    | String c r =>
      if byte c =? 46 then
        let '(f, r') := take_digits r in
        match f with
        | EmptyString => None
        | _ => Some (f, r')
        end
      else Some (EmptyString, s2)
    | EmptyString => Some (EmptyString, s2)
    end in
  match frac_part with
  | None => None
  | Some (frac, s3) =>
    let exp_part :=
      match s3 with
      | String c r =>
        if (byte c =? 101) || (byte c =? 69) then
          let '(esign, r1) :=
            match r with
            | String c' r' =>
              if byte c' =? 43 then (1, r')
              else if byte c' =? 45 then (-1, r')
              else (1, r)
            | EmptyString => (1, r)
            end in
          let '(e, r2) := take_digits r1 in
          match e with
          | EmptyString => None
          | _ => Some (esign * digits_value 0 e, r2)
          end
        else Some (0, s3)
      | EmptyString => Some (0, s3)
      end in
    match exp_part with
    | None => None
    | Some (exp, s4) =>
      if float64_overflows int frac exp then None
      else
        let len := (String.length s - String.length s4)%nat in
        Some (String.substring 0 len s, s4)
    end
  end.

Definition literal (lit : string) (v : json) (s : string) : option (json * string) :=
  if String.prefix lit s then Some (v, drop (String.length lit) s) else None.

(** A value at the head of [s], inside [depth] open containers. *)
Fixpoint value (fuel : nat) (depth : Z) (s : string) : option (json * string) :=
  match fuel with
  | O => None
  | S fuel' =>
    match skip_ws s with
    | EmptyString => None
    | String c r as s0 =>
      let b := byte c in
      if b =? 123 then
        if maxNestingDepth <? depth + 1 then None
        else match skip_ws r with
        | String c' r' =>
          if byte c' =? 125 then Some (JObj ∅, r')
          else members fuel' (depth + 1) ∅ (skip_ws r)
        | EmptyString => None
        end
      else if b =? 91 then
        if maxNestingDepth <? depth + 1 then None
        else match skip_ws r with
        | String c' r' =>
          if byte c' =? 93 then Some (JArr [], r')
          else
            match elements fuel' (depth + 1) (skip_ws r) with
            | Some (l, r'') => Some (JArr l, r'')
            | None => None
            end
        | EmptyString => None
        end
      else if b =? 34 then
        match string_body (String.length r) r with
        | Some (str, r') => Some (JStr str, r')
        | None => None
        end
      else if b =? 110 then literal "null" JNull s0
      else if b =? 116 then literal "true" (JBool true) s0
      else if b =? 102 then literal "false" (JBool false) s0
      else
        match number s0 with
        | Some (lit, r') => Some (JNum lit, r')
        | None => None
        end
    end
  end
with elements (fuel : nat) (depth : Z) (s : string) : option (list json * string) :=
  match fuel with
  | O => None
  | S fuel' =>
    match value fuel' depth s with
    | Some (v, r) =>
      match skip_ws r with
      | String c r' =>
        if byte c =? 44 then
          match elements fuel' depth r' with
          | Some (l, r'') => Some (v :: l, r'')
          | None => None
          end
        else if byte c =? 93 then Some ([v], r')
        else None
      | EmptyString => None
      end
    | None => None
    end
  end
with members (fuel : nat) (depth : Z) (acc : gmap string json) (s : string)
    : option (json * string) :=
  match fuel with
  | O => None
  | S fuel' =>
    match skip_ws s with
    | String q r =>
      if byte q =? 34 then
        match string_body (String.length r) r with
        | Some (key, r1) =>
          match skip_ws r1 with
          | String c1 r2 =>
            if byte c1 =? 58 then
              match value fuel' depth r2 with
              | Some (v, r3) =>
                match skip_ws r3 with
                | String c3 r4 =>
                  if byte c3 =? 44 then members fuel' depth (<[key:=v]> acc) r4
                  else if byte c3 =? 125 then Some (JObj (<[key:=v]> acc), r4)
                  else None
                | EmptyString => None
                end
              | None => None
              end
            else None
          | EmptyString => None
          end
        | None => None
        end
      else None
    | EmptyString => None
    end
  end.

(** [json.Unmarshal(data, &raw)] with [raw] of type [interface{}]. *)
Definition Unmarshal (data : string) : result json :=
  match value (2 * String.length data + 2) 0 data with
  | Some (v, rest) =>
    match skip_ws rest with
    | EmptyString => Ok v
    | String _ _ => Err "invalid character after top-level value"
    end
  | None => Err "invalid JSON input"
  end.

End jsondec.

(** [json.Marshal] of a [[]string], as the document it writes. Every
    slice marshalled below is declared [var l []string] and grown by
    [append], so it is nil exactly when it is empty, and a nil slice
    is written as [null]. String leaves hold the Go string handed to
    the encoder. Marshalling strings cannot fail, so the branches
    [if err != nil] after these calls are never taken. *)
Definition json_Marshal_strings (l : list string) : json :=
  match l with
  | [] => JNull
  | _ :: _ => JArr (JStr <$> l)
  end.

(** [json.Marshal] of a [map[string]string]. *)
Definition json_Marshal_string_map (m : gmap string string) : json :=
  JObj (JStr <$> m).

(** ** What the Go runtime and its libraries supply

    - [unicode_ToLower]: the case table of package [unicode];
    - [json_Unmarshal]: [json.Unmarshal] into an [interface{}];
    - [map_range]: the order in which [range] visits a map. Go leaves
      it unspecified; all that is known is that every entry is visited
      once. *)
Class GoRuntime := {
  unicode_ToLower : Z → Z;
  json_Unmarshal : string → result json;
  map_range : ∀ {A : Type}, gmap string A → list (string * A);
  map_range_perm : ∀ (A : Type) (m : gmap string A), map_range m ≡ₚ map_to_list m;
}.

(** [json.Unmarshal(data, &params)] with [params] a nil
    [map[string]interface{}]: an object fills the map, [null] leaves
    it nil, any other document is a type error. *)
Definition json_Unmarshal_map `{GoRuntime} (data : string) : result gomap :=
  match json_Unmarshal data with
  | Err e => Err e
  | Ok (JObj m) => Ok (Some m)
  | Ok JNull => Ok None
  | Ok _ => Err "json: cannot unmarshal value into Go value of type map[string]interface {}"
  end.

(** ** What the host process supplies

    - [ToolHandler]: the values of [mcp.ToolHandler], the functions
      registered as handlers;
    - [Service]: the values implementing interface [server.Service];
    - [World]: everything outside the [Server] that handlers, services
      and the language model read or change. *)
Class Host := {
  ToolHandler : Type;
  Service : Type;
  World : Type;
}.

(** The fixed directive text returned by [getUniversalSystemPrompt]. *)
Class SystemPrompt := getUniversalSystemPrompt : string.

(** ** Package [mcp] *)

Module mcp.

Definition JSONRPCVersion : string := "2.0".

Record RPCError := { Code : Z; Message : string }.

(** [Result] is a [json.RawMessage]: [None] when nil, else the
    document that was marshalled into it. *)
Record RPCResponse := {
  Version : string;
  Result : option json;
  Error : option RPCError;
  ID : option Z;
}.

Definition NewError (code : Z) (msg : string) : RPCError :=
  {| Code := code; Message := msg |}.

Record ToolCallArgs := { ToolName : string; Parameters : gomap }.

End mcp.

(** ** Package [llms] (langchaingo): the shapes exchanged with the model *)

Module llms.

Inductive ChatMessageType := ChatMessageTypeHuman | ChatMessageTypeSystem.

Record MessageContent := { Role : ChatMessageType; Text : string }.

Definition TextParts (role : ChatMessageType) (text : string) : MessageContent :=
  {| Role := role; Text := text |}.

Record FunctionDefinition := {
  FnName : string;
  FnDescription : string;
  FnParameters : gomap;
}.

Record Tool := { Type_ : string; Function : FunctionDefinition }.

Record FunctionCall := { Name : string; Arguments : string }.

Record ToolCall := { FunctionCall_ : option FunctionCall }.

Record ContentChoice := { Content : string; ToolCalls : list ToolCall }.

End llms.

(** ** Package [utils] *)

Module utils.

Import gostrings.

Definition ExtractServiceName (input : string) : string * bool :=
  if Contains input "docker" then ("docker", true)
  else if Contains input "git" then ("git", true)
  else (EmptyString, false).

(** [GetSystemPrompt], given the current value of the package
    variable [systemPromptOverride]. *)
Definition GetSystemPrompt `{SystemPrompt} (systemPromptOverride : string) : string :=
  if negb (String.eqb systemPromptOverride EmptyString) then systemPromptOverride
  else getUniversalSystemPrompt.

Definition IsListServicesQuery `{GoRuntime} (query : string) : bool :=
  let lower := ToLower unicode_ToLower query in
  Contains lower "service" &&
  (Contains lower "list" || Contains lower "available" || Contains lower "what are").

Definition IsListToolsQuery `{GoRuntime} (query : string) : bool :=
  let lower := ToLower unicode_ToLower query in
  Contains lower "tool" &&
  (Contains lower "list" || Contains lower "available" || Contains lower "what are").

End utils.

(** ** Package [server]

    Logging is left out. So is the [context] handed to the handlers:
    its deadline is a matter of real time, and only calls that return
    are modelled. *)

Module server.

Import gostrings.

(** [RegisteredTool] holds metadata and the handler for a tool. *)
Record RegisteredTool `{Host} := {
  Name : string;
  Description : string;
  InputSchema : gomap;
  Handler : ToolHandler;
  ServiceName : string;
}.

(** [Server]: the tool catalogue and the registered services. The
    fields [dockerClient] and [llm] are handles into the [World]. *)
Record Server `{Host} := {
  tools : gmap string RegisteredTool;
  services : gmap string Service;
}.

(** The behaviour of the host's values.
    - [Service_Name], [Service_RegisterTools]: the two methods of
      interface [Service]; the second receives the server and may
      register tools on it.
    - [ToolHandler_call h s parameters]: the call
      [h(ctx, s, parameters)]; the handler receives the registry
      [s], so it may change the catalogue as well as the world, and
      returns its error. Only calls that return are modelled.
    - [llm_GenerateContent]: the model call of [CallLLM]. *)
Class HostOps `{Host} := {
  Service_Name : Service → string;
  Service_RegisterTools : Service → Server → World → Server * World;
  ToolHandler_call :
    ToolHandler → Server → gomap → World → Server * World * option string;
  llm_GenerateContent :
    list llms.MessageContent → list llms.Tool → World →
    World * result (list llms.ContentChoice);
}.

(** What an execution did to the outside, in order: the handler
    calls and the model calls. The trace is not part of the program;
    it records each call at the place where the program makes it. *)
Inductive Event `{Host} :=
  | HandlerCall (h : ToolHandler) (parameters : gomap)
  | ModelCall (prompt : list llms.MessageContent) (tools : list llms.Tool).

(** The state a request runs in: the server, the world, the package
    variable [utils.systemPromptOverride], and the trace. *)
Record State `{Host} := {
  srv : Server;
  world : World;
  systemPromptOverride : string;
  trace : list Event;
}.

Definition M `{Host} (A : Type) : Type := State → A * State.

#[export] Instance M_ret `{Host} : MRet M := λ A a st, (a, st).
#[export] Instance M_bind `{Host} : MBind M :=
  λ A B f m st, let '(a, st') := m st in f a st'.

Section Dispatcher.

Context `{RT : GoRuntime} `{HT : Host} `{HO : !HostOps} `{SP : SystemPrompt}.

Definition get_srv : M Server := λ st, (srv st, st).

(** [utils.GetSystemPrompt], [utils.SetSystemPromptOverride] and
    [utils.ClearSystemPromptOverride] on the package variable. *)
Definition GetSystemPrompt : M string :=
  λ st, (utils.GetSystemPrompt (systemPromptOverride st), st).

Definition SetSystemPromptOverride (prompt : string) : M unit :=
  λ st, (tt, {| srv := srv st; world := world st;
                systemPromptOverride := prompt; trace := trace st |}).

Definition ClearSystemPromptOverride : M unit :=
  SetSystemPromptOverride EmptyString.

(** The call [tool.Handler(ctx, s, parameters)]. *)
Definition call_handler (h : ToolHandler) (parameters : gomap) : M (option string) :=
  λ st,
    let '(s', w', err) := ToolHandler_call h (srv st) parameters (world st) in
    (err, {| srv := s'; world := w';
             systemPromptOverride := systemPromptOverride st;
             trace := trace st ++ [HandlerCall h parameters] |}).

(** The call [s.llm.GenerateContent(ctx, prompt, WithTools(tools), ...)]. *)
Definition GenerateContent (prompt : list llms.MessageContent)
    (registeredTools : list llms.Tool) : M (result (list llms.ContentChoice)) :=
  λ st,
    let '(w', r) := llm_GenerateContent prompt registeredTools (world st) in
    (r, {| srv := srv st; world := w';
           systemPromptOverride := systemPromptOverride st;
           trace := trace st ++ [ModelCall prompt registeredTools] |}).

(** [RegisterTool] implements the [mcp.Registry] interface. The
    composite literal leaves [ServiceName] at its zero value. *)
Definition RegisterTool (name description : string) (inputSchema : gomap)
    (handler : ToolHandler) (s : Server) : Server :=
  {| tools :=
       <[name := {| Name := name;
                    Description := description;
                    InputSchema := inputSchema;
                    Handler := handler;
                    ServiceName := EmptyString |}]> (tools s);
     services := services s |}.

(** [RegisterService] registers a service and lets it add its tools. *)
Definition RegisterService (service : Service) (s : Server) (w : World)
    : Server * World :=
  Service_RegisterTools service
    {| tools := tools s;
       services := <[Service_Name service := service]> (services s) |} w.

(** [fmt.Sprintf("%s: %s", tool.Name, tool.Description)]. *)
Definition tool_line (tool : RegisteredTool) : string :=
  Name tool +:+ ": " +:+ Description tool.

Definition listTools (s : Server) : list string :=
  foldl (λ toolList kv, toolList ++ [tool_line kv.2]) [] (map_range (tools s)).

Definition listServices (s : Server) : list string :=
  foldl (λ serviceList kv, serviceList ++ [Service_Name kv.2]) []
        (map_range (services s)).

(** The test of [listToolsForService]'s loop. *)
Definition service_matches (serviceName : string) (tool : RegisteredTool) : bool :=
  String.eqb (ToLower unicode_ToLower (ServiceName tool))
             (ToLower unicode_ToLower serviceName).

Definition listToolsForService (s : Server) (serviceName : string) : list string :=
  foldl (λ toolList kv,
           if service_matches serviceName kv.2
           then toolList ++ [tool_line kv.2]
           else toolList)
        [] (map_range (tools s)).

(** [invokeTool] executes a tool based on the model's function call. *)
Definition invokeTool (functionCall : llms.FunctionCall) : M (string * option string) :=
  s ← get_srv;
  match tools s !! llms.Name functionCall with
  | None =>
    mret (EmptyString, Some ("Tool " +:+ llms.Name functionCall +:+ " not found"))
  | Some tool =>
    match json_Unmarshal_map (llms.Arguments functionCall) with
    | Err err =>
      mret (EmptyString,
            Some ("invalid arguments for tool " +:+ llms.Name functionCall
                  +:+ ": " +:+ err))
    | Ok params =>
      err ← call_handler (Handler tool) params;
      match err with
      | Some err =>
        mret (EmptyString,
              Some ("error executing tool " +:+ llms.Name functionCall
                    +:+ ": " +:+ err))
      | None =>
        mret ("Tool " +:+ llms.Name functionCall +:+ " executed successfully", None)
      end
    end
  end.

(** The loop of [CallLLM] over the model's tool calls: the first
    call that succeeds sets the reply and returns; a failing one
    is logged and the loop goes on. *)
Fixpoint invoke_tool_calls (toolCalls : list llms.ToolCall) (reply : string)
    : M (option string * string) :=
  match toolCalls with
  | [] => mret (None, reply)
  | toolCall :: rest =>
    match llms.FunctionCall_ toolCall with
    | Some functionCall =>
      r ← invokeTool functionCall;
      match r.2 with
      | None => mret (None, r.1)
      | Some _ => invoke_tool_calls rest reply
      end
    | None => invoke_tool_calls rest reply
    end
  end.

(** The first loop of [CallLLM]: every registered tool as a function
    descriptor. *)
Definition registered_tools (s : Server) : list llms.Tool :=
  foldl (λ registeredTools kv,
           registeredTools ++
           [ {| llms.Type_ := "function";
                llms.Function :=
                  {| llms.FnName := Name kv.2;
                     llms.FnDescription := Description kv.2;
                     llms.FnParameters := InputSchema kv.2 |} |} ])
        [] (map_range (tools s)).

(** The prompt of [CallLLM]: the input and the system prompt. *)
Definition llm_prompt (input systemPrompt : string) : list llms.MessageContent :=
  [ llms.TextParts llms.ChatMessageTypeHuman input;
    llms.TextParts llms.ChatMessageTypeSystem systemPrompt ].

(** [CallLLM] sends input to the model and returns a generated
    plan; [reply] is the value the out-parameter holds on entry. *)
Definition CallLLM (input : string) (reply : string) : M (option string * string) :=
  s ← get_srv;
  let registeredTools := registered_tools s in
  systemPrompt ← GetSystemPrompt;
  let prompt := llm_prompt input systemPrompt in
  response ← GenerateContent prompt registeredTools;
  match response with
  | Err err => mret (Some ("LLM API error: " +:+ err), reply)
  | Ok [] => mret (Some "LLM returned an empty response", reply)
  | Ok (choice :: _) =>
    let rawContent := llms.Content choice in
    let toolCalls := llms.ToolCalls choice in
    if (0 <? length toolCalls)%nat
    then invoke_tool_calls toolCalls reply
    else mret (None, rawContent)
  end.

(** The [response] that [ExecutePlan] and [CallTool] start from. *)
Definition new_response : mcp.RPCResponse :=
  {| mcp.Version := mcp.JSONRPCVersion; mcp.Result := None;
     mcp.Error := None; mcp.ID := None |}.

(** [response.Error = e]. *)
Definition with_error (response : mcp.RPCResponse) (e : mcp.RPCError)
    : mcp.RPCResponse :=
  {| mcp.Version := mcp.Version response; mcp.Result := mcp.Result response;
     mcp.Error := Some e; mcp.ID := mcp.ID response |}.

(** [response.Result = json.RawMessage(result)]. *)
Definition with_result (response : mcp.RPCResponse) (result : json)
    : mcp.RPCResponse :=
  {| mcp.Version := mcp.Version response; mcp.Result := Some result;
     mcp.Error := mcp.Error response; mcp.ID := mcp.ID response |}.

(** The conversion loop over a plan array: every element has to be
    an object; [None] at the first one that is not. *)
Fixpoint plan_elements (v : list json) : option (list (gmap string json)) :=
  match v with
  | [] => Some []
  | JObj m :: rest =>
    match plan_elements rest with
    | Some plan => Some (m :: plan)
    | None => None
    end
  | _ :: _ => None
  end.

(** [actionType, ok := action["action"].(string)]. *)
Definition action_field (action : gmap string json) : string * bool :=
  match action !! "action" with
  | Some (JStr actionType) => (actionType, true)
  | _ => (EmptyString, false)
  end.

(** [parameters, _ := action["parameters"].(map[string]interface{})]. *)
Definition parameters_field (action : gmap string json) : gomap :=
  match action !! "parameters" with
  | Some (JObj parameters) => Some parameters
  | _ => None
  end.

(** The name an action is resolved under: a leading [functions.]
    is removed. *)
Definition resolved_name (actionType : string) : string :=
  if HasPrefix actionType "functions."
  then TrimPrefix actionType "functions."
  else actionType.

(** The loop of [ExecutePlan] over the actions: the error of the
    first action that fails, [None] when every action has run. *)
Fixpoint run_plan (plan : list (gmap string json)) : M (option mcp.RPCError) :=
  match plan with
  | [] => mret None
  | action :: rest =>
    let '(actionType, ok) := action_field action in
    if negb ok || String.eqb actionType EmptyString then
      mret (Some (mcp.NewError (-32602) "invalid action format"))
    else
      let actionType := resolved_name actionType in
      let parameters := parameters_field action in
      s ← get_srv;
      match tools s !! actionType with
      | Some tool =>
        err ← call_handler (Handler tool) parameters;
        match err with
        | Some err =>
          mret (Some (mcp.NewError (-32000)
                        ("failed to execute tool " +:+ actionType +:+ ": " +:+ err)))
        | None => run_plan rest
        end
      | None =>
        mret (Some (mcp.NewError (-32601) ("unknown action: " +:+ actionType)))
      end
  end.

Definition plan_success : json :=
  json_Marshal_string_map
    (<["status" := "success"]>
       (<["message" := "Plan executed successfully"]> ∅)).

(** [ExecutePlan] processes the JSON plan generated by the model.
    [planJSON] is the string the (non-nil) pointer refers to; the
    result is the returned error and the value left in [*reply]. *)
Definition ExecutePlan (planJSON : string) (reply : mcp.RPCResponse)
    : M (option string * mcp.RPCResponse) :=
  let response := new_response in
  if String.eqb planJSON EmptyString then
    mret (None, with_error response
                  (mcp.NewError (-32602) "ExecutePlan received empty plan"))
  else
    match json_Unmarshal planJSON with
    | Err err =>
      mret (None, with_error response
                    (mcp.NewError (-32700) ("failed to parse plan JSON: " +:+ err)))
    | Ok raw =>
      let converted :=
        match raw with
        | JArr v =>
          match plan_elements v with
          | Some plan => inl plan
          | None =>
            inr (mcp.NewError (-32700) "plan array contains non-object element")
          end
        | JObj v => inl [v]
        | _ => inr (mcp.NewError (-32700) "plan JSON is neither an object nor an array")
        end in
      match converted with
      | inr e => mret (None, with_error response e)
      | inl plan =>
        if (length plan =? 0)%nat then
          mret (None, with_error response
                        (mcp.NewError (-32602) "received empty plan from LLM"))
        else
          failure ← run_plan plan;
          match failure with
          | Some e => mret (None, with_error response e)
          | None => mret (None, with_result response plan_success)
          end
      end
    end.

Definition tool_success (toolName : string) : json :=
  json_Marshal_string_map
    (<["status" := "success"]>
       (<["message" := "Tool " +:+ toolName +:+ " executed successfully"]> ∅)).

(** [CallTool] allows direct invocation of a tool. *)
Definition CallTool (args : mcp.ToolCallArgs) (reply : mcp.RPCResponse)
    : M (option string * mcp.RPCResponse) :=
  let response := new_response in
  s ← get_srv;
  match tools s !! mcp.ToolName args with
  | None =>
    mret (None, with_error response
                  (mcp.NewError (-32601) ("unknown tool: " +:+ mcp.ToolName args)))
  | Some tool =>
    err ← call_handler (Handler tool) (mcp.Parameters args);
    match err with
    | Some err =>
      mret (None, with_error response
                    (mcp.NewError (-32000)
                       ("failed to execute tool " +:+ mcp.ToolName args
                        +:+ ": " +:+ err)))
    | None =>
      mret (None, with_result response (tool_success (mcp.ToolName args)))
    end
  end.

(** The reply of the two listing branches of [ProcessInstruction]. *)
Definition list_reply (res : json) : mcp.RPCResponse :=
  {| mcp.Version := mcp.JSONRPCVersion; mcp.Result := Some res;
     mcp.Error := None; mcp.ID := None |}.

(** [ProcessInstruction] handles a plain language instruction.
    The deferred [ClearSystemPromptOverride] runs on each way out
    of the planning branch. *)
Definition ProcessInstruction (instruction : string) (reply : mcp.RPCResponse)
    : M (option string * mcp.RPCResponse) :=
  let lowerInst := ToLower unicode_ToLower instruction in
  if utils.IsListServicesQuery lowerInst then
    s ← get_srv;
    let services := listServices s in
    let res := json_Marshal_strings services in
    mret (None, list_reply res)
  else if utils.IsListToolsQuery lowerInst then
    s ← get_srv;
    let '(serviceName, found) := utils.ExtractServiceName lowerInst in
    if found then
      let tools := listToolsForService s serviceName in
      let res := json_Marshal_strings tools in
      mret (None, list_reply res)
    else
      let tools := listTools s in
      let res := json_Marshal_strings tools in
      mret (None, list_reply res)
  else
    universalPrompt ← GetSystemPrompt;
    SetSystemPromptOverride universalPrompt;;
    planned ← CallLLM instruction EmptyString;
    match planned.1 with
    | Some err =>
      ClearSystemPromptOverride;;
      mret (Some ("ProcessInstruction: failed to call LLM: " +:+ err), reply)
    | None =>
      executed ← ExecutePlan planned.2 reply;
      ClearSystemPromptOverride;;
      match executed.1 with
      | Some err =>
        mret (Some ("ProcessInstruction: failed to execute plan: " +:+ err),
              executed.2)
      | None => mret (None, executed.2)
      end
    end.

End Dispatcher.

End server.

(** ** Interface [mcp.Registry]

    A registry [R] takes handlers of one type, [handler]: the type
    named in the signature of its [RegisterTool]. The two loaders
    assert different function types for the symbols they load, so the
    interface is modelled for any handler type. The [Server] of
    [server.go] is a registry of the handlers it calls, the values of
    [mcp.ToolHandler]. *)

Class Registry (R handler : Type) :=
  Registry_RegisterTool : string → string → gomap → handler → R → R.

#[export] Instance Server_Registry `{Host} : Registry server.Server ToolHandler :=
  λ name description inputSchema handler s,
    server.RegisterTool name description inputSchema handler s.

(** ** Package [reg]: the loader of [servicestools.go] *)

Module reg.

(** [ToolConfig] defines an individual tool. *)
Record ToolConfig := {
  Name : string;
  Description : string;
  Enabled : bool;
  Schema : gomap;
  Plugin : string;
}.

(** [ServiceConfig] defines a service entry. *)
Record ServiceConfig := {
  SvcName : string;
  SvcEnabled : bool;
  Tools : list ToolConfig;
}.

(** [Config] represents the overall YAML configuration. *)
Record Config := { Services : list ServiceConfig }.

(** What the loader obtains from outside:
    - [loadConfig path]: reading and decoding the YAML file;
    - a fresh interpreter is created for every tool, so what its
      evaluations return depends on the tool's plugin reference
      only: [Eval_import plugin] is the error of evaluating the
      import of [plugin]; [Eval_Handler plugin] is the result of
      evaluating the symbol [Handler] after that import;
    - [as_handler v]: the type assertion of the symbol's value to
      the handler signature, [func(context.Context,
      map[string]interface{}) (interface{}, error)]. The values of
      that type are [handler], a type of the loader's own: it is not
      the three-argument [mcp.ToolHandler] that [server.go] calls,
      and nothing here says how such a value is called. *)
Class Interp (handler : Type) := {
  Value : Type;
  loadConfig : string → result Config;
  Eval_import : string → option string;
  Eval_Handler : string → result Value;
  as_handler : Value → option handler;
}.

(** The calls the loader makes, in order: evaluations in a tool's
    interpreter and registrations. Like the dispatcher's trace, it
    records each call where the program makes it. *)
Inductive LoadEvent :=
  | EvalImport (plugin : string)
  | EvalSymbol (plugin : string)
  | Registered (name : string).

Section Loader.

Context {handler : Type} `{IN : !Interp handler} {R : Type} `{RG : !Registry R handler}.

(** The body of the inner loop up to the registration: the
    evaluations performed and the handler or the error they end
    with. *)
Definition load_handler (tool : ToolConfig) : list LoadEvent * result handler :=
  match Eval_import (Plugin tool) with
  | Some err =>
    ([EvalImport (Plugin tool)],
     Err ("failed to evaluate plugin for tool [" +:+ Name tool +:+ "]: " +:+ err))
  | None =>
    match Eval_Handler (Plugin tool) with
    | Err err =>
      ([EvalImport (Plugin tool); EvalSymbol (Plugin tool)],
       Err ("failed to retrieve Handler symbol for tool " +:+ Name tool
            +:+ ": " +:+ err))
    | Ok v =>
      match as_handler v with
      | None =>
        ([EvalImport (Plugin tool); EvalSymbol (Plugin tool)],
         Err ("handler for tool " +:+ Name tool
              +:+ " does not have the correct signature"))
      | Some handler =>
        ([EvalImport (Plugin tool); EvalSymbol (Plugin tool)], Ok handler)
      end
    end
  end.

(** The inner loop, over the tools of one service. *)
Fixpoint load_tools (tools : list ToolConfig) (r : R) (log : list LoadEvent)
    : R * list LoadEvent * option string :=
  match tools with
  | [] => (r, log, None)
  | tool :: rest =>
    if negb (Enabled tool) then load_tools rest r log
    else
      let '(evs, loaded) := load_handler tool in
      match loaded with
      | Err err => (r, log ++ evs, Some err)
      | Ok handler =>
        load_tools rest
          (Registry_RegisterTool (Name tool) (Description tool) (Schema tool)
             handler r)
          (log ++ evs ++ [Registered (Name tool)])
      end
  end.

(** The outer loop, over the services. *)
Fixpoint load_services (svcs : list ServiceConfig) (r : R) (log : list LoadEvent)
    : R * list LoadEvent * option string :=
  match svcs with
  | [] => (r, log, None)
  | svc :: rest =>
    if negb (SvcEnabled svc) then load_services rest r log
    else
      let '(r', log', err) := load_tools (Tools svc) r log in
      match err with
      | Some err => (r', log', Some err)
      | None => load_services rest r' log'
      end
  end.

(** [RegisterToolsFromConfig] loads the configuration, evaluates
    each tool's script, and registers only the enabled tools: the
    registry it leaves, the calls it made and the error it
    returns. *)
Definition RegisterToolsFromConfig (r : R) (configPath : string)
    : R * list LoadEvent * option string :=
  match loadConfig configPath with
  | Err err => (r, [], Some err)
  | Ok cfg => load_services (Services cfg) r []
  end.

End Loader.

End reg.

(** ** Package [reg], the variant that opens compiled plugins

    Its configuration has no [enabled] flag: every tool of every
    service is opened. *)

Module reg_plugin.

Record PluginConfig := { Path : string; Symbol : string }.

Record ToolConfig := {
  Name : string;
  Description : string;
  Schema : gomap;
  Plugin : PluginConfig;
}.

Record ServiceConfig := { SvcName : string; Tools : list ToolConfig }.

Record Config := { Services : list ServiceConfig }.

(** [plugin.Open], [Plugin.Lookup] and the type assertion, which is
    to [func(context.Context, mcp.Registry, map[string]interface{})
    error]: the type of the handlers that [server.go] stores and
    calls as [tool.Handler(ctx, s, parameters)]. *)
Class Plugins `{Host} := {
  PluginHandle : Type;
  SymbolValue : Type;
  loadConfig : string → result Config;
  plugin_Open : string → result PluginHandle;
  Lookup : PluginHandle → string → result SymbolValue;
  as_handler : SymbolValue → option ToolHandler;
}.

Section Loader.

Context `{HT : Host} `{PL : !Plugins} {R : Type} `{RG : !Registry R ToolHandler}.

Definition load_handler (tool : ToolConfig) : result ToolHandler :=
  let path := Path (Plugin tool) in
  let sym := Symbol (Plugin tool) in
  match plugin_Open path with
  | Err err => Err ("failed to open plugin " +:+ path +:+ ": " +:+ err)
  | Ok p =>
    match Lookup p sym with
    | Err err =>
      Err ("failed to lookup symbol " +:+ sym +:+ " in plugin " +:+ path
           +:+ ": " +:+ err)
    | Ok symbol =>
      match as_handler symbol with
      | None =>
        Err ("plugin symbol " +:+ sym +:+ " in " +:+ path
             +:+ " does not match expected handler signature")
      | Some handler => Ok handler
      end
    end
  end.

Fixpoint load_tools (tools : list ToolConfig) (r : R) : R * option string :=
  match tools with
  | [] => (r, None)
  | tool :: rest =>
    match load_handler tool with
    | Err err => (r, Some err)
    | Ok handler =>
      load_tools rest
        (Registry_RegisterTool (Name tool) (Description tool) (Schema tool)
           handler r)
    end
  end.

Fixpoint load_services (svcs : list ServiceConfig) (r : R) : R * option string :=
  match svcs with
  | [] => (r, None)
  | svc :: rest =>
    let '(r', err) := load_tools (Tools svc) r in
    match err with
    | Some err => (r', Some err)
    | None => load_services rest r'
    end
  end.

Definition RegisterToolsFromConfig (r : R) (configPath : string) : R * option string :=
  match loadConfig configPath with
  | Err err => (r, Some ("failed to load config: " +:+ err))
  | Ok cfg => load_services (Services cfg) r
  end.

End Loader.

End reg_plugin.

(** ** A concrete host, to run the definitions on *)

Module demo.

(** Rows U+0000..U+00FF of the table of [unicode.ToLower]: the
    capitals of ASCII and of the Latin-1 Supplement lie 32 below
    their small letters. *)
Definition latin1_ToLower (r : Z) : Z :=
  if ((65 <=? r) && (r <=? 90))
     || ((0xC0 <=? r) && (r <=? 0xDE) && negb (r =? 0xD7))
  then r + 32 else r.

Definition runtime : GoRuntime :=
  {| unicode_ToLower := latin1_ToLower;
     json_Unmarshal := jsondec.Unmarshal;
     map_range := λ A m, map_to_list m;
     map_range_perm := λ A m, reflexivity (map_to_list m) |}.

(** Handlers: two that act on the world, one that fails, and one
    that registers a further tool through the registry it is
    handed. The world is the list of the effects applied so far. *)
Inductive handler := pull_image | create_network | failing | installer.

Definition host : Host :=
  {| ToolHandler := handler; Service := string; World := list string |}.

Definition prompt : SystemPrompt := "You generate JSON plans.".

(** Single quotes stand for double quotes in the documents below. *)
Definition q (s : string) : string :=
  gostrings.map_bytes (λ c, if Ascii.eqb c "'"%char then "034"%char else c) s.

(** The model: unreachable for an instruction that mentions a
    network, otherwise it answers with a one-step plan. *)
Definition model (prompt : list llms.MessageContent) (tools : list llms.Tool)
    (w : list string) : list string * result (list llms.ContentChoice) :=
  match prompt with
  | human :: _ =>
    if gostrings.Contains (llms.Text human) "network"
    then (w, Err "connection refused")
    else (w, Ok [ {| llms.Content := q "[{'action':'pull_image'}]";
                     llms.ToolCalls := [] |} ])
  | [] => (w, Err "empty prompt")
  end.

Definition host_ops : @server.HostOps host :=
  {| server.Service_Name := λ svc : @Service host, svc;
     server.Service_RegisterTools := λ _ s w, (s, w);
     server.ToolHandler_call := λ (h : @ToolHandler host) s parameters w,
       match h with
       | pull_image => (s, w ++ ["image pulled"], None)
       | create_network => (s, w ++ ["network created"], None)
       | failing => (s, w, Some "daemon not running")
       | installer =>
         (@server.RegisterTool host "create_network" "Create a network" None
            create_network s,
          w, None)
       end;
     server.llm_GenerateContent := model |}.

Definition empty_server : @server.Server host :=
  {| server.tools := ∅; server.services := ∅ |}.

(** A server with three tools registered through [RegisterTool]. *)
Definition s0 : @server.Server host :=
  @server.RegisterTool host "pull_image" "Pull an image" None pull_image
    (@server.RegisterTool host "start" "Start the daemon" None failing
       (@server.RegisterTool host "install" "Install tools" None installer
          empty_server)).

(** A catalogue whose tools carry a service name, which no call of
    [RegisterTool] produces: one of service [Docker] and one whose
    service is the capital E with acute accent, U+00C9. *)
Definition E_acute : string := utf8.bytes [0xC3; 0x89].
Definition e_acute : string := utf8.bytes [0xC3; 0xA9].

Definition s_services : @server.Server host :=
  {| server.tools :=
       <["pull_image" :=
           @server.Build_RegisteredTool host "pull_image" "Pull an image" None
             pull_image "Docker"]>
         (<["brew" :=
              @server.Build_RegisteredTool host "brew" "Brew a coffee" None
                pull_image E_acute]> ∅);
     server.services := <["docker" := "docker"]> ∅ |}.

Definition state_of (s : @server.Server host) : @server.State host :=
  {| server.srv := s; server.world := []; server.systemPromptOverride := EmptyString;
     server.trace := [] |}.

Definition st0 : @server.State host := state_of s0.

(** [st0] after the handler of [pull_image] has run once. *)
Definition st1 : @server.State host :=
  {| server.srv := s0; server.world := ["image pulled"];
     server.systemPromptOverride := EmptyString;
     server.trace := [@server.HandlerCall host pull_image None] |}.

(** The action that has the given name and nothing else. *)
Definition action_named (n : string) : gmap string json :=
  {[ "action" := JStr n ]}.

Definition ExecutePlan := @server.ExecutePlan runtime host host_ops.
Definition CallTool := @server.CallTool host host_ops.
Definition listToolsForService := @server.listToolsForService runtime host.
Definition ProcessInstruction :=
  @server.ProcessInstruction runtime host host_ops prompt.

(** The loader's outside: one configuration file, one plugin whose
    import fails, one without a [Handler] symbol, one whose
    [Handler] has another signature. *)
Definition tool_pull : reg.ToolConfig :=
  {| reg.Name := "pull_image"; reg.Description := "Pull an image";
     reg.Enabled := true; reg.Schema := None; reg.Plugin := "plugins/pull" |}.

Definition tool_ghost : reg.ToolConfig :=
  {| reg.Name := "ghost"; reg.Description := "Disabled and broken";
     reg.Enabled := false; reg.Schema := None; reg.Plugin := "plugins/missing" |}.

Definition tool_start : reg.ToolConfig :=
  {| reg.Name := "start"; reg.Description := "Start the daemon";
     reg.Enabled := true; reg.Schema := None; reg.Plugin := "plugins/nohandler" |}.

Definition tool_network : reg.ToolConfig :=
  {| reg.Name := "create_network"; reg.Description := "Create a network";
     reg.Enabled := true; reg.Schema := None; reg.Plugin := "plugins/network" |}.

Definition tool_git : reg.ToolConfig :=
  {| reg.Name := "git_init"; reg.Description := "Init";
     reg.Enabled := true; reg.Schema := None; reg.Plugin := "plugins/missing" |}.

Definition cfg : reg.Config :=
  {| reg.Services :=
       [ {| reg.SvcName := "docker"; reg.SvcEnabled := true;
            reg.Tools := [tool_pull; tool_ghost; tool_start; tool_network] |};
         {| reg.SvcName := "git"; reg.SvcEnabled := false;
            reg.Tools := [tool_git] |} ] |}.

Definition interp : reg.Interp handler :=
  {| reg.Value := option handler;
     reg.loadConfig := λ path,
       if String.eqb path "plug.yaml" then Ok cfg
       else Err "failed to read YAML config: no such file";
     reg.Eval_import := λ plugin,
       if String.eqb plugin "plugins/missing" then Some "unable to find source"
       else None;
     reg.Eval_Handler := λ plugin,
       if String.eqb plugin "plugins/pull" then Ok (Some pull_image)
       else if String.eqb plugin "plugins/network" then Ok (Some create_network)
       else if String.eqb plugin "plugins/wrongtype" then Ok None
       else Err "undefined: Handler";
     reg.as_handler := λ v : option handler, v |}.

Definition RegisterToolsFromConfig :=
  @reg.RegisterToolsFromConfig handler interp (@server.Server host)
    (@Server_Registry host).

End demo.

(** ** Vocabulary of the properties *)

Module spec.

Import gostrings server.

(** Equality up to ASCII case folding: the two strings have the same
    bytes once 'A'..'Z' are folded onto 'a'..'z'. *)
Definition ascii_fold_eq (a b : string) : Prop :=
  map_bytes lower_byte a = map_bytes lower_byte b.

Section Dispatch.

Context `{RT : GoRuntime} `{HT : Host} `{HO : !HostOps} `{SP : SystemPrompt}.

(** A response is well formed when it carries the protocol version and
    exactly one of its result and its error. *)
Definition well_formed (resp : mcp.RPCResponse) : Prop :=
  mcp.Version resp = mcp.JSONRPCVersion ∧
  (mcp.Result resp = None ↔ is_Some (mcp.Error resp)).

(** The actions a plan document decodes to, when it is an object or an
    array of objects. *)
Definition decode_plan (planJSON : string) : option (list (gmap string json)) :=
  match json_Unmarshal planJSON with
  | Ok (JArr v) => plan_elements v
  | Ok (JObj m) => Some [m]
  | _ => None
  end.

(** [steps_ok plan st calls st']: from [st], every action of [plan]
    names a registered tool and its handler returns no error; [calls]
    are the handler calls made, one for each action, and [st'] is the
    state after the last of them. *)
Inductive steps_ok : list (gmap string json) → State → list Event → State → Prop :=
  | steps_ok_nil st : steps_ok [] st [] st
  | steps_ok_cons action rest n tool st st1 calls st2 :
      action !! "action" = Some (JStr n) →
      n ≠ EmptyString →
      tools (srv st) !! resolved_name n = Some tool →
      call_handler (Handler tool) (parameters_field action) st = (None, st1) →
      steps_ok rest st1 calls st2 →
      steps_ok (action :: rest) st
        (HandlerCall (Handler tool) (parameters_field action) :: calls) st2.

(** The action [a] with its name replaced by [functions.] followed by
    [n]. *)
Definition prefixed (n : string) (a : gmap string json) : gmap string json :=
  <["action" := JStr ("functions." +:+ n)]> a.

(** [prefix_variant raw raw']: the plan [raw'] is the plan [raw] with
    the prefix [functions.] put before the name [n] of one action,
    where [n] is not empty and does not start with the prefix
    itself. *)
Inductive prefix_variant : json → json → Prop :=
  | prefix_variant_object a n :
      a !! "action" = Some (JStr n) →
      n ≠ EmptyString →
      HasPrefix n "functions." = false →
      prefix_variant (JObj a) (JObj (prefixed n a))
  | prefix_variant_array pre a n post :
      a !! "action" = Some (JStr n) →
      n ≠ EmptyString →
      HasPrefix n "functions." = false →
      prefix_variant (JArr (pre ++ JObj a :: post))
                     (JArr (pre ++ JObj (prefixed n a) :: post)).

(** The servers whose catalogue was filled through [RegisterTool]
    alone, starting from the empty map that [NewServer] makes. *)
Inductive via_RegisterTool : Server → Prop :=
  | via_RegisterTool_new svcs :
      via_RegisterTool {| tools := ∅; services := svcs |}
  | via_RegisterTool_call name description inputSchema handler s :
      via_RegisterTool s →
      via_RegisterTool (RegisterTool name description inputSchema handler s).

(** The registered tools, in the order of [map_to_list]. *)
Definition catalogue (s : Server) : list RegisteredTool :=
  (map_to_list (tools s)).*2.

(** The state a request starts in. *)
Definition initial (s : Server) (w : World) : State :=
  {| srv := s; world := w; systemPromptOverride := EmptyString; trace := [] |}.

(** The state in which [ProcessInstruction] calls the model: the
    override holds the current system prompt. *)
Definition planning_state (st : State) : State :=
  (SetSystemPromptOverride (utils.GetSystemPrompt (systemPromptOverride st)) st).2.

(** The answer of the model to the request [CallLLM] makes in [st]. *)
Definition model_answer (input : string) (st : State)
    : result (list llms.ContentChoice) :=
  (llm_GenerateContent
     (llm_prompt input (utils.GetSystemPrompt (systemPromptOverride st)))
     (registered_tools (srv st)) (world st)).2.

(** The test of [listToolsForService], as a proposition on a tool. *)
Definition same_lowercase (serviceName : string) (tool : RegisteredTool) : Prop :=
  ToLower unicode_ToLower (ServiceName tool) = ToLower unicode_ToLower serviceName.

#[export] Instance same_lowercase_dec serviceName tool :
  Decision (same_lowercase serviceName tool).
Proof. unfold same_lowercase. apply _. Defined.

(** The server [s] without the entry of [name]. *)
Definition without_tool (name : string) (s : Server) : Server :=
  {| tools := delete name (tools s); services := services s |}.

(** The names of the registered services. *)
Definition service_names (s : Server) : list string :=
  Service_Name <$> (map_to_list (services s)).*2.

(** The events of a trace that are calls of the model. *)
Definition is_model_call (e : Event) : bool :=
  match e with
  | ModelCall _ _ => true
  | HandlerCall _ _ => false
  end.

End Dispatch.

Section Load.

Context {handler : Type} `{IN : !reg.Interp handler}
        {R : Type} `{RG : !Registry R handler}.

(** The tools the loader is to load, in order: the enabled tools of
    the enabled services. *)
Definition enabled_tools (svcs : list reg.ServiceConfig) : list reg.ToolConfig :=
  concat ((λ svc, if reg.SvcEnabled svc
                  then List.filter reg.Enabled (reg.Tools svc) else []) <$> svcs).

(** A configuration without its disabled entries. *)
Definition strip_disabled (svcs : list reg.ServiceConfig) : list reg.ServiceConfig :=
  (λ svc, {| reg.SvcName := reg.SvcName svc; reg.SvcEnabled := true;
             reg.Tools := List.filter reg.Enabled (reg.Tools svc) |})
    <$> List.filter reg.SvcEnabled svcs.

(** The three ways in which loading a tool fails. *)
Definition load_fails (tool : reg.ToolConfig) : Prop :=
  (∃ err, reg.Eval_import (reg.Plugin tool) = Some err) ∨
  (reg.Eval_import (reg.Plugin tool) = None ∧
   ∃ err, reg.Eval_Handler (reg.Plugin tool) = Err err) ∨
  (reg.Eval_import (reg.Plugin tool) = None ∧
   ∃ v, reg.Eval_Handler (reg.Plugin tool) = Ok v ∧ reg.as_handler v = None).

(** Loading a tool succeeds with handler [h]. *)
Definition loads (tool : reg.ToolConfig) (h : handler) : Prop :=
  reg.Eval_import (reg.Plugin tool) = None ∧
  ∃ v, reg.Eval_Handler (reg.Plugin tool) = Ok v ∧ reg.as_handler v = Some h.

(** The registry after the registration of the given tools, each with
    the handler it loads to, in order. *)
Definition register_all (tools : list reg.ToolConfig) (r : R) : R :=
  foldl (λ r tool,
           match (reg.load_handler tool).2 with
           | Ok h =>
             Registry_RegisterTool (reg.Name tool) (reg.Description tool)
               (reg.Schema tool) h r
           | Err _ => r
           end) r tools.

(** The calls made for a tool that loads. *)
Definition load_events (tool : reg.ToolConfig) : list reg.LoadEvent :=
  [reg.EvalImport (reg.Plugin tool); reg.EvalSymbol (reg.Plugin tool);
   reg.Registered (reg.Name tool)].

(** The tool an event of the loader is about. *)
Definition event_of (ev : reg.LoadEvent) (tool : reg.ToolConfig) : Prop :=
  match ev with
  | reg.EvalImport plugin | reg.EvalSymbol plugin => reg.Plugin tool = plugin
  | reg.Registered name => reg.Name tool = name
  end.

End Load.

(** A configuration file for the compiled-plugin loader whose entries
    carry an [enabled] key, as the entries of the other loader's files
    do. The [ServiceConfig] and [ToolConfig] that this loader decodes
    into have no field for the key, and [yaml.Unmarshal] passes over a
    key that has no field: [decoded] is the configuration the loader
    gets, [enabled_entries] the file without the entries it marks as
    disabled. *)
Record flagged_tool := { tool_fields : reg_plugin.ToolConfig; tool_enabled : bool }.

Record flagged_service := {
  svc_name : string;
  svc_enabled : bool;
  svc_tools : list flagged_tool;
}.

Definition decoded (doc : list flagged_service) : reg_plugin.Config :=
  {| reg_plugin.Services :=
       (λ svc, {| reg_plugin.SvcName := svc_name svc;
                  reg_plugin.Tools := tool_fields <$> svc_tools svc |}) <$> doc |}.

Definition enabled_entries (doc : list flagged_service) : list flagged_service :=
  (λ svc, {| svc_name := svc_name svc; svc_enabled := true;
             svc_tools := List.filter tool_enabled (svc_tools svc) |})
    <$> List.filter svc_enabled doc.

End spec.

(** ** The HTTP endpoint of [StartRPCServer] *)

Module transport.

Import server.

(** [mcp.RPCRequest] defines the JSON-RPC request structure. *)
Record RPCRequest := {
  Version : string;
  Method : string;
  Params : list json;
  ID : Z;
}.

(** What the handler of [/rpc] leaves in the response writer:
    - [HTTPError text code]: the call [http.Error(w, text, code)];
    - [JSONReply reply]: the marshalled [reply], written with content
      type [application/json];
    - [Served output]: whatever the JSON-RPC codec wrote. *)
Inductive Response :=
  | HTTPError (text : string) (code : Z)
  | JSONReply (reply : mcp.RPCResponse)
  | Served (output : string).

Definition StatusBadRequest : Z := 400.
Definition StatusMethodNotAllowed : Z := 405.
Definition StatusInternalServerError : Z := 500.
Definition MethodPost : string := "POST".

(** What the endpoint takes from its libraries:
    - [decode_RPCRequest data]: [json.Unmarshal(data, &req)] with
      [req] an [mcp.RPCRequest];
    - [ServeRequest data]: [rpcServer.ServeRequest] on a codec that
      reads [data]; it runs the method the request names on the server
      and writes the response. *)
Class Wire `{Host} := {
  decode_RPCRequest : string → result RPCRequest;
  ServeRequest : string → State → string * State;
}.

Section Handler.

Context `{RT : GoRuntime} `{HT : Host} `{HO : !HostOps} `{SP : SystemPrompt}
        `{WI : !Wire}.

(** [var reply mcp.RPCResponse]. *)
Definition zero_reply : mcp.RPCResponse :=
  {| mcp.Version := EmptyString; mcp.Result := None; mcp.Error := None;
     mcp.ID := None |}.

(** The function registered for [/rpc]. [method] is the request's
    method and [body] the outcome of [io.ReadAll(r.Body)]. The replies
    marshalled here hold a [Result] that is nil or was itself produced
    by [json.Marshal], so marshalling them cannot fail. *)
Definition handle_rpc (method : string) (body : result string) : M Response :=
  if negb (String.eqb method MethodPost) then
    mret (HTTPError "JSON-RPC requires POST" StatusMethodNotAllowed)
  else
    match body with
    | Err _ => mret (HTTPError "Failed to read request" StatusBadRequest)
    | Ok data =>
      let is_rpc :=
        match decode_RPCRequest data with
        | Ok req => negb (String.eqb (Method req) EmptyString)
        | Err _ => false
        end in
      if is_rpc then
        (λ st, let '(output, st') := ServeRequest data st in (Served output, st'))
      else
        let instruction := data in
        r ← ProcessInstruction instruction zero_reply;
        match r.1 with
        | Some err => mret (HTTPError err StatusInternalServerError)
        | None => mret (JSONReply r.2)
        end
    end.

End Handler.

End transport.

(** ** More vocabulary *)

Module vocab.

Import gostrings server spec.

Section Dispatch.

Context `{RT : GoRuntime} `{HT : Host} `{HO : !HostOps} `{SP : SystemPrompt}.

(** The events of a trace that are calls of a handler. *)
Definition is_handler_call (e : Event) : bool := negb (is_model_call e).

(** The state with the system prompt override cleared. *)
Definition cleared (st : State) : State := (ClearSystemPromptOverride st).2.

(** [calls_fail toolCalls st st']: each of the model's tool calls
    either carries no function call or is one that [invokeTool]
    answers with an error; [st'] is the state after the last one. *)
Inductive calls_fail : list llms.ToolCall → State → State → Prop :=
  | calls_fail_nil st : calls_fail [] st st
  | calls_fail_skip toolCall rest st st' :
      llms.FunctionCall_ toolCall = None →
      calls_fail rest st st' →
      calls_fail (toolCall :: rest) st st'
  | calls_fail_error toolCall functionCall rest res err st st1 st' :
      llms.FunctionCall_ toolCall = Some functionCall →
      invokeTool functionCall st = ((res, Some err), st1) →
      calls_fail rest st1 st' →
      calls_fail (toolCall :: rest) st st'.

(** The text [invokeTool] returns for a tool that ran. *)
Definition confirmation (name : string) : string :=
  "Tool " +:+ name +:+ " executed successfully".

(** The action of a one-step plan that names [name] and carries the
    parameters [parameters]. *)
Definition action_for (name : string) (parameters : gmap string json)
    : gmap string json :=
  <["action" := JStr name]> (<["parameters" := JObj parameters]> ∅).

(** The service name that [ExtractServiceName] finds in a lower-cased
    instruction: [docker] before [git]. *)
Definition service_hint (lowerInst : string) : option string :=
  if Contains lowerInst "docker" then Some "docker"
  else if Contains lowerInst "git" then Some "git"
  else None.

End Dispatch.

Section Plugins.

Context `{HT : Host} `{PL : !reg_plugin.Plugins} {R : Type} `{RG : !Registry R ToolHandler}.

(** The tools of all the services, in order. *)
Definition plugin_tools (svcs : list reg_plugin.ServiceConfig)
    : list reg_plugin.ToolConfig :=
  concat (reg_plugin.Tools <$> svcs).

(** The catalogue entry [RegisterTool] makes for a configured tool
    whose plugin provides the handler [h]. *)
Definition entry_of (tool : reg_plugin.ToolConfig) (h : ToolHandler) : RegisteredTool :=
  {| Name := reg_plugin.Name tool; Description := reg_plugin.Description tool;
     InputSchema := reg_plugin.Schema tool; Handler := h;
     ServiceName := EmptyString |}.

(** The registry after the registration of the given tools, each with
    the handler its plugin provides. *)
Definition plugin_register_all (tools : list reg_plugin.ToolConfig) (r : R) : R :=
  foldl (λ r tool,
           match reg_plugin.load_handler tool with
           | Ok h =>
             Registry_RegisterTool (reg_plugin.Name tool)
               (reg_plugin.Description tool) (reg_plugin.Schema tool) h r
           | Err _ => r
           end) r tools.

End Plugins.

End vocab.

(** ** More of the concrete host *)

Module demo2.

Import demo.

(** A model that answers with function calls: for an instruction that
    mentions [start], one call of the failing tool; otherwise a call
    without a function, a call of the failing tool and a call of
    [pull_image] with the arguments [null], followed by a call that is
    never reached. *)
Definition call_of (name arguments : string) : llms.ToolCall :=
  {| llms.FunctionCall_ :=
       Some {| llms.Name := name; llms.Arguments := arguments |} |}.

Definition model_fc (prompt : list llms.MessageContent) (tools : list llms.Tool)
    (w : list string) : list string * result (list llms.ContentChoice) :=
  match prompt with
  | human :: _ =>
    if gostrings.Contains (llms.Text human) "start"
    then (w, Ok [ {| llms.Content := EmptyString;
                     llms.ToolCalls := [call_of "start" "{}"] |} ])
    else (w, Ok [ {| llms.Content := EmptyString;
                     llms.ToolCalls :=
                       [ {| llms.FunctionCall_ := None |};
                         call_of "start" "{}";
                         call_of "pull_image" "null";
                         call_of "install" "{}" ] |} ])
  | [] => (w, Err "empty prompt")
  end.

Definition host_ops_fc : @server.HostOps host :=
  {| server.Service_Name := @server.Service_Name host host_ops;
     server.Service_RegisterTools := @server.Service_RegisterTools host host_ops;
     server.ToolHandler_call := @server.ToolHandler_call host host_ops;
     server.llm_GenerateContent := model_fc |}.

Definition ProcessInstruction_fc :=
  @server.ProcessInstruction runtime host host_ops_fc prompt.

(** The states of a request on [s0]: after the model call for
    [instruction], and after the handler calls [calls] that left the
    world [w]; [override] is the system prompt override. *)
Definition after_model (instruction override : string)
    (calls : list (@server.Event host)) (w : list string) : @server.State host :=
  {| server.srv := s0; server.world := w;
     server.systemPromptOverride := override;
     server.trace :=
       @server.ModelCall host
         (server.llm_prompt instruction "You generate JSON plans.")
         (@server.registered_tools runtime host s0) :: calls |}.

Definition call_start : @server.Event host :=
  @server.HandlerCall host failing (Some ∅).

Definition call_pull : @server.Event host :=
  @server.HandlerCall host pull_image None.

(** [st0] after [pull_image] and then the failing handler have run. *)
Definition st_failed : @server.State host :=
  {| server.srv := s0; server.world := ["image pulled"];
     server.systemPromptOverride := EmptyString;
     server.trace := [call_pull; @server.HandlerCall host failing None] |}.

Definition tool_start_entry : @server.RegisteredTool host :=
  @server.Build_RegisteredTool host "start" "Start the daemon" None failing
    EmptyString.

Definition tool_pull_entry : @server.RegisteredTool host :=
  @server.Build_RegisteredTool host "pull_image" "Pull an image" None pull_image
    EmptyString.

(** The wire: a body is a JSON-RPC request when it is an object whose
    [method] is a string; the codec's output is not looked at. *)
Definition wire : @transport.Wire host :=
  {| transport.decode_RPCRequest := λ data,
       match jsondec.Unmarshal data with
       | Ok (JObj m) =>
         match m !! "method" with
         | Some (JStr method) =>
           Ok {| transport.Version := "2.0"; transport.Method := method;
                 transport.Params := []; transport.ID := 0 |}
         | None =>
           Ok {| transport.Version := EmptyString; transport.Method := EmptyString;
                 transport.Params := []; transport.ID := 0 |}
         | Some _ => Err "json: cannot unmarshal value into Go struct field"
         end
       | Ok _ => Err "json: cannot unmarshal value into Go value of type mcp.RPCRequest"
       | Err e => Err e
       end;
     transport.ServeRequest := λ data st, ("served", st) |}.

Definition handle_rpc :=
  @transport.handle_rpc runtime host host_ops prompt wire.

(** Compiled plugins: one that opens and has its symbol, one whose
    file cannot be opened. *)
Definition plugin_pull : reg_plugin.ToolConfig :=
  {| reg_plugin.Name := "pull_image"; reg_plugin.Description := "Pull an image";
     reg_plugin.Schema := None;
     reg_plugin.Plugin := {| reg_plugin.Path := "pull.so";
                             reg_plugin.Symbol := "PullImage" |} |}.

Definition plugin_broken : reg_plugin.ToolConfig :=
  {| reg_plugin.Name := "start"; reg_plugin.Description := "Start the daemon";
     reg_plugin.Schema := None;
     reg_plugin.Plugin := {| reg_plugin.Path := "missing.so";
                             reg_plugin.Symbol := "Start" |} |}.

Definition plugin_network : reg_plugin.ToolConfig :=
  {| reg_plugin.Name := "create_network";
     reg_plugin.Description := "Create a network";
     reg_plugin.Schema := None;
     reg_plugin.Plugin := {| reg_plugin.Path := "pull.so";
                             reg_plugin.Symbol := "CreateNetwork" |} |}.

Definition plugin_cfg (tools : list reg_plugin.ToolConfig) : reg_plugin.Config :=
  {| reg_plugin.Services :=
       [ {| reg_plugin.SvcName := "docker"; reg_plugin.Tools := tools |} ] |}.

Definition plugins : @reg_plugin.Plugins host :=
  {| reg_plugin.PluginHandle := string;
     reg_plugin.SymbolValue := option handler;
     reg_plugin.loadConfig := λ path,
       if String.eqb path "good.yaml" then Ok (plugin_cfg [plugin_pull; plugin_network])
       else if String.eqb path "bad.yaml"
       then Ok (plugin_cfg [plugin_pull; plugin_broken; plugin_network])
       else Err "error reading YAML config: no such file";
     reg_plugin.plugin_Open := λ path,
       if String.eqb path "pull.so" then Ok path else Err "plugin.Open: not found";
     reg_plugin.Lookup := λ p sym,
       if String.eqb sym "PullImage" then Ok (Some pull_image)
       else if String.eqb sym "CreateNetwork" then Ok (Some create_network)
       else Err "symbol not found";
     reg_plugin.as_handler := λ v : option handler, v : option (@ToolHandler host) |}.

Definition RegisterToolsFromPlugins :=
  @reg_plugin.RegisterToolsFromConfig host plugins (@server.Server host)
    (@Server_Registry host).

(** A configuration whose enabled tools all load, two of them under
    one name. *)
Definition tool_pull_again : reg.ToolConfig :=
  {| reg.Name := "pull_image"; reg.Description := "Pull an image, again";
     reg.Enabled := true; reg.Schema := None; reg.Plugin := "plugins/network" |}.

Definition cfg_ok : reg.Config :=
  {| reg.Services :=
       [ {| reg.SvcName := "docker"; reg.SvcEnabled := true;
            reg.Tools := [tool_pull; tool_ghost; tool_network; tool_pull_again] |};
         {| reg.SvcName := "git"; reg.SvcEnabled := false;
            reg.Tools := [tool_git] |} ] |}.

Definition interp_ok : reg.Interp handler :=
  {| reg.Value := option handler;
     reg.loadConfig := λ path,
       if String.eqb path "ok.yaml" then Ok cfg_ok
       else Err "failed to read YAML config: no such file";
     reg.Eval_import := @reg.Eval_import handler interp;
     reg.Eval_Handler := @reg.Eval_Handler handler interp;
     reg.as_handler := λ v : option handler, v |}.

Definition RegisterToolsFromConfig_ok :=
  @reg.RegisterToolsFromConfig handler interp_ok (@server.Server host)
    (@Server_Registry host).

End demo2.

(** * Properties of the dispatcher *)

Module dispatch.
Import gostrings server spec.

Ltac unfold_M := unfold mbind, M_bind, mret, M_ret, get_srv.

Section Facts.
Context `{RT : GoRuntime} `{HT : Host} `{HO : !HostOps} `{SP : SystemPrompt}.

Lemma String_eqb_empty (s : string) : String.eqb s EmptyString = false ↔ s ≠ EmptyString.
Proof. rewrite String.eqb_neq. reflexivity. Qed.

Lemma call_handler_trace h p st e st' :
  call_handler h p st = (e, st') →
  trace st' = trace st ++ [HandlerCall h p] ∧
  systemPromptOverride st' = systemPromptOverride st.
Proof.
  unfold call_handler.
  destruct (ToolHandler_call h (srv st) p (world st)) as [[s' w'] err].
  intros [= <- <-]. split; reflexivity.
Qed.

Lemma run_plan_cons a rest st :
  run_plan (a :: rest) st =
  let '(actionType, ok) := action_field a in
  if negb ok || String.eqb actionType EmptyString then
    (Some (mcp.NewError (-32602) "invalid action format"), st)
  else match tools (srv st) !! resolved_name actionType with
  | Some tool =>
    let '(err, st') := call_handler (Handler tool) (parameters_field a) st in
    match err with
    | Some err =>
      (Some (mcp.NewError (-32000)
               ("failed to execute tool " +:+ resolved_name actionType +:+ ": " +:+ err)),
       st')
    | None => run_plan rest st'
    end
  | None =>
    (Some (mcp.NewError (-32601) ("unknown action: " +:+ resolved_name actionType)), st)
  end.
Proof.
  cbn [run_plan]. destruct (action_field a) as [n ok].
  destruct (negb ok || String.eqb n EmptyString); [reflexivity|].
  unfold_M.
  destruct (tools (srv st) !! resolved_name n); [|reflexivity].
  destruct (call_handler _ _ st) as [[e|] st']; reflexivity.
Qed.

Lemma action_field_named a n :
  a !! "action" = Some (JStr n) → action_field a = (n, true).
Proof. intros H. unfold action_field. rewrite H. reflexivity. Qed.

(** A step that succeeds hands over to the rest of the plan. *)
Lemma steps_ok_run pre st calls st' rest :
  steps_ok pre st calls st' → run_plan (pre ++ rest) st = run_plan rest st'.
Proof.
  induction 1 as [|a pre' n tool st st1 calls st2 Ha Hn Ht Hc _ IH]; [reflexivity|].
  rewrite <- app_comm_cons, run_plan_cons, (action_field_named _ _ Ha).
  apply String_eqb_empty in Hn. rewrite Hn. cbn [negb orb].
  rewrite Ht, Hc. exact IH.
Qed.

Lemma steps_ok_trace pre st calls st' :
  steps_ok pre st calls st' →
  trace st' = trace st ++ calls ∧ length calls = length pre ∧
  systemPromptOverride st' = systemPromptOverride st.
Proof.
  induction 1 as [|a pre' n tool st st1 calls st2 Ha Hn Ht Hc _ IH].
  - rewrite app_nil_r. done.
  - destruct IH as (IH1 & IH2 & IH3).
    apply call_handler_trace in Hc as [Hc1 Hc2].
    rewrite IH1, Hc1, <- app_assoc. cbn. rewrite IH2, IH3, Hc2. done.
Qed.

(** Conversely, a plan that runs to its end was made of such steps. *)
Lemma run_plan_ok_steps plan st st' :
  run_plan plan st = (None, st') → ∃ calls, steps_ok plan st calls st'.
Proof.
  revert st. induction plan as [|a rest IH]; intros st.
  - cbn. unfold_M. intros [= <-]. eexists. constructor.
  - rewrite run_plan_cons. unfold action_field.
    destruct (a !! "action") as [[| | |n| |]|] eqn:Ha; cbn [negb orb]; try discriminate.
    destruct (String.eqb n EmptyString) eqn:Hn; [discriminate|].
    destruct (tools (srv st) !! resolved_name n) as [tool|] eqn:Ht; [|discriminate].
    destruct (call_handler (Handler tool) (parameters_field a) st) as [[e|] st1] eqn:Hc;
      [discriminate|].
    intros Hrest. destruct (IH _ Hrest) as [calls Hcalls].
    eexists. econstructor; eauto. by apply String_eqb_empty.
Qed.

(** Whatever the plan, [run_plan] reports one of the three codes. *)
Lemma run_plan_failure_code plan st e st' :
  run_plan plan st = (Some e, st') →
  mcp.Code e = -32602 ∨ mcp.Code e = -32601 ∨ mcp.Code e = -32000.
Proof.
  revert st. induction plan as [|a rest IH]; intros st.
  - cbn. unfold_M. discriminate.
  - rewrite run_plan_cons. destruct (action_field a) as [n ok].
    destruct (negb ok || String.eqb n EmptyString).
    { intros [= <- <-]. by left. }
    destruct (tools (srv st) !! resolved_name n) as [tool|].
    2:{ intros [= <- <-]. right. by left. }
    destruct (call_handler _ _ st) as [[err|] st1].
    { intros [= <- <-]. right. by right. }
    apply IH.
Qed.

Lemma ExecutePlan_empty reply st :
  ExecutePlan EmptyString reply st =
  ((None, with_error new_response
            (mcp.NewError (-32602) "ExecutePlan received empty plan")), st).
Proof. reflexivity. Qed.

Lemma ExecutePlan_unparsed planJSON reply st err :
  planJSON ≠ EmptyString →
  json_Unmarshal planJSON = Err err →
  ExecutePlan planJSON reply st =
  ((None, with_error new_response
            (mcp.NewError (-32700) ("failed to parse plan JSON: " +:+ err))), st).
Proof.
  intros Hne Hu. unfold ExecutePlan. apply String_eqb_empty in Hne.
  rewrite Hne, Hu. reflexivity.
Qed.

(** What [ExecutePlan] does with a document that decodes to a plan. *)
Lemma ExecutePlan_decoded planJSON reply st plan :
  planJSON ≠ EmptyString →
  decode_plan planJSON = Some plan →
  ExecutePlan planJSON reply st =
  match plan with
  | [] =>
    ((None, with_error new_response
              (mcp.NewError (-32602) "received empty plan from LLM")), st)
  | _ :: _ =>
    let '(failure, st') := run_plan plan st in
    ((None, match failure with
            | Some e => with_error new_response e
            | None => with_result new_response plan_success
            end), st')
  end.
Proof.
  intros Hne Hd. unfold ExecutePlan, decode_plan in *. apply String_eqb_empty in Hne.
  rewrite Hne. destruct (json_Unmarshal planJSON) as [raw|err]; [|discriminate].
  destruct raw as [| | | |v|m]; try discriminate.
  - rewrite Hd. destruct plan as [|a l]; [reflexivity|].
    cbn [length Nat.eqb]. unfold_M.
    destruct (run_plan _ st) as [[e|] st']; reflexivity.
  - injection Hd as <-. cbn [length Nat.eqb]. unfold_M.
    destruct (run_plan _ st) as [[e|] st']; reflexivity.
Qed.

(** A document that does not decode to a plan is a parse error. *)
Lemma ExecutePlan_undecoded planJSON reply st :
  planJSON ≠ EmptyString →
  decode_plan planJSON = None →
  ∃ msg, ExecutePlan planJSON reply st =
         ((None, with_error new_response (mcp.NewError (-32700) msg)), st).
Proof.
  intros Hne Hd. unfold ExecutePlan, decode_plan in *. apply String_eqb_empty in Hne.
  rewrite Hne. destruct (json_Unmarshal planJSON) as [raw|err]; [|by eexists].
  destruct raw as [| | | |v|m]; try discriminate; try by eexists.
  rewrite Hd. by eexists.
Qed.


Lemma well_formed_error e : well_formed (with_error new_response e).
Proof. split; [reflexivity|]. cbn. split; [eauto | done]. Qed.

Lemma well_formed_result v : well_formed (with_result new_response v).
Proof. split; [reflexivity|]. cbn. split; [done | by intros [? ?]]. Qed.

Lemma well_formed_list_reply v : well_formed (list_reply v).
Proof. split; [reflexivity|]. cbn. split; [done | by intros [? ?]]. Qed.

(** [ExecutePlan] never returns an error of its own: the outcome is in
    the response, which carries an error unless every step ran. *)
Lemma ExecutePlan_envelope planJSON reply st :
  ∃ resp st',
    ExecutePlan planJSON reply st = ((None, resp), st') ∧
    well_formed resp ∧
    (mcp.Error resp = None →
     planJSON ≠ EmptyString ∧
     ∃ plan calls,
       decode_plan planJSON = Some plan ∧ plan ≠ [] ∧ steps_ok plan st calls st').
Proof.
  destruct (decide (planJSON = EmptyString)) as [->|Hne].
  { rewrite ExecutePlan_empty. do 2 eexists. split; [reflexivity|].
    split; [apply well_formed_error | discriminate]. }
  destruct (decode_plan planJSON) as [plan|] eqn:Hd.
  - rewrite (ExecutePlan_decoded _ _ _ _ Hne Hd). destruct plan as [|a l].
    { do 2 eexists. split; [reflexivity|].
      split; [apply well_formed_error | discriminate]. }
    destruct (run_plan (a :: l) st) as [[e|] st'] eqn:Hrun.
    + do 2 eexists. split; [reflexivity|].
      split; [apply well_formed_error | discriminate].
    + do 2 eexists. split; [reflexivity|]. split; [apply well_formed_result|].
      intros _. split; [done|].
      destruct (run_plan_ok_steps _ _ _ Hrun) as [calls Hcalls].
      exists (a :: l), calls. done.
  - destruct (ExecutePlan_undecoded _ reply st Hne Hd) as [msg ->].
    do 2 eexists. split; [reflexivity|].
    split; [apply well_formed_error | discriminate].
Qed.

Lemma CallTool_envelope args reply st :
  ∃ resp st',
    CallTool args reply st = ((None, resp), st') ∧
    well_formed resp ∧
    (mcp.Error resp = None →
     ∃ tool, tools (srv st) !! mcp.ToolName args = Some tool ∧
             call_handler (Handler tool) (mcp.Parameters args) st = (None, st')).
Proof.
  unfold CallTool. unfold_M.
  destruct (tools (srv st) !! mcp.ToolName args) as [tool|] eqn:Ht.
  - destruct (call_handler (Handler tool) (mcp.Parameters args) st) as [[e|] st'] eqn:Hc.
    + do 2 eexists. split; [reflexivity|].
      split; [apply well_formed_error | discriminate].
    + do 2 eexists. split; [reflexivity|]. split; [apply well_formed_result|].
      intros _. by exists tool.
  - do 2 eexists. split; [reflexivity|].
    split; [apply well_formed_error | discriminate].
Qed.

(** [ProcessInstruction] on an instruction that is no listing query. *)
Lemma ProcessInstruction_planning instruction reply st :
  utils.IsListServicesQuery (ToLower unicode_ToLower instruction) = false →
  utils.IsListToolsQuery (ToLower unicode_ToLower instruction) = false →
  ProcessInstruction instruction reply st =
  let '(planned, st1) := CallLLM instruction EmptyString (planning_state st) in
  match planned.1 with
  | Some err =>
    ((Some ("ProcessInstruction: failed to call LLM: " +:+ err), reply),
     (ClearSystemPromptOverride st1).2)
  | None =>
    let '(executed, st2) := ExecutePlan planned.2 reply st1 in
    ((executed.1, executed.2), (ClearSystemPromptOverride st2).2)
  end.
Proof.
  intros Hs Ht. unfold ProcessInstruction. rewrite Hs, Ht.
  unfold mbind, M_bind, mret, M_ret, planning_state, GetSystemPrompt. cbn.
  destruct (CallLLM instruction EmptyString _) as [[[err|] plan] st1]; cbn; [reflexivity|].
  destruct (ExecutePlan_envelope plan reply st1) as (resp & st2 & -> & _). reflexivity.
Qed.


Lemma invoke_tool_calls_no_error toolCalls reply st :
  (invoke_tool_calls toolCalls reply st).1.1 = None.
Proof.
  revert st. induction toolCalls as [|tc rest IH]; intros st; [reflexivity|].
  cbn [invoke_tool_calls]. destruct (llms.FunctionCall_ tc) as [fc|]; [|apply IH].
  unfold_M. destruct (invokeTool fc st) as [[res [e|]] st']; cbn; [apply IH | reflexivity].
Qed.

(** [CallLLM] calls the model once, and fails exactly when that call
    fails or brings no choice. *)
Lemma CallLLM_error input reply st :
  (CallLLM input reply st).1.1 =
    match model_answer input st with
    | Err err => Some ("LLM API error: " +:+ err)
    | Ok [] => Some "LLM returned an empty response"
    | Ok (_ :: _) => None
    end.
Proof.
  unfold CallLLM, model_answer. unfold_M. unfold GetSystemPrompt, GenerateContent.
  destruct (llm_GenerateContent _ _ (world st)) as [w' [[|c cs]|err]]; cbn;
    try reflexivity.
  destruct (llms.ToolCalls c) as [|tc tcs]; [reflexivity|].
  apply invoke_tool_calls_no_error.
Qed.

Section Claims.

(** C1 (as amended). [ExecutePlan] and [CallTool] never return an
    error: whatever fails (an empty plan, a plan that does not parse,
    an unknown action or tool, a handler error), they return a well
    formed response whose error is set. [ProcessInstruction] does the
    same. A listing query is answered with a result and changes
    nothing. Once the model has answered, the reply is the one
    [ExecutePlan] gives for the plan that [CallLLM] returned, so that
    its error is set unless that plan was not empty, decoded, and ran
    to its last step. When the model call fails, [ProcessInstruction]
    returns the error itself and leaves the reply as it was. *)
Theorem dispatcher_errors_in_envelope :
  (∀ planJSON reply st,
     ∃ resp st',
       ExecutePlan planJSON reply st = ((None, resp), st') ∧
       well_formed resp ∧
       (mcp.Error resp = None →
        planJSON ≠ EmptyString ∧
        ∃ plan calls,
          decode_plan planJSON = Some plan ∧ plan ≠ [] ∧ steps_ok plan st calls st')) ∧
  (∀ args reply st,
     ∃ resp st',
       CallTool args reply st = ((None, resp), st') ∧
       well_formed resp ∧
       (mcp.Error resp = None →
        ∃ tool, tools (srv st) !! mcp.ToolName args = Some tool ∧
                call_handler (Handler tool) (mcp.Parameters args) st = (None, st'))) ∧
  (∀ instruction reply st,
     let r := ProcessInstruction instruction reply st in
     if utils.IsListServicesQuery (ToLower unicode_ToLower instruction)
        || utils.IsListToolsQuery (ToLower unicode_ToLower instruction)
     then
       r.1.1 = None ∧ well_formed r.1.2 ∧ mcp.Error r.1.2 = None ∧ r.2 = st
     else
       match model_answer instruction (planning_state st) with
       | Err err =>
         r.1 = (Some ("ProcessInstruction: failed to call LLM: "
                      +:+ ("LLM API error: " +:+ err)), reply)
       | Ok [] =>
         r.1 = (Some ("ProcessInstruction: failed to call LLM: "
                      +:+ "LLM returned an empty response"), reply)
       | Ok (_ :: _) =>
         ∃ planJSON st1,
           CallLLM instruction EmptyString (planning_state st) = ((None, planJSON), st1) ∧
           r.1 = (ExecutePlan planJSON reply st1).1 ∧
           r.2 = (ClearSystemPromptOverride (ExecutePlan planJSON reply st1).2).2 ∧
           r.1.1 = None ∧ well_formed r.1.2 ∧
           (mcp.Error r.1.2 = None →
            planJSON ≠ EmptyString ∧
            ∃ plan calls st2,
              decode_plan planJSON = Some plan ∧ plan ≠ [] ∧
              steps_ok plan st1 calls st2)
       end).
Proof.
  split; [exact ExecutePlan_envelope|]. split; [exact CallTool_envelope|].
  intros instruction reply st r. subst r.
  destruct (utils.IsListServicesQuery (ToLower unicode_ToLower instruction)) eqn:Hs.
  { cbn. unfold ProcessInstruction. rewrite Hs. unfold_M. cbn.
    split; [reflexivity|]. split; [apply well_formed_list_reply | done]. }
  destruct (utils.IsListToolsQuery (ToLower unicode_ToLower instruction)) eqn:Ht.
  { cbn. unfold ProcessInstruction. rewrite Hs, Ht. unfold_M.
    destruct (utils.ExtractServiceName _) as [name [|]]; cbn;
      (split; [reflexivity|]; split; [apply well_formed_list_reply | done]). }
  cbn [orb]. rewrite (ProcessInstruction_planning _ _ _ Hs Ht).
  pose proof (CallLLM_error instruction EmptyString (planning_state st)) as Hllm.
  destruct (CallLLM instruction EmptyString (planning_state st))
    as [[planned planJSON] st1].
  cbn [fst] in Hllm. cbn [fst snd].
  destruct (model_answer instruction (planning_state st)) as [[|c cs]|err];
    rewrite Hllm; try reflexivity.
  exists planJSON, st1. split; [reflexivity|].
  destruct (ExecutePlan_envelope planJSON reply st1) as (resp & st2 & -> & Hwf & Hok).
  cbn [fst snd]. split; [reflexivity|]. split; [reflexivity|].
  split; [reflexivity|]. split; [exact Hwf|].
  intros Hnone. destruct (Hok Hnone) as (Hne & plan & calls & Hd & Hp & Hsteps).
  split; [exact Hne|]. by exists plan, calls, st2.
Qed.

(** C2 (as amended). When the steps before step [i] each name a
    registered tool whose handler returns no error, and step [i] has a
    name that, once the prefix is stripped, is not in the catalogue
    when the step is reached, [ExecutePlan] answers with code -32601
    and that name. The state it leaves is the one the earlier steps
    produced: their effects are kept, and the trace holds their calls
    and no other. *)
Theorem unknown_action_aborts planJSON reply pre action post n st calls st' :
  planJSON ≠ EmptyString →
  decode_plan planJSON = Some (pre ++ action :: post) →
  steps_ok pre st calls st' →
  action !! "action" = Some (JStr n) →
  n ≠ EmptyString →
  tools (srv st') !! resolved_name n = None →
  ExecutePlan planJSON reply st =
    ((None, with_error new_response
              (mcp.NewError (-32601) ("unknown action: " +:+ resolved_name n))), st') ∧
  trace st' = trace st ++ calls ∧ length calls = length pre.
Proof.
  intros Hne Hd Hpre Ha Hn Hnone.
  rewrite (ExecutePlan_decoded _ _ _ _ Hne Hd).
  destruct (steps_ok_trace _ _ _ _ Hpre) as (Htr & Hlen & _).
  split; [|done].
  destruct (pre ++ action :: post) as [|a0 l0] eqn:Hplan.
  { by destruct pre. }
  rewrite <- Hplan, (steps_ok_run _ _ _ _ _ Hpre), run_plan_cons.
  rewrite (action_field_named _ _ Ha). apply String_eqb_empty in Hn.
  rewrite Hn. cbn [negb orb]. rewrite Hnone. reflexivity.
Qed.


(** C3. The empty string, a document that decodes to the empty array
    and one that decodes to an object without an [action] field make
    [ExecutePlan] return normally with code -32602; any other input
    that is not valid JSON, or whose top-level value is neither an
    object nor an array, gives code -32700. No handler runs: the
    state is unchanged. *)
Theorem empty_plan_is_invalid_params planJSON reply st :
  ((planJSON = EmptyString ∨
    json_Unmarshal planJSON = Ok (JArr []) ∨
    (∃ m, json_Unmarshal planJSON = Ok (JObj m) ∧ m !! "action" = None)) →
   ∃ msg, ExecutePlan planJSON reply st =
          ((None, with_error new_response (mcp.NewError (-32602) msg)), st)) ∧
  (planJSON ≠ EmptyString →
   ((∃ err, json_Unmarshal planJSON = Err err) ∨
    (∃ raw, json_Unmarshal planJSON = Ok raw ∧
            (∀ v, raw ≠ JArr v) ∧ (∀ m, raw ≠ JObj m))) →
   ∃ msg, ExecutePlan planJSON reply st =
          ((None, with_error new_response (mcp.NewError (-32700) msg)), st)).
Proof.
  split.
  - intros H. destruct (decide (planJSON = EmptyString)) as [->|Hne].
    { rewrite ExecutePlan_empty. by eexists. }
    destruct H as [->|[Harr|(m & Hobj & Hm)]]; [done| |].
    + rewrite (ExecutePlan_decoded _ _ _ [] Hne); [by eexists|].
      unfold decode_plan. by rewrite Harr.
    + rewrite (ExecutePlan_decoded _ _ _ [m] Hne).
      2:{ unfold decode_plan. by rewrite Hobj. }
      rewrite run_plan_cons. unfold action_field. rewrite Hm. cbn. by eexists.
  - intros Hne [[err Herr]|(raw & Hraw & Harr & Hobj)].
    + rewrite (ExecutePlan_unparsed _ _ _ _ Hne Herr). by eexists.
    + apply ExecutePlan_undecoded; [done|]. unfold decode_plan. rewrite Hraw.
      destruct raw; try reflexivity; [by destruct (Harr elems) | by destruct (Hobj fields)].
Qed.

(** C8. A second [RegisterTool] under the same name replaces the first
    entry: the server is the one the second call alone would give, the
    catalogue maps the name to the second handler, and a call of the
    tool or a one-step plan naming it invokes the second handler and
    nothing else. [RegisterTool] has no error to return. *)
Theorem RegisterTool_last_write_wins name d1 sch1 h1 d2 sch2 h2 s :
  let s2 := RegisterTool name d2 sch2 h2 (RegisterTool name d1 sch1 h1 s) in
  s2 = RegisterTool name d2 sch2 h2 s ∧
  tools s2 !! name =
    Some {| Name := name; Description := d2; InputSchema := sch2;
            Handler := h2; ServiceName := EmptyString |} ∧
  (∀ parameters reply w o tr,
     trace (CallTool {| mcp.ToolName := name; mcp.Parameters := parameters |} reply
              {| srv := s2; world := w; systemPromptOverride := o; trace := tr |}).2
     = tr ++ [HandlerCall h2 parameters]) ∧
  (∀ planJSON action reply w o tr,
     planJSON ≠ EmptyString →
     decode_plan planJSON = Some [action] →
     action !! "action" = Some (JStr name) →
     name ≠ EmptyString →
     HasPrefix name "functions." = false →
     trace (ExecutePlan planJSON reply
              {| srv := s2; world := w; systemPromptOverride := o; trace := tr |}).2
     = tr ++ [HandlerCall h2 (parameters_field action)]).
Proof.
  intros s2.
  assert (Hlast : s2 = RegisterTool name d2 sch2 h2 s).
  { unfold s2, RegisterTool. cbn. f_equal. apply insert_insert_eq. }
  assert (Hlook : tools s2 !! name =
    Some {| Name := name; Description := d2; InputSchema := sch2;
            Handler := h2; ServiceName := EmptyString |}).
  { unfold s2, RegisterTool. cbn. apply lookup_insert_eq. }
  split; [exact Hlast|]. split; [exact Hlook|]. split.
  - intros parameters reply w o tr. unfold CallTool. unfold_M. cbn [srv mcp.ToolName].
    rewrite Hlook. cbn [Handler mcp.Parameters].
    destruct (call_handler h2 parameters _) as [[e|] st'] eqn:Hc;
      apply call_handler_trace in Hc as [Htr _]; exact Htr.
  - intros planJSON action reply w o tr Hne Hd Ha Hn Hp.
    rewrite (ExecutePlan_decoded _ _ _ _ Hne Hd), run_plan_cons.
    rewrite (action_field_named _ _ Ha). apply String_eqb_empty in Hn.
    rewrite Hn. cbn [negb orb srv]. unfold resolved_name. rewrite Hp, Hlook.
    cbn [Handler].
    destruct (call_handler h2 (parameters_field action) _) as [[e|] st'] eqn:Hc;
      apply call_handler_trace in Hc as [Htr _]; cbn in *; [exact Htr|].
    unfold_M. exact Htr.
Qed.

Lemma resolved_name_unprefixed n :
  HasPrefix n "functions." = false → resolved_name n = n.
Proof. intros H. unfold resolved_name. by rewrite H. Qed.

Lemma resolved_name_prefixed n : resolved_name ("functions." +:+ n) = n.
Proof.
  unfold resolved_name, TrimPrefix, HasPrefix. destruct n; reflexivity.
Qed.

Lemma run_plan_prefixed a n rest st :
  a !! "action" = Some (JStr n) →
  n ≠ EmptyString →
  HasPrefix n "functions." = false →
  run_plan (prefixed n a :: rest) st = run_plan (a :: rest) st.
Proof.
  intros Ha Hn Hp. rewrite !run_plan_cons.
  rewrite (action_field_named _ _ Ha).
  assert (Hpa : action_field (prefixed n a) = ("functions." +:+ n, true)).
  { apply action_field_named. apply lookup_insert_eq. }
  rewrite Hpa. apply String_eqb_empty in Hn. rewrite Hn. cbn [negb orb].
  change (String.eqb ("functions." +:+ n) EmptyString) with false. cbv iota.
  rewrite resolved_name_prefixed, (resolved_name_unprefixed _ Hp).
  assert (parameters_field (prefixed n a) = parameters_field a) as ->; [|reflexivity].
  unfold parameters_field, prefixed. by rewrite lookup_insert_ne.
Qed.

Lemma run_plan_app_congr pre l1 l2 :
  (∀ st, run_plan l1 st = run_plan l2 st) →
  ∀ st, run_plan (pre ++ l1) st = run_plan (pre ++ l2) st.
Proof.
  intros H. induction pre as [|a pre IH]; intros st; [apply H|].
  rewrite <- !app_comm_cons, !run_plan_cons.
  destruct (action_field a) as [n ok].
  destruct (negb ok || String.eqb n EmptyString); [reflexivity|].
  destruct (tools (srv st) !! resolved_name n); [|reflexivity].
  destruct (call_handler _ _ st) as [[e|] st1]; [reflexivity | apply IH].
Qed.

Lemma plan_elements_app l1 l2 :
  plan_elements (l1 ++ l2) =
  match plan_elements l1, plan_elements l2 with
  | Some p1, Some p2 => Some (p1 ++ p2)
  | _, _ => None
  end.
Proof.
  induction l1 as [|x l1 IH]; cbn.
  - by destruct (plan_elements l2).
  - destruct x; try reflexivity. rewrite IH.
    destruct (plan_elements l1), (plan_elements l2); reflexivity.
Qed.

(** C9 (as amended). For an action name that is not empty and does not
    itself start with [functions.], a plan in which the name carries
    the prefix gets the same reply, and leaves the same state, as the
    plan in which it does not. *)
Theorem functions_prefix_is_stripped planJSON planJSON' raw raw' reply st :
  planJSON ≠ EmptyString →
  planJSON' ≠ EmptyString →
  json_Unmarshal planJSON = Ok raw →
  json_Unmarshal planJSON' = Ok raw' →
  prefix_variant raw raw' →
  ExecutePlan planJSON' reply st = ExecutePlan planJSON reply st.
Proof.
  intros Hne Hne' Hraw Hraw' Hv.
  destruct Hv as [a n Ha Hn Hp|pre a n post Ha Hn Hp].
  - rewrite (ExecutePlan_decoded planJSON' _ _ [prefixed n a] Hne').
    2:{ unfold decode_plan. by rewrite Hraw'. }
    rewrite (ExecutePlan_decoded planJSON _ _ [a] Hne).
    2:{ unfold decode_plan. by rewrite Hraw. }
    by rewrite run_plan_prefixed.
  - destruct (plan_elements pre) as [p1|] eqn:H1;
      [destruct (plan_elements post) as [p2|] eqn:H2|].
    + rewrite (ExecutePlan_decoded planJSON' _ _ (p1 ++ prefixed n a :: p2) Hne').
      2:{ unfold decode_plan. rewrite Hraw', plan_elements_app, H1. cbn. by rewrite H2. }
      rewrite (ExecutePlan_decoded planJSON _ _ (p1 ++ a :: p2) Hne).
      2:{ unfold decode_plan. rewrite Hraw, plan_elements_app, H1. cbn. by rewrite H2. }
      rewrite (run_plan_app_congr p1 (prefixed n a :: p2) (a :: p2));
        [|intros; by apply run_plan_prefixed].
      by destruct p1.
    + unfold ExecutePlan. apply String_eqb_empty in Hne, Hne'.
      rewrite Hne, Hne', Hraw, Hraw', !plan_elements_app, H1. cbn. by rewrite H2.
    + unfold ExecutePlan. apply String_eqb_empty in Hne, Hne'.
      by rewrite Hne, Hne', Hraw, Hraw', !plan_elements_app, H1.
Qed.

End Claims.
End Facts.
End dispatch.

(** * Properties of the listings *)

Module listing.
Import gostrings server spec.

Section Strings.

Lemma byte_nonneg c : 0 ≤ utf8.byte c.
Proof. unfold utf8.byte. apply N2Z.is_nonneg. Qed.

Lemma DecodeRuneInString_nonneg s : 0 ≤ (utf8.DecodeRuneInString s).1.
Proof.
  pose proof byte_nonneg as Hb.
  assert (Hl : ∀ a b, 0 ≤ a → 0 ≤ b → 0 ≤ Z.lor a b)
    by (intros; by apply Z.lor_nonneg).
  assert (Hs : ∀ a n, 0 ≤ a → 0 ≤ Z.shiftl a n)
    by (intros; by apply Z.shiftl_nonneg).
  assert (Ha : ∀ a m, 0 ≤ m → 0 ≤ Z.land a m)
    by (intros; apply Z.land_nonneg; by right).
  unfold utf8.DecodeRuneInString, utf8.RuneError.
  repeat match goal with
         | |- context [match ?x with _ => _ end] => destruct x; cbn [fst]
         | |- context [if ?b then _ else _] => destruct b; cbn [fst]
         end;
    try done; try apply Hb;
    repeat first [apply Hl | apply Hs | apply Ha]; done.
Qed.

Lemma EncodeRune_nonempty r : utf8.EncodeRune r ≠ EmptyString.
Proof.
  unfold utf8.EncodeRune.
  repeat match goal with
         | |- context [if ?b then _ else _] => destruct b
         end; discriminate.
Qed.

Lemma append_nonempty (a b : string) : a ≠ EmptyString → a +:+ b ≠ EmptyString.
Proof. destruct a; [done | discriminate]. Qed.

(** Lower-casing keeps a non-empty string non-empty, as long as the
    case table maps code points to code points. *)
Lemma ToLower_nonempty tolower s :
  (∀ r, 0 ≤ r → 0 ≤ tolower r) → s ≠ EmptyString → ToLower tolower s ≠ EmptyString.
Proof.
  intros Htab Hs. destruct s as [|c s]; [done|].
  unfold ToLower. destruct (all_bytes is_ascii (String c s)); [discriminate|].
  unfold Map, utf8.runes. cbn [String.length utf8.runes_fuel].
  pose proof (DecodeRuneInString_nonneg (String c s)) as Hr.
  destruct (utf8.DecodeRuneInString (String c s)) as [r w]. cbn [fst] in Hr.
  cbn [foldr]. apply Htab, Z.leb_le in Hr. rewrite Hr.
  apply append_nonempty, EncodeRune_nonempty.
Qed.

Lemma ToLower_empty tolower : ToLower tolower EmptyString = EmptyString.
Proof. reflexivity. Qed.

(** On ASCII strings [ToLower] is the folding of the bytes 'A'..'Z'. *)
Lemma ToLower_ascii tolower s :
  all_bytes is_ascii s = true → ToLower tolower s = map_bytes lower_byte s.
Proof. intros H. unfold ToLower. by rewrite H. Qed.

End Strings.

Section Facts.
Context `{RT : GoRuntime} `{HT : Host} `{HO : !HostOps} `{SP : SystemPrompt}.

Lemma foldl_snoc {A B} (f : A → B) (l : list A) (acc : list B) :
  foldl (λ acc x, acc ++ [f x]) acc l = acc ++ (f <$> l).
Proof.
  revert acc. induction l as [|x l IH]; intros acc; cbn.
  - by rewrite app_nil_r.
  - rewrite IH, <- app_assoc. reflexivity.
Qed.

Lemma foldl_snoc_if {A B} (f : A → B) (p : A → bool) (P : A → Prop)
    `{∀ x, Decision (P x)} (l : list A) (acc : list B) :
  (∀ x, p x = true ↔ P x) →
  foldl (λ acc x, if p x then acc ++ [f x] else acc) acc l = acc ++ (f <$> filter P l).
Proof.
  intros Hp. revert acc. induction l as [|x l IH]; intros acc; cbn [foldl].
  - by rewrite app_nil_r.
  - rewrite IH, filter_cons. destruct (p x) eqn:Hx.
    + rewrite decide_True by (by apply Hp). rewrite <- app_assoc. reflexivity.
    + rewrite decide_False; [reflexivity|]. rewrite <- Hp, Hx. done.
Qed.

Lemma service_matches_spec q tool :
  service_matches q tool = true ↔ same_lowercase q tool.
Proof. unfold service_matches, same_lowercase. apply String.eqb_eq. Qed.

Lemma listTools_fmap s : listTools s = tool_line <$> (map_range (tools s)).*2.
Proof.
  unfold listTools. rewrite (foldl_snoc (λ kv, tool_line kv.2)). cbn.
  by rewrite <- list_fmap_compose.
Qed.

Lemma listServices_fmap s :
  listServices s = Service_Name <$> (map_range (services s)).*2.
Proof.
  unfold listServices. rewrite (foldl_snoc (λ kv, Service_Name kv.2)). cbn.
  by rewrite <- list_fmap_compose.
Qed.

Lemma listToolsForService_filter s q :
  listToolsForService s q =
  tool_line <$> filter (same_lowercase q) (map_range (tools s)).*2.
Proof.
  unfold listToolsForService.
  rewrite (foldl_snoc_if (λ kv, tool_line kv.2) (λ kv, service_matches q kv.2)
             (λ kv, same_lowercase q kv.2)); [|intros; apply service_matches_spec].
  cbn. induction (map_range (tools s)) as [|kv l IH]; [reflexivity|].
  rewrite fmap_cons, !filter_cons. cbn [snd].
  destruct (decide (same_lowercase q kv.2)); cbn; by rewrite IH.
Qed.

Lemma listServices_names s : listServices s ≡ₚ service_names s.
Proof.
  rewrite listServices_fmap. unfold service_names.
  by rewrite (map_range_perm _ (services s)).
Qed.

Lemma listToolsForService_perm s q :
  listToolsForService s q ≡ₚ tool_line <$> filter (same_lowercase q) (catalogue s).
Proof.
  rewrite listToolsForService_filter. unfold catalogue.
  by rewrite (map_range_perm _ (tools s)).
Qed.

Lemma via_RegisterTool_no_service s :
  via_RegisterTool s → ∀ name tool, tools s !! name = Some tool → ServiceName tool = EmptyString.
Proof.
  induction 1 as [svcs|n d sch h s _ IH]; intros name tool; cbn.
  - by rewrite lookup_empty.
  - rewrite lookup_insert. case_decide; [by intros [= <-] | apply IH].
Qed.


Lemma map_range_empty {A} (m : gmap string A) : m = ∅ → map_range m = [].
Proof.
  intros ->. apply Permutation_nil_r. rewrite (map_range_perm A ∅).
  by rewrite map_to_list_empty.
Qed.

(** A services query is answered from the registry: the reply is the
    marshalled list of the service names, the state is untouched, so
    neither the model nor a handler is called. With at least one
    service registered the result is the array of their names. *)
Lemma services_query_answer instruction reply st :
  utils.IsListServicesQuery (ToLower unicode_ToLower instruction) = true →
  ProcessInstruction instruction reply st =
    ((None, list_reply (json_Marshal_strings (listServices (srv st)))), st) ∧
  listServices (srv st) ≡ₚ service_names (srv st) ∧
  (services (srv st) ≠ ∅ →
   json_Marshal_strings (listServices (srv st)) = JArr (JStr <$> listServices (srv st))).
Proof.
  intros Hq. split; [|split].
  - unfold ProcessInstruction. rewrite Hq. reflexivity.
  - apply listServices_names.
  - intros Hne. destruct (listServices (srv st)) as [|x l] eqn:Hl; [|reflexivity].
    exfalso. apply Hne. apply map_to_list_empty_iff.
    pose proof (listServices_names (srv st)) as Hp. rewrite Hl in Hp.
    apply Permutation_nil_l in Hp. unfold service_names in Hp. symmetry in Hp.
    apply fmap_nil_inv in Hp. by apply fmap_nil_inv in Hp.
Qed.

Section Claims.

(** C4. With no service registered, the reply to a services query
    carries the result [null], not an array: [listServices] returns
    the nil slice, which [json.Marshal] writes as [null]. The model is
    not called. *)
Theorem services_query_without_services instruction reply st :
  utils.IsListServicesQuery (ToLower unicode_ToLower instruction) = true →
  services (srv st) = ∅ →
  ProcessInstruction instruction reply st = ((None, list_reply JNull), st).
Proof.
  intros Hq Hs. destruct (services_query_answer _ reply st Hq) as [-> _].
  rewrite listServices_fmap, (map_range_empty _ Hs). reflexivity.
Qed.

(** C5 (as amended). [listToolsForService] returns, in some order, the
    lines of exactly the registered tools whose service name and the
    query have the same image under [strings.ToLower]. When the service
    name and the query are ASCII this is equality up to ASCII case
    folding; so a tool of service [Docker] is returned for the queries
    [docker], [DOCKER] and [Docker]. *)
Theorem listToolsForService_case_insensitive s serviceName :
  listToolsForService s serviceName
    ≡ₚ tool_line <$> filter (same_lowercase serviceName) (catalogue s) ∧
  (∀ tool,
     all_bytes is_ascii (ServiceName tool) = true →
     all_bytes is_ascii serviceName = true →
     (same_lowercase serviceName tool ↔ ascii_fold_eq (ServiceName tool) serviceName)) ∧
  (∀ tool,
     ServiceName tool = "Docker" →
     serviceName ∈ ["docker"; "DOCKER"; "Docker"] →
     tool ∈ catalogue s →
     tool_line tool ∈ listToolsForService s serviceName).
Proof.
  split; [apply listToolsForService_perm|]. split.
  - intros tool Ht Hq. unfold same_lowercase, ascii_fold_eq.
    by rewrite !ToLower_ascii.
  - intros tool Ht Hq Hin. rewrite listToolsForService_perm.
    apply list_elem_of_fmap_2, list_elem_of_filter. split; [|done].
    unfold same_lowercase. rewrite Ht.
    repeat (apply elem_of_cons in Hq as [->|Hq]; [reflexivity|]).
    by apply elem_of_nil in Hq.
Qed.

(** C10. [RegisterTool] stores its tool with an empty service name.
    Such a tool matches a query exactly when the query lower-cases to
    the empty string, which only the empty query does; so for a
    non-empty query the tool just registered adds nothing to the
    answer of [listToolsForService], and a catalogue filled through
    [RegisterTool] alone answers with no tool at all. *)
Theorem RegisterTool_leaves_service_empty :
  (∀ r, 0 ≤ r → 0 ≤ unicode_ToLower r) →
  (∀ name description inputSchema handler s,
     ServiceName <$> tools (RegisterTool name description inputSchema handler s) !! name
     = Some EmptyString) ∧
  (∀ q tool,
     ServiceName tool = EmptyString →
     (service_matches q tool = true ↔ ToLower unicode_ToLower q = EmptyString)) ∧
  (∀ q, ToLower unicode_ToLower q = EmptyString ↔ q = EmptyString) ∧
  (∀ name description inputSchema handler s q,
     q ≠ EmptyString →
     listToolsForService (RegisterTool name description inputSchema handler s) q
       ≡ₚ listToolsForService (without_tool name s) q) ∧
  (∀ s q, via_RegisterTool s → q ≠ EmptyString → listToolsForService s q = []).
Proof.
  intros Htab.
  assert (Hmatch : ∀ q tool, ServiceName tool = EmptyString →
            (same_lowercase q tool ↔ ToLower unicode_ToLower q = EmptyString)).
  { intros q tool Ht. unfold same_lowercase. rewrite Ht, ToLower_empty. split; congruence. }
  assert (Hempty : ∀ q, ToLower unicode_ToLower q = EmptyString ↔ q = EmptyString).
  { intros q. split; [|by intros ->].
    intros Hq. destruct (decide (q = EmptyString)) as [|Hne]; [done|].
    by destruct (ToLower_nonempty _ _ Htab Hne). }
  split; [|split; [|split; [|split]]].
  - intros. unfold RegisterTool. cbn. by rewrite lookup_insert_eq.
  - intros q tool Ht. rewrite service_matches_spec. by apply Hmatch.
  - exact Hempty.
  - intros name d sch h s q Hq. rewrite !listToolsForService_perm.
    unfold catalogue, RegisterTool, without_tool. cbn [tools].
    rewrite <- (insert_delete_eq (tools s)).
    rewrite map_to_list_insert by apply lookup_delete_eq.
    rewrite fmap_cons, filter_cons_False; [done|].
    cbn [snd]. rewrite Hmatch by done. by rewrite Hempty.
  - intros s q Hs Hq. rewrite listToolsForService_filter.
    pose proof (via_RegisterTool_no_service s Hs) as Hno.
    assert (Hall : ∀ tool, tool ∈ (map_range (tools s)).*2 → ¬ same_lowercase q tool).
    { intros tool Hin. apply list_elem_of_fmap in Hin as ([k t] & -> & Hin).
      rewrite (map_range_perm _ (tools s)) in Hin.
      apply elem_of_map_to_list in Hin. cbn.
      rewrite Hmatch by (by eapply Hno). by rewrite Hempty. }
    induction ((map_range (tools s)).*2) as [|t l IH]; [reflexivity|].
    rewrite filter_cons_False by (apply Hall; left).
    apply IH. intros tool Hin. apply Hall. by right.
Qed.

End Claims.
End Facts.
End listing.

(** * Properties of the loader *)

Module loading.
Import server spec vocab.

Section Facts.
Context {handler : Type} `{IN : !reg.Interp handler}
        {R : Type} `{RG : !Registry R handler}.

Lemma load_handler_loads tool h :
  (reg.load_handler tool).2 = Ok h ↔ loads tool h.
Proof.
  unfold reg.load_handler, loads.
  destruct (reg.Eval_import (reg.Plugin tool)) as [e|]; cbn.
  { split; [discriminate | by intros [? _]]. }
  destruct (reg.Eval_Handler (reg.Plugin tool)) as [v|e]; cbn.
  2:{ split; [discriminate | by intros [_ (? & ? & _)]]. }
  destruct (reg.as_handler v) as [h'|] eqn:Hv; cbn.
  - split.
    + intros [= ->]. split; [done|]. by exists v.
    + intros [_ (v' & [= <-] & Hv')]. congruence.
  - split; [discriminate|]. intros [_ (v' & [= <-] & Hv')]. congruence.
Qed.

Lemma load_handler_fails tool :
  (∃ err, (reg.load_handler tool).2 = Err err) ↔ load_fails tool.
Proof.
  unfold reg.load_handler, load_fails.
  destruct (reg.Eval_import (reg.Plugin tool)) as [e|]; cbn.
  { split; [intros _; left; by eexists | intros _; by eexists]. }
  destruct (reg.Eval_Handler (reg.Plugin tool)) as [v|e]; cbn.
  2:{ split; [intros _; right; left; split; [done | by eexists] | intros _; by eexists]. }
  destruct (reg.as_handler v) as [h'|] eqn:Hv; cbn.
  - split; [by intros [? ?]|].
    intros [[? ?]|[[_ [? ?]]|[_ (v' & [= <-] & Hv')]]]; congruence.
  - split; [|intros _; by eexists].
    intros _. right. right. split; [done|]. by exists v.
Qed.

(** The events of a load that succeeds, and of one that fails. *)
Lemma load_handler_events tool :
  match (reg.load_handler tool).2 with
  | Ok _ =>
    (reg.load_handler tool).1
    = [reg.EvalImport (reg.Plugin tool); reg.EvalSymbol (reg.Plugin tool)]
  | Err _ =>
    ∀ ev, ev ∈ (reg.load_handler tool).1 →
          ev = reg.EvalImport (reg.Plugin tool) ∨ ev = reg.EvalSymbol (reg.Plugin tool)
  end.
Proof.
  unfold reg.load_handler.
  destruct (reg.Eval_import (reg.Plugin tool)) as [e|]; cbn.
  { intros ev Hev. apply list_elem_of_singleton in Hev. by left. }
  destruct (reg.Eval_Handler (reg.Plugin tool)) as [v|e]; cbn.
  2:{ intros ev. rewrite !elem_of_cons, elem_of_nil. tauto. }
  destruct (reg.as_handler v); cbn; [reflexivity|].
  intros ev. rewrite !elem_of_cons, elem_of_nil. tauto.
Qed.

(** The inner loop passes over the disabled tools. *)
Lemma load_tools_enabled tools (r : R) log :
  reg.load_tools tools r log = reg.load_tools (List.filter reg.Enabled tools) r log.
Proof.
  revert r log. induction tools as [|tool rest IH]; intros r log; [reflexivity|].
  cbn [reg.load_tools List.filter]. destruct (reg.Enabled tool) eqn:He; cbn [negb].
  - cbn [reg.load_tools]. rewrite He. cbn [negb].
    destruct (reg.load_handler tool) as [evs [h|err]]; [apply IH | reflexivity].
  - apply IH.
Qed.

(** Loading a list of enabled tools in two parts. *)
Lemma load_tools_app l1 l2 (r : R) log :
  reg.load_tools (l1 ++ l2) r log =
  match reg.load_tools l1 r log with
  | (r', log', None) => reg.load_tools l2 r' log'
  | failed => failed
  end.
Proof.
  revert r log. induction l1 as [|tool rest IH]; intros r log; [reflexivity|].
  rewrite <- app_comm_cons. cbn [reg.load_tools].
  destruct (negb (reg.Enabled tool)); [apply IH|].
  destruct (reg.load_handler tool) as [evs [h|err]]; [apply IH | reflexivity].
Qed.

(** The two loops load the enabled tools of the enabled services, in
    order. *)
Lemma load_services_flat svcs (r : R) log :
  reg.load_services svcs r log = reg.load_tools (enabled_tools svcs) r log.
Proof.
  revert r log. induction svcs as [|svc rest IH]; intros r log; [reflexivity|].
  unfold enabled_tools. rewrite fmap_cons. cbn [concat reg.load_services].
  fold (enabled_tools rest).
  destruct (reg.SvcEnabled svc); cbn [negb]; [|apply IH].
  rewrite load_tools_app, <- load_tools_enabled.
  destruct (reg.load_tools (reg.Tools svc) r log) as [[r' log'] [err|]];
    [reflexivity | apply IH].
Qed.

Lemma filter_Enabled_idemp (l : list reg.ToolConfig) :
  List.filter reg.Enabled (List.filter reg.Enabled l) = List.filter reg.Enabled l.
Proof.
  induction l as [|t l IH]; [reflexivity|]. cbn.
  destruct (reg.Enabled t) eqn:He; [|exact IH]. cbn. by rewrite He, IH.
Qed.

Lemma enabled_tools_strip svcs : enabled_tools (strip_disabled svcs) = enabled_tools svcs.
Proof.
  induction svcs as [|svc rest IH]; [reflexivity|].
  unfold enabled_tools, strip_disabled in *. cbn [List.filter].
  destruct (reg.SvcEnabled svc) eqn:He; rewrite !fmap_cons; cbn [concat];
    rewrite He; [|exact IH].
  cbn [reg.SvcEnabled reg.Tools]. by rewrite filter_Enabled_idemp, IH.
Qed.

(** A tool to load is an enabled tool of an enabled service. *)
Lemma elem_of_enabled_tools tool svcs :
  tool ∈ enabled_tools svcs ↔
  ∃ svc, svc ∈ svcs ∧ reg.SvcEnabled svc = true ∧
         tool ∈ reg.Tools svc ∧ reg.Enabled tool = true.
Proof.
  unfold enabled_tools. rewrite list_elem_of_In, in_concat. split.
  - intros (l & Hl & Hin). apply list_elem_of_In, list_elem_of_fmap in Hl as (svc & -> & Hsvc).
    exists svc. destruct (reg.SvcEnabled svc); [|by destruct Hin].
    apply filter_In in Hin as [Hin He]. by rewrite <- list_elem_of_In in Hin.
  - intros (svc & Hsvc & He & Hin & Ht). eexists. split.
    { apply list_elem_of_In, list_elem_of_fmap. by exists svc. }
    rewrite He. apply filter_In. by rewrite <- list_elem_of_In.
Qed.

(** What a run of the inner loop adds to the log is about the tools
    it was given. *)
Lemma load_tools_events tools (r : R) log r' log' err :
  reg.load_tools tools r log = (r', log', err) →
  ∃ new, log' = log ++ new ∧
         ∀ ev, ev ∈ new → ∃ tool, tool ∈ tools ∧ reg.Enabled tool = true ∧ event_of ev tool.
Proof.
  revert r log. induction tools as [|tool rest IH]; intros r log.
  - intros [= <- <- <-]. exists []. rewrite app_nil_r. split; [done|].
    intros ev Hev. by apply elem_of_nil in Hev.
  - cbn [reg.load_tools]. destruct (reg.Enabled tool) eqn:He; cbn [negb].
    2:{ intros Hl. destruct (IH _ _ Hl) as (new & -> & Hnew). exists new.
        split; [done|]. intros ev Hev. destruct (Hnew ev Hev) as (t & Ht & ?).
        exists t. split; [by right | done]. }
    pose proof (load_handler_events tool) as Hevs.
    destruct (reg.load_handler tool) as [evs [h|e]]; cbn [fst snd] in Hevs.
    + intros Hl. destruct (IH _ _ Hl) as (new & -> & Hnew).
      exists (evs ++ [reg.Registered (reg.Name tool)] ++ new).
      split; [by rewrite <- !app_assoc|].
      intros ev. rewrite Hevs, !elem_of_app, !elem_of_cons, !elem_of_nil.
      intros [[->|[->|[]]]|[[->|[]]|Hev]];
        try (exists tool; split; [by left | done]).
      destruct (Hnew ev Hev) as (t & Ht & ?). exists t. split; [by right | done].
    + intros [= <- <- <-]. exists evs. split; [done|].
      intros ev Hev. exists tool. split; [by left|]. split; [done|].
      by destruct (Hevs ev Hev) as [-> | ->].
Qed.


(** Loading tools that all load registers each of them, in order. *)
Lemma load_tools_all_load tools (r : R) log :
  (∀ t, t ∈ tools → reg.Enabled t = true ∧ ∃ h, loads t h) →
  reg.load_tools tools r log =
  (register_all tools r, log ++ concat (load_events <$> tools), None).
Proof.
  revert r log. induction tools as [|tool rest IH]; intros r log Hall.
  - cbn. by rewrite app_nil_r.
  - destruct (Hall tool) as [He [h Hh]]; [by left|].
    cbn [reg.load_tools]. rewrite He. cbn [negb].
    pose proof (load_handler_events tool) as Hevs.
    apply load_handler_loads in Hh.
    destruct (reg.load_handler tool) as [evs loaded] eqn:Hl. cbn [fst snd] in *.
    subst loaded. rewrite IH by (intros; apply Hall; by right).
    unfold register_all at 2. cbn [foldl]. rewrite Hl. cbn [snd].
    rewrite fmap_cons. cbn [concat]. unfold load_events at 2.
    rewrite Hevs, <- !app_assoc. reflexivity.
Qed.

End Facts.

(** The loader of [servicestools.go] filling the catalogue of a
    [Server]. The handler type of the catalogue is taken to be the one
    the loader asserts; what follows stores the loaded handlers in the
    catalogue and looks at its keys, names and service names, and
    calls no handler. *)
Section OnServer.
Context `{HT : Host} `{IN : !reg.Interp ToolHandler}.

(** No registration removes a name from the catalogue. *)
Lemma register_all_keeps (l : list reg.ToolConfig) (r : Server) name :
  is_Some (tools r !! name) → is_Some (tools (register_all l r) !! name).
Proof.
  revert r. induction l as [|t l IH]; intros r Hr; [done|].
  unfold register_all. cbn [foldl]. apply IH.
  destruct (reg.load_handler t).2; [|done].
  unfold Registry_RegisterTool, Server_Registry, RegisterTool. cbn.
  rewrite lookup_insert. by case_decide.
Qed.

Lemma register_all_registered (l : list reg.ToolConfig) (r : Server) t :
  t ∈ l → (∃ h, loads t h) → is_Some (tools (register_all l r) !! reg.Name t).
Proof.
  revert r. induction l as [|t' l IH]; intros r Hin Hh; [by apply elem_of_nil in Hin|].
  unfold register_all. cbn [foldl]. apply elem_of_cons in Hin as [<-|Hin].
  - destruct Hh as [h Hh]. apply load_handler_loads in Hh. rewrite Hh.
    apply register_all_keeps.
    unfold Registry_RegisterTool, Server_Registry, RegisterTool. cbn.
    by rewrite lookup_insert_eq.
  - by apply IH.
Qed.

(** An entry of the catalogue after the inner loop was there before,
    or has the name of an enabled tool. *)
Lemma load_tools_catalogue tools0 (r : Server) log r' log' err name entry :
  reg.load_tools tools0 r log = (r', log', err) →
  tools r' !! name = Some entry →
  tools r !! name = Some entry ∨
  ∃ tool, tool ∈ tools0 ∧ reg.Enabled tool = true ∧ reg.Name tool = name.
Proof.
  revert r log. induction tools0 as [|tool rest IH]; intros r log.
  - intros [= <- <- <-]. by left.
  - cbn [reg.load_tools]. destruct (reg.Enabled tool) eqn:He; cbn [negb].
    2:{ intros Hl Hn. destruct (IH _ _ Hl Hn) as [?|(t & ? & ?)]; [by left|].
        right. exists t. split; [by right | done]. }
    destruct (reg.load_handler tool) as [evs [h|e]].
    + intros Hl Hn. destruct (IH _ _ Hl Hn) as [Hr|(t & ? & ?)].
      * unfold Registry_RegisterTool, Server_Registry, RegisterTool in Hr. cbn in Hr.
        rewrite lookup_insert in Hr. case_decide; [|by left].
        right. exists tool. split; [by left | done].
      * right. exists t. split; [by right | done].
    + intros [= <- <- <-]. by left.
Qed.

(** The outcome of the loader of [servicestools.go] is determined by
    the enabled tools of the enabled services: every evaluation and
    every registration it makes is for one of them, every entry of the
    catalogue that it adds or replaces bears the name of one of them,
    and a configuration that differs in its disabled entries only,
    however broken they are, has the same outcome. *)
Lemma interpreter_loader_skips_disabled path cfg (r : Server) :
  reg.loadConfig path = Ok cfg →
  ∃ r' log err,
    reg.RegisterToolsFromConfig r path = (r', log, err) ∧
    (∀ ev, ev ∈ log →
       ∃ tool, tool ∈ enabled_tools (reg.Services cfg) ∧ event_of ev tool) ∧
    (∀ name entry,
       tools r' !! name = Some entry →
       tools r !! name = Some entry ∨
       ∃ tool, tool ∈ enabled_tools (reg.Services cfg) ∧ reg.Name tool = name) ∧
    (∀ path' cfg',
       reg.loadConfig path' = Ok cfg' →
       strip_disabled (reg.Services cfg') = strip_disabled (reg.Services cfg) →
       reg.RegisterToolsFromConfig r path' = (r', log, err)).
Proof.
  intros Hcfg. unfold reg.RegisterToolsFromConfig. rewrite Hcfg, load_services_flat.
  destruct (reg.load_tools (enabled_tools (reg.Services cfg)) r [])
    as [[r' log] err] eqn:Hl.
  exists r', log, err. split; [reflexivity|]. split; [|split].
  - destruct (load_tools_events _ _ _ _ _ _ Hl) as (new & -> & Hnew).
    intros ev Hev. destruct (Hnew ev Hev) as (t & ? & _ & ?). by exists t.
  - intros name entry Hn.
    destruct (load_tools_catalogue _ _ _ _ _ _ _ _ Hl Hn) as [?|(t & ? & _ & ?)];
      [by left|]. right. by exists t.
  - intros path' cfg' Hcfg' Hstrip. rewrite Hcfg', load_services_flat.
    rewrite <- (enabled_tools_strip (reg.Services cfg')), Hstrip, enabled_tools_strip.
    exact Hl.
Qed.

(** C7. When the tools before tool [i] all load and tool [i] fails to
    load (its import cannot be evaluated, it has no [Handler] symbol,
    or the symbol has another signature), [RegisterToolsFromConfig]
    returns an error; the registry is the one left by the registration
    of the earlier tools, each of which is still in the catalogue; and
    the calls made are those for the earlier tools and the evaluations
    for tool [i]: nothing is evaluated or registered for a later
    tool. *)
Theorem load_failure_aborts path cfg pre tool post (r : Server) :
  reg.loadConfig path = Ok cfg →
  enabled_tools (reg.Services cfg) = pre ++ tool :: post →
  (∀ t, t ∈ pre → ∃ h, loads t h) →
  load_fails tool →
  ∃ err,
    reg.RegisterToolsFromConfig r path =
      (register_all pre r,
       concat (load_events <$> pre) ++ (reg.load_handler tool).1,
       Some err) ∧
    (∀ ev, ev ∈ (reg.load_handler tool).1 →
       ev = reg.EvalImport (reg.Plugin tool) ∨ ev = reg.EvalSymbol (reg.Plugin tool)) ∧
    (∀ t, t ∈ pre → is_Some (tools (register_all pre r) !! reg.Name t)).
Proof.
  intros Hcfg Hsplit Hpre Hfail.
  apply load_handler_fails in Hfail as [err Herr]. exists err.
  assert (Hen : ∀ t, t ∈ pre ++ tool :: post → reg.Enabled t = true).
  { intros t Ht. rewrite <- Hsplit in Ht.
    by apply elem_of_enabled_tools in Ht as (_ & _ & _ & _ & ?). }
  split; [|split].
  - unfold reg.RegisterToolsFromConfig.
    rewrite Hcfg, load_services_flat, Hsplit, load_tools_app.
    rewrite load_tools_all_load.
    2:{ intros t Ht. split; [|by apply Hpre]. apply Hen, elem_of_app. by left. }
    cbn [reg.load_tools]. rewrite Hen by (apply elem_of_app; right; by left).
    cbn [negb]. destruct (reg.load_handler tool) as [evs loaded].
    cbn [fst snd] in *. subst loaded. reflexivity.
  - pose proof (load_handler_events tool) as Hevs. by rewrite Herr in Hevs.
  - intros t Ht. apply register_all_registered; [done | by apply Hpre].
Qed.

End OnServer.

Section CompiledPlugins.
Context `{HT : Host} `{PL : !reg_plugin.Plugins} {R : Type} `{RG : !Registry R ToolHandler}.

Lemma plugin_load_tools_app l1 l2 (r : R) :
  reg_plugin.load_tools (l1 ++ l2) r =
  match reg_plugin.load_tools l1 r with
  | (r', None) => reg_plugin.load_tools l2 r'
  | failed => failed
  end.
Proof.
  revert r. induction l1 as [|tool rest IH]; intros r; [reflexivity|].
  rewrite <- app_comm_cons. cbn [reg_plugin.load_tools].
  destruct (reg_plugin.load_handler tool) as [h|err]; [apply IH | reflexivity].
Qed.

(** The loader of compiled plugins has no flag to test: it loads the
    tools of all the services, in order. *)
Lemma plugin_loader_loads_every_tool svcs (r : R) :
  reg_plugin.load_services svcs r =
  reg_plugin.load_tools (concat (reg_plugin.Tools <$> svcs)) r.
Proof.
  revert r. induction svcs as [|svc rest IH]; intros r; [reflexivity|].
  rewrite fmap_cons. cbn [concat reg_plugin.load_services].
  rewrite plugin_load_tools_app.
  destruct (reg_plugin.load_tools (reg_plugin.Tools svc) r) as [r' [err|]];
    [reflexivity | apply IH].
Qed.

End CompiledPlugins.

Section CompiledPluginsOnServer.
Context `{HT : Host} `{PL : !reg_plugin.Plugins}.

Lemma plugin_load_tools_all_load tools0 (r : Server) :
  (∀ t, t ∈ tools0 → ∃ h, reg_plugin.load_handler t = Ok h) →
  reg_plugin.load_tools tools0 r = (plugin_register_all tools0 r, None).
Proof.
  revert r. induction tools0 as [|tool rest IH]; intros r Hall; [reflexivity|].
  destruct (Hall tool) as [h Hh]; [by left|].
  cbn [reg_plugin.load_tools]. rewrite Hh, IH by (intros; apply Hall; by right).
  unfold plugin_register_all at 2. cbn [foldl]. by rewrite Hh.
Qed.

Lemma plugin_load_tools_no_error tools0 (r r' : Server) :
  reg_plugin.load_tools tools0 r = (r', None) →
  ∀ t, t ∈ tools0 → ∃ h, reg_plugin.load_handler t = Ok h.
Proof.
  revert r. induction tools0 as [|tool rest IH]; intros r Hl t Hin.
  { by apply elem_of_nil in Hin. }
  cbn [reg_plugin.load_tools] in Hl.
  destruct (reg_plugin.load_handler tool) as [h|e] eqn:Hh; [|discriminate].
  apply elem_of_cons in Hin as [->|Hin]; [by exists h | by eapply IH].
Qed.

Lemma plugin_register_all_keeps (l : list reg_plugin.ToolConfig) (r : Server) name :
  is_Some (tools r !! name) → is_Some (tools (plugin_register_all l r) !! name).
Proof.
  revert r. induction l as [|t l IH]; intros r Hr; [done|].
  unfold plugin_register_all. cbn [foldl]. apply IH.
  destruct (reg_plugin.load_handler t); [|done].
  unfold Registry_RegisterTool, Server_Registry, RegisterTool. cbn.
  rewrite lookup_insert. by case_decide.
Qed.

Lemma plugin_register_all_registered (l : list reg_plugin.ToolConfig) (r : Server) t :
  t ∈ l → (∃ h, reg_plugin.load_handler t = Ok h) →
  is_Some (tools (plugin_register_all l r) !! reg_plugin.Name t).
Proof.
  revert r. induction l as [|t' l IH]; intros r Hin Hh; [by apply elem_of_nil in Hin|].
  unfold plugin_register_all. cbn [foldl]. apply elem_of_cons in Hin as [<-|Hin].
  - destruct Hh as [h Hh]. rewrite Hh. apply plugin_register_all_keeps.
    unfold Registry_RegisterTool, Server_Registry, RegisterTool. cbn.
    by rewrite lookup_insert_eq.
  - by apply IH.
Qed.

Lemma plugin_register_all_app (l1 l2 : list reg_plugin.ToolConfig) (r : Server) :
  plugin_register_all (l1 ++ l2) r = plugin_register_all l2 (plugin_register_all l1 r).
Proof. unfold plugin_register_all. apply foldl_app. Qed.

Lemma plugin_register_all_other (l : list reg_plugin.ToolConfig) (r : Server) name :
  (∀ t, t ∈ l → reg_plugin.Name t ≠ name) →
  tools (plugin_register_all l r) !! name = tools r !! name.
Proof.
  revert r. induction l as [|t l IH]; intros r Hl; [reflexivity|].
  change (t :: l) with ([t] ++ l). rewrite plugin_register_all_app, IH.
  2:{ intros t' Ht'. apply Hl. by right. }
  unfold plugin_register_all. cbn [foldl]. destruct (reg_plugin.load_handler t); [|done].
  unfold Registry_RegisterTool, Server_Registry, RegisterTool. cbn.
  apply lookup_insert_ne, Hl. by left.
Qed.

End CompiledPluginsOnServer.

Section BothLoaders.
Context `{HT : Host} `{IN : !reg.Interp ToolHandler} `{PL : !reg_plugin.Plugins}.

(** C6 (as amended). The loader of [servicestools.go] skips the
    entries whose [enabled] flag is false: every evaluation and every
    registration it makes is for an enabled tool of an enabled
    service, every entry of the catalogue that it adds or replaces
    bears the name of one of them, and a configuration that differs in
    its disabled entries only, however broken they are, has the same
    outcome. The loader of compiled plugins has no such flag to test:
    it opens the tools of all the services, in order; when it returns
    no error every tool of every service has loaded and is in the
    catalogue, and a tool that does not load makes it return an
    error. *)
Theorem disabled_entries_are_skipped :
  (∀ path cfg (r : Server),
     reg.loadConfig path = Ok cfg →
     ∃ r' log err,
       reg.RegisterToolsFromConfig r path = (r', log, err) ∧
       (∀ ev, ev ∈ log →
          ∃ tool, tool ∈ enabled_tools (reg.Services cfg) ∧ event_of ev tool) ∧
       (∀ name entry,
          tools r' !! name = Some entry →
          tools r !! name = Some entry ∨
          ∃ tool, tool ∈ enabled_tools (reg.Services cfg) ∧ reg.Name tool = name) ∧
       (∀ path' cfg',
          reg.loadConfig path' = Ok cfg' →
          strip_disabled (reg.Services cfg') = strip_disabled (reg.Services cfg) →
          reg.RegisterToolsFromConfig r path' = (r', log, err))) ∧
  (∀ path cfg (r : Server),
     reg_plugin.loadConfig path = Ok cfg →
     reg_plugin.RegisterToolsFromConfig r path
     = reg_plugin.load_tools (plugin_tools (reg_plugin.Services cfg)) r ∧
     ∀ svc tool,
       svc ∈ reg_plugin.Services cfg → tool ∈ reg_plugin.Tools svc →
       ((reg_plugin.RegisterToolsFromConfig r path).2 = None →
        (∃ h, reg_plugin.load_handler tool = Ok h) ∧
        is_Some (tools (reg_plugin.RegisterToolsFromConfig r path).1
                 !! reg_plugin.Name tool)) ∧
       (∀ err, reg_plugin.load_handler tool = Err err →
               is_Some (reg_plugin.RegisterToolsFromConfig r path).2)).
Proof.
  split; [exact interpreter_loader_skips_disabled|].
  intros path cfg r Hcfg.
  assert (Hrun : reg_plugin.RegisterToolsFromConfig r path
                 = reg_plugin.load_tools (plugin_tools (reg_plugin.Services cfg)) r).
  { unfold reg_plugin.RegisterToolsFromConfig.
    by rewrite Hcfg, plugin_loader_loads_every_tool. }
  split; [exact Hrun|]. intros svc tool Hsvc Htool.
  assert (Hin : tool ∈ plugin_tools (reg_plugin.Services cfg)).
  { unfold plugin_tools. rewrite list_elem_of_In, in_concat.
    exists (reg_plugin.Tools svc). split; [|by apply list_elem_of_In].
    apply list_elem_of_In, list_elem_of_fmap. by exists svc. }
  assert (Hnone : (reg_plugin.RegisterToolsFromConfig r path).2 = None →
                  (∃ h, reg_plugin.load_handler tool = Ok h) ∧
                  is_Some (tools (reg_plugin.RegisterToolsFromConfig r path).1
                           !! reg_plugin.Name tool)).
  { rewrite Hrun.
    destruct (reg_plugin.load_tools (plugin_tools (reg_plugin.Services cfg)) r)
      as [r' e] eqn:Hl.
    cbn [fst snd]. intros ->.
    pose proof (plugin_load_tools_no_error _ _ _ Hl) as Hall.
    split; [by apply Hall|].
    rewrite (plugin_load_tools_all_load _ r Hall) in Hl. injection Hl as <-.
    apply plugin_register_all_registered; [done | by apply Hall]. }
  split; [exact Hnone|]. intros err Herr.
  destruct (reg_plugin.RegisterToolsFromConfig r path).2 as [e|] eqn:He; [by eexists|].
  destruct (Hnone eq_refl) as [[h Hh] _]. congruence.
Qed.

End BothLoaders.
End loading.

(** * The dispatcher on the concrete host *)

Module dispatch_runs.
Import gostrings server spec.

(** C1, witness: a failing run. The catalogue is empty, the model
    answers with a plan whose one step names [pull_image], an unknown
    action: [ProcessInstruction] returns no error and a well formed
    reply whose error is set. *)
Lemma dispatcher_errors_in_envelope_witness :
  let r := demo.ProcessInstruction "pull mysql" new_response
             (demo.state_of demo.empty_server) in
  r.1.1 = None ∧ well_formed r.1.2 ∧ mcp.Error r.1.2 ≠ None.
Proof.
  pose proof (proj2 (proj2 (dispatch.dispatcher_errors_in_envelope
    (RT := demo.runtime) (HT := demo.host) (HO := demo.host_ops) (SP := demo.prompt)))
    "pull mysql" new_response (demo.state_of demo.empty_server)) as H.
  destruct H as (planJSON & st1 & Hllm & _ & _ & Hnone & Hwf & Hok).
  split; [exact Hnone|]. split; [exact Hwf|].
  intros Herr. destruct (Hok Herr) as (_ & plan & calls & st2 & Hd & _ & Hsteps).
  vm_compute in Hllm. injection Hllm as <- <-.
  vm_compute in Hd. injection Hd as <-.
  inversion Hsteps as [|a pre n tool st sta calls' stb Ha Hn Ht Hc Hrest]; subst.
  vm_compute in Ht. discriminate.
Defined.

(** C1 does not hold as stated, on a model-call failure: the model
    is unreachable, [ProcessInstruction] returns the error itself and
    the reply carries none. *)
Lemma model_failure_not_in_envelope :
  let r := demo.ProcessInstruction "create a network" new_response demo.st0 in
  r.1.1 = Some "ProcessInstruction: failed to call LLM: LLM API error: connection refused"
  ∧ mcp.Error r.1.2 = None.
Proof. vm_compute. split; reflexivity. Qed.

(** C2, witness: step 1 pulls the image, step 2 names no tool. *)
Lemma unknown_action_aborts_witness :
  demo.ExecutePlan (demo.q "[{'action':'pull_image'},{'action':'zzz'}]")
    new_response demo.st0 =
    ((None, with_error new_response (mcp.NewError (-32601) "unknown action: zzz")),
     demo.st1) ∧
  trace demo.st1 = trace demo.st0 ++ [@HandlerCall demo.host demo.pull_image None] ∧
  length [@HandlerCall demo.host demo.pull_image None] = length [demo.action_named "pull_image"].
Proof.
  apply (dispatch.unknown_action_aborts
    (RT := demo.runtime) (HT := demo.host) (HO := demo.host_ops)
    (demo.q "[{'action':'pull_image'},{'action':'zzz'}]") new_response
    [demo.action_named "pull_image"] (demo.action_named "zzz") [] "zzz"
    demo.st0 [@HandlerCall demo.host demo.pull_image None] demo.st1).
  - discriminate.
  - vm_compute. reflexivity.
  - apply (steps_ok_cons (HT := demo.host) (HO := demo.host_ops)
      (demo.action_named "pull_image") [] "pull_image"
      (@Build_RegisteredTool demo.host "pull_image" "Pull an image" None
         demo.pull_image EmptyString)
      demo.st0 demo.st1 [] demo.st1).
    + vm_compute. reflexivity.
    + discriminate.
    + vm_compute. reflexivity.
    + vm_compute. reflexivity.
    + constructor.
  - vm_compute. reflexivity.
  - discriminate.
  - vm_compute. reflexivity.
Defined.

(** C2 does not hold as stated, when an earlier handler fails: step
    2 is the first step whose action is not in the catalogue, yet the
    reply carries the code of step 1's failure. *)
Lemma unknown_action_after_failed_step :
  let plan := demo.q "[{'action':'start'},{'action':'zzz'}]" in
  is_Some (tools demo.s0 !! "start") ∧
  tools demo.s0 !! "zzz" = None ∧
  mcp.Error (demo.ExecutePlan plan new_response demo.st0).1.2 =
    Some (mcp.NewError (-32000) "failed to execute tool start: daemon not running") ∧
  mcp.Code <$> mcp.Error (demo.ExecutePlan plan new_response demo.st0).1.2
    ≠ Some (-32601).
Proof. vm_compute. split; [eauto|]. split; [|split]; [reflexivity..|discriminate]. Qed.

(** C3, witness: the three empty plans, a text that is not JSON and a
    JSON number. *)
Lemma empty_plan_is_invalid_params_witness :
  (∃ msg, demo.ExecutePlan EmptyString new_response demo.st0 =
          ((None, with_error new_response (mcp.NewError (-32602) msg)), demo.st0)) ∧
  (∃ msg, demo.ExecutePlan "[]" new_response demo.st0 =
          ((None, with_error new_response (mcp.NewError (-32602) msg)), demo.st0)) ∧
  (∃ msg, demo.ExecutePlan "{}" new_response demo.st0 =
          ((None, with_error new_response (mcp.NewError (-32602) msg)), demo.st0)) ∧
  (∃ msg, demo.ExecutePlan "Tool pull_image executed successfully" new_response demo.st0 =
          ((None, with_error new_response (mcp.NewError (-32700) msg)), demo.st0)) ∧
  (∃ msg, demo.ExecutePlan "42" new_response demo.st0 =
          ((None, with_error new_response (mcp.NewError (-32700) msg)), demo.st0)).
Proof.
  pose proof (dispatch.empty_plan_is_invalid_params
    (RT := demo.runtime) (HT := demo.host) (HO := demo.host_ops)) as H.
  repeat split.
  - apply (proj1 (H EmptyString new_response demo.st0)). by left.
  - apply (proj1 (H "[]" new_response demo.st0)). right. left. vm_compute. reflexivity.
  - apply (proj1 (H "{}" new_response demo.st0)). right. right. exists ∅.
    split; [vm_compute; reflexivity | apply lookup_empty].
  - apply (proj2 (H "Tool pull_image executed successfully" new_response demo.st0));
      [discriminate|]. left. eexists. vm_compute. reflexivity.
  - apply (proj2 (H "42" new_response demo.st0)); [discriminate|]. right.
    exists (JNum "42"). split; [vm_compute; reflexivity|]. split; discriminate.
Defined.

(** C8, witness: [pull_image] registered with the failing handler and
    then with the working one. *)
Lemma RegisterTool_last_write_wins_witness :
  let s2 := RegisterTool (HT := demo.host) "pull_image" "Pull an image" None demo.pull_image
              (RegisterTool (HT := demo.host) "pull_image" "Broken" None demo.failing
                 demo.empty_server) in
  trace (demo.ExecutePlan (demo.q "{'action':'pull_image'}") new_response
           (demo.state_of s2)).2
  = [@HandlerCall demo.host demo.pull_image None].
Proof.
  intros s2.
  apply (proj2 (proj2 (proj2 (dispatch.RegisterTool_last_write_wins
    (RT := demo.runtime) (HT := demo.host) (HO := demo.host_ops)
    "pull_image" "Broken" None demo.failing "Pull an image" None demo.pull_image
    demo.empty_server)))
    (demo.q "{'action':'pull_image'}") (demo.action_named "pull_image")
    new_response [] EmptyString []).
  - discriminate.
  - vm_compute. reflexivity.
  - vm_compute. reflexivity.
  - discriminate.
  - vm_compute. reflexivity.
Defined.

(** C9, witness: [functions.pull_image] in a two-step plan. *)
Lemma functions_prefix_is_stripped_witness :
  demo.ExecutePlan (demo.q "[{'action':'functions.pull_image'},{'action':'zzz'}]")
    new_response demo.st0 =
  demo.ExecutePlan (demo.q "[{'action':'pull_image'},{'action':'zzz'}]")
    new_response demo.st0.
Proof.
  apply (dispatch.functions_prefix_is_stripped
    (RT := demo.runtime) (HT := demo.host) (HO := demo.host_ops)
    (demo.q "[{'action':'pull_image'},{'action':'zzz'}]")
    (demo.q "[{'action':'functions.pull_image'},{'action':'zzz'}]")
    (JArr ([] ++ JObj (demo.action_named "pull_image")
                 :: [JObj (demo.action_named "zzz")]))
    (JArr ([] ++ JObj (prefixed "pull_image" (demo.action_named "pull_image"))
                 :: [JObj (demo.action_named "zzz")]))).
  - discriminate.
  - discriminate.
  - vm_compute. reflexivity.
  - vm_compute. reflexivity.
  - apply prefix_variant_array; [vm_compute; reflexivity | discriminate | reflexivity].
Defined.

(** C9 does not hold as stated, for a name that itself starts with
    the prefix, and for the empty name: the prefix is stripped once,
    and the test for an empty name comes before the stripping. *)
Lemma functions_prefix_stripped_once :
  mcp.Error (demo.ExecutePlan (demo.q "{'action':'functions.functions.pull_image'}")
               new_response demo.st0).1.2
    = Some (mcp.NewError (-32601) "unknown action: functions.pull_image") ∧
  mcp.Error (demo.ExecutePlan (demo.q "{'action':'functions.pull_image'}")
               new_response demo.st0).1.2
    = None ∧
  mcp.Error (demo.ExecutePlan (demo.q "{'action':'functions.'}")
               new_response demo.st0).1.2
    = Some (mcp.NewError (-32601) "unknown action: ") ∧
  mcp.Error (demo.ExecutePlan (demo.q "{'action':''}") new_response demo.st0).1.2
    = Some (mcp.NewError (-32602) "invalid action format") ∧
  demo.ExecutePlan (demo.q "{'action':'functions.functions.pull_image'}")
    new_response demo.st0
  ≠ demo.ExecutePlan (demo.q "{'action':'functions.pull_image'}")
      new_response demo.st0 ∧
  demo.ExecutePlan (demo.q "{'action':'functions.'}") new_response demo.st0
  ≠ demo.ExecutePlan (demo.q "{'action':''}") new_response demo.st0.
Proof.
  repeat split; try (vm_compute; reflexivity);
    intros H; apply (f_equal (λ r, mcp.Error r.1.2)) in H;
    vm_compute in H; discriminate.
Qed.

End dispatch_runs.

(** * The listings on the concrete host *)

Module listing_runs.
Import gostrings server spec.

(** C4, witness: a server to which no service was registered. *)
Lemma services_query_without_services_witness :
  demo.ProcessInstruction "what services are available" new_response demo.st0
  = ((None, list_reply JNull), demo.st0).
Proof.
  apply (listing.services_query_without_services
    (RT := demo.runtime) (HT := demo.host) (HO := demo.host_ops) (SP := demo.prompt)).
  - vm_compute. reflexivity.
  - reflexivity.
Defined.

(** C5, witness: the tool of service [Docker] is listed for [DOCKER]. *)
Lemma listToolsForService_case_insensitive_witness :
  "pull_image: Pull an image" ∈ demo.listToolsForService demo.s_services "DOCKER".
Proof.
  apply (proj2 (proj2 (listing.listToolsForService_case_insensitive
    (RT := demo.runtime) (HT := demo.host) demo.s_services "DOCKER"))
    (@Build_RegisteredTool demo.host "pull_image" "Pull an image" None
       demo.pull_image "Docker")).
  - reflexivity.
  - right. left.
  - apply list_elem_of_fmap. exists ("pull_image",
      @Build_RegisteredTool demo.host "pull_image" "Pull an image" None
        demo.pull_image "Docker").
    split; [reflexivity|]. apply elem_of_map_to_list. vm_compute. reflexivity.
Defined.

(** C5 does not hold as stated, beyond ASCII: the service name is
    the capital E with acute accent, the query the small one. They
    differ up to ASCII case folding, and the tool is returned. *)
Lemma listToolsForService_folds_beyond_ascii :
  @ServiceName demo.host <$> tools demo.s_services !! "brew" = Some demo.E_acute ∧
  ¬ ascii_fold_eq demo.E_acute demo.e_acute ∧
  demo.listToolsForService demo.s_services demo.e_acute = ["brew: Brew a coffee"].
Proof.
  split; [vm_compute; reflexivity|]. split; [|vm_compute; reflexivity].
  unfold ascii_fold_eq. vm_compute. discriminate.
Qed.

(** C10, witness: a catalogue filled by three calls of [RegisterTool],
    asked for the tools of [docker]. *)
Lemma RegisterTool_leaves_service_empty_witness :
  demo.listToolsForService demo.s0 "docker" = [].
Proof.
  assert (Htab : ∀ r, 0 ≤ r → 0 ≤ demo.latin1_ToLower r).
  { intros r Hr. unfold demo.latin1_ToLower. destruct (_ || _); lia. }
  apply (proj2 (proj2 (proj2 (proj2 (listing.RegisterTool_leaves_service_empty
    (RT := demo.runtime) (HT := demo.host) Htab))))).
  - unfold demo.s0. do 3 apply via_RegisterTool_call. apply via_RegisterTool_new.
  - discriminate.
Defined.

End listing_runs.

(** * The loader on the concrete host *)

Module loading_runs.
Import server spec.

(** C6, witness: for the loader of [servicestools.go], a configuration
    with a disabled tool and a disabled service, both with a plugin
    that cannot be imported; for the loader of compiled plugins, a
    file whose two tools load. *)
Lemma disabled_entries_are_skipped_witness :
  (∃ r' log err,
     demo.RegisterToolsFromConfig demo.empty_server "plug.yaml" = (r', log, err) ∧
     (∀ ev, ev ∈ log →
        ∃ tool, tool ∈ enabled_tools (reg.Services demo.cfg) ∧ event_of ev tool) ∧
     (∀ name entry,
        tools r' !! name = Some entry →
        tools demo.empty_server !! name = Some entry ∨
        ∃ tool, tool ∈ enabled_tools (reg.Services demo.cfg) ∧ reg.Name tool = name) ∧
     (∀ path' cfg',
        @reg.loadConfig demo.handler demo.interp path' = Ok cfg' →
        strip_disabled (reg.Services cfg') = strip_disabled (reg.Services demo.cfg) →
        demo.RegisterToolsFromConfig demo.empty_server path' = (r', log, err))) ∧
  is_Some (tools (demo2.RegisterToolsFromPlugins demo.empty_server "good.yaml").1
           !! "create_network").
Proof.
  pose proof (loading.disabled_entries_are_skipped
    (HT := demo.host) (IN := demo.interp) (PL := demo2.plugins)) as [Hinterp Hplugin].
  split.
  - apply (Hinterp "plug.yaml" demo.cfg demo.empty_server). reflexivity.
  - destruct (Hplugin "good.yaml"
                (demo2.plugin_cfg [demo2.plugin_pull; demo2.plugin_network])
                demo.empty_server eq_refl) as [_ Hall].
    apply (Hall {| reg_plugin.SvcName := "docker";
                   reg_plugin.Tools := [demo2.plugin_pull; demo2.plugin_network] |}
             demo2.plugin_network).
    + by left.
    + right. by left.
    + reflexivity.
Defined.

(** C6 does not hold as stated, on the loader of compiled plugins: of
    the three tools of the file the second is marked as disabled and
    its plugin cannot be opened. The loader gets the configuration
    without the marks, opens the plugin all the same, and the load
    fails after the first tool; without the disabled entry the same
    file loads. *)
Lemma plugin_loader_opens_disabled_entry :
  let doc :=
    [ {| svc_name := "docker"; svc_enabled := true;
         svc_tools :=
           [ {| tool_fields := demo2.plugin_pull; tool_enabled := true |};
             {| tool_fields := demo2.plugin_broken; tool_enabled := false |};
             {| tool_fields := demo2.plugin_network; tool_enabled := true |} ] |} ] in
  @reg_plugin.loadConfig demo.host demo2.plugins "bad.yaml" = Ok (decoded doc) ∧
  (demo2.RegisterToolsFromPlugins demo.empty_server "bad.yaml").2
  = Some "failed to open plugin missing.so: plugin.Open: not found" ∧
  tools (demo2.RegisterToolsFromPlugins demo.empty_server "bad.yaml").1
    !! "create_network" = None ∧
  @reg_plugin.loadConfig demo.host demo2.plugins "good.yaml"
  = Ok (decoded (enabled_entries doc)) ∧
  (demo2.RegisterToolsFromPlugins demo.empty_server "good.yaml").2 = None.
Proof. vm_compute. repeat split; reflexivity. Qed.

(** C7, witness: the first tool loads, the second has no [Handler]
    symbol, a third one follows. *)
Lemma load_failure_aborts_witness :
  ∃ err,
    demo.RegisterToolsFromConfig demo.empty_server "plug.yaml" =
      (register_all (IN := demo.interp) [demo.tool_pull]
         demo.empty_server,
       concat (load_events <$> [demo.tool_pull])
         ++ (reg.load_handler (IN := demo.interp) demo.tool_start).1,
       Some err) ∧
    (∀ ev, ev ∈ (reg.load_handler (IN := demo.interp)
                   demo.tool_start).1 →
       ev = reg.EvalImport (reg.Plugin demo.tool_start) ∨
       ev = reg.EvalSymbol (reg.Plugin demo.tool_start)) ∧
    (∀ t, t ∈ [demo.tool_pull] →
       is_Some (tools (register_all (IN := demo.interp)
                         [demo.tool_pull] demo.empty_server) !! reg.Name t)).
Proof.
  apply (loading.load_failure_aborts (HT := demo.host) (IN := demo.interp)
           "plug.yaml" demo.cfg [demo.tool_pull] demo.tool_start [demo.tool_network]
           demo.empty_server).
  - reflexivity.
  - reflexivity.
  - intros t Ht. apply list_elem_of_singleton in Ht as ->.
    exists demo.pull_image. split; [reflexivity|].
    exists (Some demo.pull_image). split; reflexivity.
  - right. left. split; [reflexivity|]. eexists. reflexivity.
Defined.

(** The run of C7's witness, evaluated. *)
Example load_failure_run :
  (demo.RegisterToolsFromConfig demo.empty_server "plug.yaml").1.2 =
    [reg.EvalImport "plugins/pull"; reg.EvalSymbol "plugins/pull";
     reg.Registered "pull_image";
     reg.EvalImport "plugins/nohandler"; reg.EvalSymbol "plugins/nohandler"] ∧
  (demo.RegisterToolsFromConfig demo.empty_server "plug.yaml").2 =
    Some "failed to retrieve Handler symbol for tool start: undefined: Handler".
Proof. vm_compute. split; reflexivity. Qed.

End loading_runs.

(** * More properties of the dispatcher *)

Module dispatch_more.
Import gostrings server spec vocab.
Import dispatch.

Section Facts.
Context `{RT : GoRuntime} `{HT : Host} `{HO : !HostOps} `{SP : SystemPrompt}.

Lemma call_handler_adds h p st :
  trace (call_handler h p st).2 = trace st ++ [HandlerCall h p] ∧
  systemPromptOverride (call_handler h p st).2 = systemPromptOverride st.
Proof.
  destruct (call_handler h p st) as [e st'] eqn:Hc.
  exact (call_handler_trace _ _ _ _ _ Hc).
Qed.

(** The loop of [ExecutePlan] calls handlers only, at most one for
    each action, and leaves the prompt override alone. *)
Lemma run_plan_adds plan st :
  ∃ calls,
    trace (run_plan plan st).2 = trace st ++ calls ∧
    Forall (λ e, is_model_call e = false) calls ∧
    (length calls ≤ length plan)%nat ∧
    systemPromptOverride (run_plan plan st).2 = systemPromptOverride st.
Proof.
  revert st. induction plan as [|a rest IH]; intros st.
  - exists []. cbn. rewrite app_nil_r. done.
  - rewrite run_plan_cons. destruct (action_field a) as [n ok].
    destruct (negb ok || String.eqb n EmptyString).
    { exists []. cbn. rewrite app_nil_r. repeat split; [constructor | lia]. }
    destruct (tools (srv st) !! resolved_name n) as [tool|].
    2:{ exists []. cbn. rewrite app_nil_r. repeat split; [constructor | lia]. }
    pose proof (call_handler_adds (Handler tool) (parameters_field a) st) as [Ht Ho].
    destruct (call_handler _ _ st) as [[e|] st1]; cbn [snd] in *.
    + eexists. split; [exact Ht|]. repeat split; [by repeat constructor | cbn; lia | done].
    + destruct (IH st1) as (calls & Hc & Hall & Hlen & Hov).
      exists (HandlerCall (Handler tool) (parameters_field a) :: calls).
      rewrite Hc, Ht, <- app_assoc, Hov, Ho.
      repeat split; [by constructor | cbn; lia].
Qed.

Lemma ExecutePlan_state planJSON reply st :
  (ExecutePlan planJSON reply st).2 =
  match decode_plan planJSON with
  | Some plan =>
    if String.eqb planJSON EmptyString then st else (run_plan plan st).2
  | None => st
  end.
Proof.
  destruct (decide (planJSON = EmptyString)) as [->|Hne].
  { rewrite ExecutePlan_empty. cbn. by destruct (decode_plan _). }
  pose proof Hne as Hb. apply String_eqb_empty in Hb. rewrite Hb.
  destruct (decode_plan planJSON) as [plan|] eqn:Hd.
  - rewrite (ExecutePlan_decoded _ _ _ _ Hne Hd). destruct plan as [|a l]; [reflexivity|].
    by destruct (run_plan (a :: l) st) as [[e|] st'].
  - by destruct (ExecutePlan_undecoded _ reply st Hne Hd) as [msg ->].
Qed.

(** [ExecutePlan] adds handler calls only and leaves the override. *)
Lemma ExecutePlan_adds planJSON reply st :
  ∃ calls,
    trace (ExecutePlan planJSON reply st).2 = trace st ++ calls ∧
    Forall (λ e, is_model_call e = false) calls ∧
    systemPromptOverride (ExecutePlan planJSON reply st).2 = systemPromptOverride st.
Proof.
  rewrite ExecutePlan_state. destruct (decode_plan planJSON) as [plan|].
  - destruct (String.eqb planJSON EmptyString).
    + exists []. rewrite app_nil_r. repeat split. constructor.
    + destruct (run_plan_adds plan st) as (calls & Htr & Hall & _ & Hov). by exists calls.
  - exists []. rewrite app_nil_r. repeat split. constructor.
Qed.

Section Claims.

(** X1. A plan whose steps all name registered tools and whose
    handlers all return no error is answered with the success
    document: status [success], message [Plan executed successfully],
    no error. The handlers ran once each, in plan order. *)
Theorem ExecutePlan_success planJSON reply plan st calls st' :
  planJSON ≠ EmptyString →
  decode_plan planJSON = Some plan →
  plan ≠ [] →
  steps_ok plan st calls st' →
  ExecutePlan planJSON reply st = ((None, with_result new_response plan_success), st') ∧
  (∃ m, plan_success = JObj m ∧
        m !! "status" = Some (JStr "success") ∧
        m !! "message" = Some (JStr "Plan executed successfully")) ∧
  mcp.Error (with_result new_response plan_success) = None ∧
  trace st' = trace st ++ calls ∧
  length calls = length plan.
Proof.
  intros Hne Hd Hplan Hsteps.
  destruct (steps_ok_trace _ _ _ _ Hsteps) as (Htr & Hlen & _).
  split; [|split; [|done]].
  - rewrite (ExecutePlan_decoded _ _ _ _ Hne Hd). destruct plan as [|a l]; [done|].
    pose proof (steps_ok_run _ _ _ _ [] Hsteps) as Hrun. rewrite app_nil_r in Hrun.
    rewrite Hrun. reflexivity.
  - eexists. split; [reflexivity|]. split; reflexivity.
Qed.

(** X2. When the steps before step [i] succeed and the handler of
    step [i] returns an error, [ExecutePlan] answers with code -32000
    and a message naming the tool and the error. What the failing
    handler did stays done, and no later step is looked at. *)
Theorem handler_error_aborts planJSON reply pre action post n tool err st calls st1 st2 :
  planJSON ≠ EmptyString →
  decode_plan planJSON = Some (pre ++ action :: post) →
  steps_ok pre st calls st1 →
  action !! "action" = Some (JStr n) →
  n ≠ EmptyString →
  tools (srv st1) !! resolved_name n = Some tool →
  call_handler (Handler tool) (parameters_field action) st1 = (Some err, st2) →
  ExecutePlan planJSON reply st =
    ((None, with_error new_response
              (mcp.NewError (-32000)
                 ("failed to execute tool " +:+ resolved_name n +:+ ": " +:+ err))),
     st2) ∧
  trace st2 = trace st ++ calls ++ [HandlerCall (Handler tool) (parameters_field action)].
Proof.
  intros Hne Hd Hpre Ha Hn Ht Hc.
  destruct (steps_ok_trace _ _ _ _ Hpre) as (Htr & _ & _).
  split.
  - rewrite (ExecutePlan_decoded _ _ _ _ Hne Hd).
    destruct (pre ++ action :: post) as [|a0 l0] eqn:Hplan; [by destruct pre|].
    rewrite <- Hplan, (steps_ok_run _ _ _ _ _ Hpre), run_plan_cons.
    rewrite (action_field_named _ _ Ha). apply String_eqb_empty in Hn.
    rewrite Hn. cbn [negb orb]. rewrite Ht, Hc. reflexivity.
  - apply call_handler_trace in Hc as [-> _]. by rewrite Htr, app_assoc.
Qed.

(** X3. An action without a non-empty string under [action] is found
    only when the loop reaches it: the steps before it have run, their
    effects stay, and the answer is code -32602, [invalid action
    format]. *)
Theorem invalid_action_after_steps planJSON reply pre action post st calls st1 :
  planJSON ≠ EmptyString →
  decode_plan planJSON = Some (pre ++ action :: post) →
  steps_ok pre st calls st1 →
  (∀ n, action !! "action" = Some (JStr n) → n = EmptyString) →
  ExecutePlan planJSON reply st =
    ((None, with_error new_response (mcp.NewError (-32602) "invalid action format")),
     st1) ∧
  trace st1 = trace st ++ calls ∧ length calls = length pre.
Proof.
  intros Hne Hd Hpre Hbad.
  destruct (steps_ok_trace _ _ _ _ Hpre) as (Htr & Hlen & _).
  split; [|done].
  rewrite (ExecutePlan_decoded _ _ _ _ Hne Hd).
  destruct (pre ++ action :: post) as [|a0 l0] eqn:Hplan; [by destruct pre|].
  rewrite <- Hplan, (steps_ok_run _ _ _ _ _ Hpre), run_plan_cons.
  unfold action_field.
  destruct (action !! "action") as [[| | |n| |]|] eqn:Ha; try reflexivity.
  rewrite (Hbad n eq_refl). reflexivity.
Qed.

Lemma plan_elements_None v x :
  x ∈ v → (∀ m, x ≠ JObj m) → plan_elements v = None.
Proof.
  intros Hin Hx. induction v as [|y v IH]; [by apply elem_of_nil in Hin|].
  apply elem_of_cons in Hin as [<-|Hin].
  - destruct x; try reflexivity. by destruct (Hx fields).
  - cbn. destruct y; try reflexivity. by rewrite (IH Hin).
Qed.

(** X4. The elements of a plan array are checked before anything
    runs: if one of them, wherever it stands, is not an object, the
    answer is code -32700 and no handler has been called, not even
    for the well-formed actions before it. *)
Theorem non_object_element_runs_nothing planJSON reply v x st :
  planJSON ≠ EmptyString →
  json_Unmarshal planJSON = Ok (JArr v) →
  x ∈ v →
  (∀ m, x ≠ JObj m) →
  ExecutePlan planJSON reply st =
    ((None, with_error new_response
              (mcp.NewError (-32700) "plan array contains non-object element")),
     st).
Proof.
  intros Hne Hu Hin Hx. unfold ExecutePlan. apply String_eqb_empty in Hne.
  rewrite Hne, Hu, (plan_elements_None _ _ Hin Hx). reflexivity.
Qed.

(** X5. A plan document that is a single object is treated as the
    array that holds that object alone: same reply, same state. *)
Theorem single_object_is_one_step_array planJSON planJSON' m reply st :
  planJSON ≠ EmptyString →
  planJSON' ≠ EmptyString →
  json_Unmarshal planJSON = Ok (JObj m) →
  json_Unmarshal planJSON' = Ok (JArr [JObj m]) →
  ExecutePlan planJSON reply st = ExecutePlan planJSON' reply st.
Proof.
  intros Hne Hne' Hu Hu'.
  rewrite (ExecutePlan_decoded planJSON _ _ [m] Hne).
  2:{ unfold decode_plan. by rewrite Hu. }
  rewrite (ExecutePlan_decoded planJSON' _ _ [m] Hne'); [reflexivity|].
  unfold decode_plan. by rewrite Hu'.
Qed.

(** X6. [ExecutePlan] and [CallTool] never call the model and never
    touch the system prompt override: what they add to the trace are
    handler calls, at most one for each action of the plan, at most
    one for [CallTool]. *)
Theorem execution_calls_handlers_only :
  (∀ planJSON reply st,
     ∃ calls,
       trace (ExecutePlan planJSON reply st).2 = trace st ++ calls ∧
       Forall (λ e, is_model_call e = false) calls ∧
       (∀ plan, decode_plan planJSON = Some plan → (length calls ≤ length plan)%nat) ∧
       (decode_plan planJSON = None → calls = []) ∧
       systemPromptOverride (ExecutePlan planJSON reply st).2 = systemPromptOverride st) ∧
  (∀ args reply st,
     ∃ calls,
       trace (CallTool args reply st).2 = trace st ++ calls ∧
       Forall (λ e, is_model_call e = false) calls ∧
       (length calls ≤ 1)%nat ∧
       systemPromptOverride (CallTool args reply st).2 = systemPromptOverride st).
Proof.
  split.
  - intros planJSON reply st. rewrite ExecutePlan_state.
    destruct (decode_plan planJSON) as [plan|].
    + destruct (String.eqb planJSON EmptyString).
      * exists []. rewrite app_nil_r. repeat split; [constructor | intros; cbn; lia].
      * destruct (run_plan_adds plan st) as (calls & Htr & Hall & Hlen & Hov).
        exists calls. repeat split; try done. by intros ? [= <-].
    + exists []. rewrite app_nil_r. repeat split; [constructor | done].
  - intros args reply st. unfold CallTool. unfold_M.
    destruct (tools (srv st) !! mcp.ToolName args) as [tool|].
    + pose proof (call_handler_adds (Handler tool) (mcp.Parameters args) st) as [Ht Ho].
      destruct (call_handler _ _ st) as [[e|] st1]; cbn [snd] in *;
        (eexists; split; [exact Ht|]; repeat split; [by repeat constructor | cbn; lia | done]).
    + exists []. cbn. rewrite app_nil_r. repeat split; [constructor | lia].
Qed.

(** X7. [CallTool] on a tool name and a parameter map does what
    [ExecutePlan] does on the one-step plan with that action and those
    parameters, for a name that is not empty and does not start with
    [functions.]: no error is returned, the state left is the same and
    so is the code of the reply's error, if any. *)
Theorem CallTool_is_one_step_plan planJSON name parameters reply reply' st :
  planJSON ≠ EmptyString →
  decode_plan planJSON = Some [action_for name parameters] →
  name ≠ EmptyString →
  HasPrefix name "functions." = false →
  let called :=
    CallTool {| mcp.ToolName := name; mcp.Parameters := Some parameters |} reply st in
  let planned := ExecutePlan planJSON reply' st in
  called.1.1 = None ∧ planned.1.1 = None ∧
  called.2 = planned.2 ∧
  mcp.Code <$> mcp.Error called.1.2 = mcp.Code <$> mcp.Error planned.1.2 ∧
  (mcp.Result called.1.2 = None ↔ mcp.Result planned.1.2 = None).
Proof.
  intros Hne Hd Hn Hp called planned. subst called planned.
  rewrite (ExecutePlan_decoded _ _ _ _ Hne Hd), run_plan_cons.
  assert (Ha : action_for name parameters !! "action" = Some (JStr name))
    by apply lookup_insert_eq.
  assert (Hpar : parameters_field (action_for name parameters) = Some parameters).
  { unfold parameters_field, action_for.
    rewrite lookup_insert_ne by done. by rewrite lookup_insert_eq. }
  rewrite (action_field_named _ _ Ha). apply String_eqb_empty in Hn.
  rewrite Hn. cbn [negb orb]. rewrite (resolved_name_unprefixed _ Hp), Hpar.
  unfold CallTool. unfold_M. cbn [mcp.ToolName mcp.Parameters].
  destruct (tools (srv st) !! name) as [tool|]; [|done].
  destruct (call_handler (Handler tool) (Some parameters) st) as [[e|] st1]; done.
Qed.


(** X24. The error of a reply of [ExecutePlan] has one of the four
    codes -32602, -32700, -32601 and -32000, and that of a reply of
    [CallTool] one of -32601 and -32000. *)
Theorem error_codes_are_standard :
  (∀ planJSON reply st e,
     mcp.Error (ExecutePlan planJSON reply st).1.2 = Some e →
     mcp.Code e ∈ [-32602; -32700; -32601; -32000]) ∧
  (∀ args reply st e,
     mcp.Error (CallTool args reply st).1.2 = Some e →
     mcp.Code e ∈ [-32601; -32000]).
Proof.
  split.
  - intros planJSON reply st e.
    destruct (decide (planJSON = EmptyString)) as [->|Hne].
    { rewrite ExecutePlan_empty. intros [= <-]. set_solver. }
    destruct (decode_plan planJSON) as [plan|] eqn:Hd.
    + rewrite (ExecutePlan_decoded _ _ _ _ Hne Hd). destruct plan as [|a l].
      { intros [= <-]. set_solver. }
      destruct (run_plan (a :: l) st) as [[e'|] st'] eqn:Hrun; [|discriminate].
      intros [= <-].
      destruct (run_plan_failure_code _ _ _ _ Hrun) as [-> | [-> | ->]]; set_solver.
    + destruct (ExecutePlan_undecoded _ reply st Hne Hd) as [msg ->].
      intros [= <-]. set_solver.
  - intros args reply st e. unfold CallTool. unfold_M.
    destruct (tools (srv st) !! mcp.ToolName args) as [tool|].
    + destruct (call_handler _ _ st) as [[err|] st1]; [|discriminate].
      intros [= <-]. set_solver.
    + intros [= <-]. set_solver.
Qed.

End Claims.
End Facts.
End dispatch_more.

(** * Properties of the planning path *)

Module planning.
Import gostrings server spec vocab.
Import dispatch.

(** The reference decoder rejects the confirmation of every tool: the
    text starts with a letter that begins no JSON value. *)
Lemma reference_decoder_rejects_confirmation name :
  jsondec.Unmarshal (confirmation name) = Err "invalid JSON input".
Proof.
  unfold jsondec.Unmarshal.
  destruct (2 * String.length (confirmation name) + 2)%nat as [|fuel] eqn:Hf; [lia|].
  clear Hf. unfold confirmation.
  change ("Tool " +:+ name +:+ " executed successfully")
    with (String "T" ("ool " +:+ name +:+ " executed successfully")).
  reflexivity.
Qed.

Section Facts.
Context `{RT : GoRuntime} `{HT : Host} `{HO : !HostOps} `{SP : SystemPrompt}.

Lemma GetSystemPrompt_idemp o :
  utils.GetSystemPrompt (utils.GetSystemPrompt o) = utils.GetSystemPrompt o.
Proof.
  unfold utils.GetSystemPrompt.
  destruct (String.eqb o EmptyString) eqn:Ho; cbn [negb].
  - by destruct (String.eqb getUniversalSystemPrompt EmptyString).
  - by rewrite Ho.
Qed.

(** [invokeTool] calls at most one handler and leaves the override. *)
Lemma invokeTool_adds functionCall st :
  ∃ calls,
    trace (invokeTool functionCall st).2 = trace st ++ calls ∧
    Forall (λ e, is_model_call e = false) calls ∧
    systemPromptOverride (invokeTool functionCall st).2 = systemPromptOverride st.
Proof.
  unfold invokeTool. unfold_M.
  destruct (tools (srv st) !! llms.Name functionCall) as [tool|].
  2:{ exists []. cbn. rewrite app_nil_r. repeat split. constructor. }
  destruct (json_Unmarshal_map (llms.Arguments functionCall)) as [params|e].
  2:{ exists []. cbn. rewrite app_nil_r. repeat split. constructor. }
  pose proof (dispatch_more.call_handler_adds (Handler tool) params st) as [Ht Ho].
  destruct (call_handler _ _ st) as [[e|] st1]; cbn [snd] in *;
    (eexists; split; [exact Ht|]; split; [by repeat constructor | done]).
Qed.

Lemma invoke_tool_calls_adds toolCalls reply st :
  ∃ calls,
    trace (invoke_tool_calls toolCalls reply st).2 = trace st ++ calls ∧
    Forall (λ e, is_model_call e = false) calls ∧
    systemPromptOverride (invoke_tool_calls toolCalls reply st).2
    = systemPromptOverride st.
Proof.
  revert st. induction toolCalls as [|tc rest IH]; intros st.
  - exists []. cbn. rewrite app_nil_r. repeat split. constructor.
  - cbn [invoke_tool_calls]. destruct (llms.FunctionCall_ tc) as [fc|]; [|apply IH].
    unfold_M. destruct (invokeTool_adds fc st) as (c1 & H1 & Hall1 & Ho1).
    destruct (invokeTool fc st) as [[res [e|]] st1]; cbn [fst snd] in *.
    + destruct (IH st1) as (c2 & H2 & Hall2 & Ho2). exists (c1 ++ c2).
      rewrite H2, H1, Ho2, Ho1, app_assoc. repeat split. by apply Forall_app.
    + by exists c1.
Qed.

(** [CallLLM] makes its one model call first, with the input, the
    system prompt in force and the catalogue; after it come handler
    calls only. The override is left as it was. *)
Lemma CallLLM_adds input reply st :
  ∃ calls,
    trace (CallLLM input reply st).2 =
      trace st ++
      ModelCall (llm_prompt input (utils.GetSystemPrompt (systemPromptOverride st)))
                (registered_tools (srv st)) :: calls ∧
    Forall (λ e, is_model_call e = false) calls ∧
    systemPromptOverride (CallLLM input reply st).2 = systemPromptOverride st.
Proof.
  unfold CallLLM. unfold_M. unfold GetSystemPrompt, GenerateContent.
  destruct (llm_GenerateContent _ _ (world st)) as [w' [[|c cs]|err]];
    try (exists []; cbn; repeat split; constructor).
  destruct (llms.ToolCalls c) as [|tc tcs] eqn:Htc.
  { exists []. cbn. repeat split. constructor. }
  cbn [length Nat.ltb Nat.leb].
  match goal with |- context [invoke_tool_calls ?l ?r ?s] =>
    destruct (invoke_tool_calls_adds l r s) as (calls & Htr & Hall & Ho) end.
  exists calls. rewrite Htr, Ho. cbn. rewrite <- app_assoc. done.
Qed.

Lemma calls_fail_run toolCalls st st' rest reply :
  calls_fail toolCalls st st' →
  invoke_tool_calls (toolCalls ++ rest) reply st = invoke_tool_calls rest reply st'.
Proof.
  induction 1 as [st|tc l st st' Hnone _ IH|tc fc l res err st st1 st' Hsome Hinv _ IH].
  - reflexivity.
  - rewrite <- app_comm_cons. cbn [invoke_tool_calls]. by rewrite Hnone.
  - rewrite <- app_comm_cons. cbn [invoke_tool_calls]. rewrite Hsome. unfold_M.
    rewrite Hinv. exact IH.
Qed.

(** A call that [invokeTool] does not answer with an error ran the
    handler registered under the call's name, and is answered with the
    confirmation for that name. *)
Lemma invokeTool_success functionCall st res st' :
  invokeTool functionCall st = ((res, None), st') →
  res = confirmation (llms.Name functionCall) ∧
  ∃ tool params,
    tools (srv st) !! llms.Name functionCall = Some tool ∧
    json_Unmarshal_map (llms.Arguments functionCall) = Ok params ∧
    call_handler (Handler tool) params st = (None, st').
Proof.
  unfold invokeTool. unfold_M.
  destruct (tools (srv st) !! llms.Name functionCall) as [tool|]; [|discriminate].
  destruct (json_Unmarshal_map (llms.Arguments functionCall)) as [params|e];
    [|discriminate].
  destruct (call_handler (Handler tool) params st) as [[e|] st1] eqn:Hc; [discriminate|].
  intros [= <- <-]. split; [reflexivity|]. by exists tool, params.
Qed.

Lemma confirmation_nonempty name : confirmation name ≠ EmptyString.
Proof. discriminate. Qed.

(** The planning branch on a model answer whose first choice carries
    tool calls. *)
Lemma ProcessInstruction_tool_calls instruction reply st choice others tc tcs st0 :
  utils.IsListServicesQuery (ToLower unicode_ToLower instruction) = false →
  utils.IsListToolsQuery (ToLower unicode_ToLower instruction) = false →
  GenerateContent
    (llm_prompt instruction
       (utils.GetSystemPrompt (systemPromptOverride (planning_state st))))
    (registered_tools (srv (planning_state st))) (planning_state st)
  = (Ok (choice :: others), st0) →
  llms.ToolCalls choice = tc :: tcs →
  ProcessInstruction instruction reply st =
  let '(planned, st1) := invoke_tool_calls (tc :: tcs) EmptyString st0 in
  let '(executed, st2) := ExecutePlan planned.2 reply st1 in
  ((executed.1, executed.2), cleared st2).
Proof.
  intros Hs Ht Hg Htc. rewrite (ProcessInstruction_planning _ _ _ Hs Ht).
  unfold CallLLM at 1. unfold_M. unfold GetSystemPrompt at 1.
  cbn [fst snd]. rewrite Hg, Htc. cbn [length Nat.ltb Nat.leb].
  pose proof (invoke_tool_calls_no_error (tc :: tcs) EmptyString st0) as Hno.
  destruct (invoke_tool_calls (tc :: tcs) EmptyString st0) as [[e plan] st1].
  cbn in Hno. subst e. cbn [fst snd].
  by destruct (ExecutePlan plan reply st1) as [ex st2].
Qed.

Section Claims.

(** X8. Among the tool calls of the model's first choice, those
    without a function call and those that [invokeTool] answers with
    an error are passed over, whatever their handlers did; the first
    call that succeeds ends [CallLLM], whose reply is the confirmation
    naming that tool. No later call is invoked, and the choice's text
    is not used. *)
Theorem CallLLM_first_successful_call
    input reply st choice others pre toolCall functionCall post st0 st1 st2 res :
  GenerateContent
    (llm_prompt input (utils.GetSystemPrompt (systemPromptOverride st)))
    (registered_tools (srv st)) st
  = (Ok (choice :: others), st0) →
  llms.ToolCalls choice = pre ++ toolCall :: post →
  calls_fail pre st0 st1 →
  llms.FunctionCall_ toolCall = Some functionCall →
  invokeTool functionCall st1 = ((res, None), st2) →
  CallLLM input reply st = ((None, confirmation (llms.Name functionCall)), st2).
Proof.
  intros Hg Htc Hpre Hfc Hinv.
  destruct (invokeTool_success _ _ _ _ Hinv) as [-> _].
  unfold CallLLM. unfold_M. unfold GetSystemPrompt. cbn [fst snd].
  rewrite Hg, Htc.
  assert ((0 <? length (pre ++ toolCall :: post))%nat = true) as ->.
  { apply Nat.ltb_lt. rewrite length_app. cbn. lia. }
  rewrite (calls_fail_run _ _ _ _ _ Hpre). cbn [invoke_tool_calls].
  rewrite Hfc. unfold_M. rewrite Hinv. reflexivity.
Qed.

(** X9. When the model answers with a function call and the tool
    runs, [ProcessInstruction] hands the confirmation text to
    [ExecutePlan] as if it were a plan. A JSON decoder rejects that
    text, so the reply carries the parse error -32700 although the
    tool has run and its effects stay. *)
Theorem function_call_reply_is_parse_error
    instruction reply st choice others pre toolCall functionCall post
    st0 st1 st2 res err :
  utils.IsListServicesQuery (ToLower unicode_ToLower instruction) = false →
  utils.IsListToolsQuery (ToLower unicode_ToLower instruction) = false →
  GenerateContent
    (llm_prompt instruction
       (utils.GetSystemPrompt (systemPromptOverride (planning_state st))))
    (registered_tools (srv (planning_state st))) (planning_state st)
  = (Ok (choice :: others), st0) →
  llms.ToolCalls choice = pre ++ toolCall :: post →
  calls_fail pre st0 st1 →
  llms.FunctionCall_ toolCall = Some functionCall →
  invokeTool functionCall st1 = ((res, None), st2) →
  json_Unmarshal (confirmation (llms.Name functionCall)) = Err err →
  ProcessInstruction instruction reply st =
    ((None, with_error new_response
              (mcp.NewError (-32700) ("failed to parse plan JSON: " +:+ err))),
     cleared st2).
Proof.
  intros Hs Ht Hg Htc Hpre Hfc Hinv Hdec.
  destruct (invokeTool_success _ _ _ _ Hinv) as [-> _].
  destruct (pre ++ toolCall :: post) as [|tc tcs] eqn:Hl; [by destruct pre|].
  rewrite (ProcessInstruction_tool_calls _ _ _ _ _ _ _ _ Hs Ht Hg Htc).
  rewrite <- Hl, (calls_fail_run _ _ _ _ _ Hpre). cbn [invoke_tool_calls].
  rewrite Hfc. unfold_M. rewrite Hinv. cbn [fst snd].
  rewrite (ExecutePlan_unparsed _ _ _ _ (confirmation_nonempty _) Hdec). reflexivity.
Qed.

(** X10. When the model answers with tool calls and none of them
    succeeds, the plan stays the empty string and the reply carries
    code -32602, [ExecutePlan received empty plan]; what the failing
    handlers did stays done. *)
Theorem failed_function_calls_give_empty_plan
    instruction reply st choice others tc tcs st0 st1 :
  utils.IsListServicesQuery (ToLower unicode_ToLower instruction) = false →
  utils.IsListToolsQuery (ToLower unicode_ToLower instruction) = false →
  GenerateContent
    (llm_prompt instruction
       (utils.GetSystemPrompt (systemPromptOverride (planning_state st))))
    (registered_tools (srv (planning_state st))) (planning_state st)
  = (Ok (choice :: others), st0) →
  llms.ToolCalls choice = tc :: tcs →
  calls_fail (tc :: tcs) st0 st1 →
  ProcessInstruction instruction reply st =
    ((None, with_error new_response
              (mcp.NewError (-32602) "ExecutePlan received empty plan")),
     cleared st1).
Proof.
  intros Hs Ht Hg Htc Hfail.
  rewrite (ProcessInstruction_tool_calls _ _ _ _ _ _ _ _ Hs Ht Hg Htc).
  pose proof (calls_fail_run _ _ _ [] EmptyString Hfail) as Hrun.
  rewrite app_nil_r in Hrun. rewrite Hrun. cbn [invoke_tool_calls]. unfold_M.
  cbn [fst snd]. rewrite ExecutePlan_empty. reflexivity.
Qed.

(** X11. An instruction that is no listing query costs exactly one
    model call, made before any handler runs, with the instruction,
    the catalogue and the system prompt in force on entry (the
    override if there is one, else the universal prompt). Whatever
    happens next, the override is empty when [ProcessInstruction]
    returns. *)
Theorem planning_calls_model_once instruction reply st :
  utils.IsListServicesQuery (ToLower unicode_ToLower instruction) = false →
  utils.IsListToolsQuery (ToLower unicode_ToLower instruction) = false →
  let st' := (ProcessInstruction instruction reply st).2 in
  systemPromptOverride st' = EmptyString ∧
  ∃ calls,
    trace st' =
      trace st ++
      ModelCall (llm_prompt instruction
                   (utils.GetSystemPrompt (systemPromptOverride st)))
                (registered_tools (srv st)) :: calls ∧
    Forall (λ e, is_model_call e = false) calls.
Proof.
  intros Hs Ht st'. subst st'. rewrite (ProcessInstruction_planning _ _ _ Hs Ht).
  destruct (CallLLM_adds instruction EmptyString (planning_state st))
    as (c1 & H1 & Hall1 & _).
  change (systemPromptOverride (planning_state st))
    with (utils.GetSystemPrompt (systemPromptOverride st)) in H1.
  change (srv (planning_state st)) with (srv st) in H1.
  change (trace (planning_state st)) with (trace st) in H1.
  rewrite GetSystemPrompt_idemp in H1.
  destruct (CallLLM instruction EmptyString (planning_state st)) as [[[e|] plan] st1];
    cbn [fst snd] in *.
  { split; [reflexivity|]. exists c1. split; [exact H1 | done]. }
  destruct (dispatch_more.ExecutePlan_adds plan reply st1) as (c2 & H2 & Hall2 & _).
  destruct (ExecutePlan plan reply st1) as [ex st2]. cbn [fst snd] in *.
  split; [reflexivity|]. exists (c1 ++ c2). cbn. rewrite H2, H1, <- app_assoc.
  split; [reflexivity | by apply Forall_app].
Qed.


(** X25. When the model answers with text and no tool call, the text
    of its first choice is run as the plan: [ProcessInstruction]
    returns the reply of [ExecutePlan] on it, executed in the state
    the model call left, and clears the override. Further choices are
    not looked at. *)
Theorem model_text_is_run_as_plan instruction reply st choice others st0 :
  utils.IsListServicesQuery (ToLower unicode_ToLower instruction) = false →
  utils.IsListToolsQuery (ToLower unicode_ToLower instruction) = false →
  GenerateContent
    (llm_prompt instruction
       (utils.GetSystemPrompt (systemPromptOverride (planning_state st))))
    (registered_tools (srv (planning_state st))) (planning_state st)
  = (Ok (choice :: others), st0) →
  llms.ToolCalls choice = [] →
  ProcessInstruction instruction reply st =
    ((None, (ExecutePlan (llms.Content choice) reply st0).1.2),
     cleared (ExecutePlan (llms.Content choice) reply st0).2).
Proof.
  intros Hs Ht Hg Htc. rewrite (ProcessInstruction_planning _ _ _ Hs Ht).
  unfold CallLLM at 1. unfold_M. unfold GetSystemPrompt at 1.
  cbn [fst snd]. rewrite Hg, Htc. cbn [length Nat.ltb Nat.leb fst snd].
  by destruct (ExecutePlan_envelope (llms.Content choice) reply st0)
    as (resp & st2 & -> & _).
Qed.

(** X26. [invokeTool] looks the tool up and decodes the arguments
    before it calls anything: for an unknown tool, for arguments that
    are not JSON and for arguments that are JSON but neither an object
    nor [null], it returns an error and no handler has run. The
    arguments [null] are accepted: the handler is called with the nil
    map. *)
Theorem invokeTool_checks_before_calling functionCall st :
  (tools (srv st) !! llms.Name functionCall = None →
   invokeTool functionCall st =
     ((EmptyString, Some ("Tool " +:+ llms.Name functionCall +:+ " not found")), st)) ∧
  (∀ tool,
     tools (srv st) !! llms.Name functionCall = Some tool →
     (∀ e, json_Unmarshal (llms.Arguments functionCall) = Err e →
           ∃ msg, invokeTool functionCall st = ((EmptyString, Some msg), st)) ∧
     (∀ raw, json_Unmarshal (llms.Arguments functionCall) = Ok raw →
             raw ≠ JNull → (∀ m, raw ≠ JObj m) →
             ∃ msg, invokeTool functionCall st = ((EmptyString, Some msg), st)) ∧
     (json_Unmarshal (llms.Arguments functionCall) = Ok JNull →
      trace (invokeTool functionCall st).2
      = trace st ++ [HandlerCall (Handler tool) None]) ∧
     (∀ m, json_Unmarshal (llms.Arguments functionCall) = Ok (JObj m) →
           trace (invokeTool functionCall st).2
           = trace st ++ [HandlerCall (Handler tool) (Some m)])).
Proof.
  split.
  - intros Hnone. unfold invokeTool. unfold_M. by rewrite Hnone.
  - intros tool Htool.
    assert (Hcall : ∀ params,
      json_Unmarshal_map (llms.Arguments functionCall) = Ok params →
      trace (invokeTool functionCall st).2
      = trace st ++ [HandlerCall (Handler tool) params]).
    { intros params Hp. unfold invokeTool. unfold_M. rewrite Htool, Hp.
      destruct (call_handler (Handler tool) params st) as [[e|] st1] eqn:Hc;
        apply call_handler_trace in Hc as [Htr _]; exact Htr. }
    split; [|split; [|split]].
    + intros e He. unfold invokeTool, json_Unmarshal_map. unfold_M.
      rewrite Htool, He. by eexists.
    + intros raw Hraw Hnull Hobj. unfold invokeTool, json_Unmarshal_map. unfold_M.
      rewrite Htool, Hraw.
      destruct raw as [| | | | |fields];
        [by destruct Hnull | by eexists.. | by destruct (Hobj fields)].
    + intros Hraw. apply Hcall. unfold json_Unmarshal_map. by rewrite Hraw.
    + intros m Hraw. apply Hcall. unfold json_Unmarshal_map. by rewrite Hraw.
Qed.

End Claims.
End Facts.
End planning.

(** * More properties of the registry and of the listings *)

Module listing_more.
Import gostrings server spec vocab.
Import dispatch listing.

Section Strings.

Lemma lower_byte_idemp c : lower_byte (lower_byte c) = lower_byte c.
Proof. destruct c as [[] [] [] [] [] [] [] []]; reflexivity. Qed.

Lemma lower_byte_ascii c : is_ascii (lower_byte c) = is_ascii c.
Proof. destruct c as [[] [] [] [] [] [] [] []]; reflexivity. Qed.

Lemma map_lower_idemp s :
  map_bytes lower_byte (map_bytes lower_byte s) = map_bytes lower_byte s.
Proof. induction s as [|c s IH]; [reflexivity|]. cbn. by rewrite lower_byte_idemp, IH. Qed.

Lemma map_lower_ascii s :
  all_bytes is_ascii (map_bytes lower_byte s) = all_bytes is_ascii s.
Proof. induction s as [|c s IH]; [reflexivity|]. cbn. by rewrite lower_byte_ascii, IH. Qed.

(** Lower-casing an ASCII string twice is lower-casing it once. *)
Lemma ToLower_idemp_ascii tolower s :
  all_bytes is_ascii s = true →
  ToLower tolower (ToLower tolower s) = ToLower tolower s.
Proof.
  intros Hs. rewrite (ToLower_ascii _ s Hs).
  rewrite ToLower_ascii by (by rewrite map_lower_ascii). apply map_lower_idemp.
Qed.

End Strings.

Section Facts.
Context `{RT : GoRuntime} `{HT : Host} `{HO : !HostOps} `{SP : SystemPrompt}.

(** A catalogue filled through [RegisterTool] answers a query that
    does not lower-case to the empty string with no tool. *)
Lemma via_RegisterTool_lists_nothing s q :
  via_RegisterTool s →
  ToLower unicode_ToLower q ≠ EmptyString →
  listToolsForService s q = [].
Proof.
  intros Hs Hq. rewrite listToolsForService_filter.
  pose proof (via_RegisterTool_no_service s Hs) as Hno.
  assert (Hall : ∀ tool, tool ∈ (map_range (tools s)).*2 → ¬ same_lowercase q tool).
  { intros tool Hin. apply list_elem_of_fmap in Hin as ([k t] & -> & Hin).
    rewrite (map_range_perm _ (tools s)) in Hin.
    apply elem_of_map_to_list in Hin. cbn. unfold same_lowercase.
    rewrite (Hno _ _ Hin), ToLower_empty. congruence. }
  induction ((map_range (tools s)).*2) as [|t l IH]; [reflexivity|].
  rewrite filter_cons_False by (apply Hall; left).
  apply IH. intros tool Hin. apply Hall. by right.
Qed.

Lemma via_RegisterTool_key_is_name s :
  via_RegisterTool s → ∀ key tool, tools s !! key = Some tool → Name tool = key.
Proof.
  induction 1 as [svcs|n d sch h s _ IH]; intros key tool; cbn.
  - by rewrite lookup_empty.
  - rewrite lookup_insert. case_decide; [by intros [= <-] | apply IH].
Qed.

(** The tools branch of [ProcessInstruction]. *)
Lemma ProcessInstruction_tools instruction reply st :
  utils.IsListServicesQuery (ToLower unicode_ToLower instruction) = false →
  utils.IsListToolsQuery (ToLower unicode_ToLower instruction) = true →
  ProcessInstruction instruction reply st =
  ((None,
    list_reply
      (json_Marshal_strings
         (if (utils.ExtractServiceName (ToLower unicode_ToLower instruction)).2
          then listToolsForService (srv st)
                 (utils.ExtractServiceName (ToLower unicode_ToLower instruction)).1
          else listTools (srv st)))), st).
Proof.
  intros Hs Ht. unfold ProcessInstruction. rewrite Hs, Ht. unfold_M.
  by destruct (utils.ExtractServiceName _) as [name [|]].
Qed.

Section Claims.

(** X12. A tools query that is no services query is answered from the
    catalogue without calling the model or a handler: with the tools
    of service [docker] when the lower-cased instruction contains
    [docker], else with those of [git] when it contains [git], else
    with all the tools. No other service name is recognised. *)
Theorem tools_query_answer instruction reply st :
  utils.IsListServicesQuery (ToLower unicode_ToLower instruction) = false →
  utils.IsListToolsQuery (ToLower unicode_ToLower instruction) = true →
  let lower := ToLower unicode_ToLower instruction in
  ∃ lines,
    ProcessInstruction instruction reply st
    = ((None, list_reply (json_Marshal_strings lines)), st) ∧
    (Contains lower "docker" = true → lines = listToolsForService (srv st) "docker") ∧
    (Contains lower "docker" = false → Contains lower "git" = true →
     lines = listToolsForService (srv st) "git") ∧
    (Contains lower "docker" = false → Contains lower "git" = false →
     lines = listTools (srv st)).
Proof.
  intros Hs Ht lower. subst lower. eexists.
  split; [apply (ProcessInstruction_tools _ _ _ Hs Ht)|].
  unfold utils.ExtractServiceName.
  destruct (Contains _ "docker"); [repeat split; (done || discriminate)|].
  destruct (Contains _ "git"); repeat split; (done || discriminate).
Qed.

(** X13. [RegisterTool] records no service, so on a catalogue filled
    through it alone a query for the tools of [docker] or of [git] is
    answered with the result [null]: no tool matches, and the nil
    slice is marshalled as [null]. *)
Theorem service_tools_query_finds_nothing instruction reply st :
  via_RegisterTool (srv st) →
  utils.IsListServicesQuery (ToLower unicode_ToLower instruction) = false →
  utils.IsListToolsQuery (ToLower unicode_ToLower instruction) = true →
  Contains (ToLower unicode_ToLower instruction) "docker" = true ∨
  Contains (ToLower unicode_ToLower instruction) "git" = true →
  ProcessInstruction instruction reply st = ((None, list_reply JNull), st).
Proof.
  intros Hvia Hs Ht Hhint. rewrite (ProcessInstruction_tools _ _ _ Hs Ht).
  unfold utils.ExtractServiceName.
  destruct (Contains _ "docker") eqn:Hd; cbn [fst snd].
  { by rewrite via_RegisterTool_lists_nothing. }
  destruct Hhint as [|Hg]; [done|]. rewrite Hg. cbn [fst snd].
  by rewrite via_RegisterTool_lists_nothing.
Qed.

(** X14. On ASCII instructions the two query predicates do not see
    letter case: instructions equal up to ASCII case folding are
    classified alike, and an instruction is classified like its
    lower-cased form, so that lower-casing it before the predicates
    lower-case it again changes nothing. *)
Theorem query_predicates_ignore_case :
  (∀ a b,
     all_bytes is_ascii a = true → all_bytes is_ascii b = true →
     ascii_fold_eq a b →
     utils.IsListServicesQuery a = utils.IsListServicesQuery b ∧
     utils.IsListToolsQuery a = utils.IsListToolsQuery b) ∧
  (∀ a,
     all_bytes is_ascii a = true →
     utils.IsListServicesQuery (ToLower unicode_ToLower a) = utils.IsListServicesQuery a ∧
     utils.IsListToolsQuery (ToLower unicode_ToLower a) = utils.IsListToolsQuery a).
Proof.
  split.
  - intros a b Ha Hb Hab. unfold utils.IsListServicesQuery, utils.IsListToolsQuery.
    rewrite !(ToLower_ascii _ a Ha), !(ToLower_ascii _ b Hb). by rewrite Hab.
  - intros a Ha. unfold utils.IsListServicesQuery, utils.IsListToolsQuery.
    by rewrite !(ToLower_idemp_ascii _ a Ha).
Qed.

(** X15. [RegisterTool] touches the entry of its name and nothing
    else: the other entries and the services are as before, two
    registrations under different names commute, and in a catalogue
    filled through [RegisterTool] every tool is stored under its own
    [Name]. *)
Theorem RegisterTool_frame :
  (∀ name description inputSchema handler s other,
     other ≠ name →
     tools (RegisterTool name description inputSchema handler s) !! other
     = tools s !! other) ∧
  (∀ name description inputSchema handler s,
     services (RegisterTool name description inputSchema handler s) = services s) ∧
  (∀ n1 d1 sch1 h1 n2 d2 sch2 h2 s,
     n1 ≠ n2 →
     RegisterTool n1 d1 sch1 h1 (RegisterTool n2 d2 sch2 h2 s)
     = RegisterTool n2 d2 sch2 h2 (RegisterTool n1 d1 sch1 h1 s)) ∧
  (∀ s, via_RegisterTool s →
        ∀ key tool, tools s !! key = Some tool → Name tool = key).
Proof.
  split; [|split; [|split]].
  - intros. unfold RegisterTool. cbn. by rewrite lookup_insert_ne.
  - reflexivity.
  - intros. unfold RegisterTool. cbn. f_equal. by apply insert_insert_ne.
  - exact via_RegisterTool_key_is_name.
Qed.

(** X16. [listTools] gives one line for each registered tool, in some
    order, and [listToolsForService] gives a part of those lines,
    whatever the query. *)
Theorem listTools_lists_catalogue s :
  listTools s ≡ₚ tool_line <$> catalogue s ∧
  length (listTools s) = size (tools s) ∧
  ∀ serviceName, listToolsForService s serviceName ⊆+ listTools s.
Proof.
  assert (Hp : listTools s ≡ₚ tool_line <$> catalogue s).
  { rewrite listTools_fmap. unfold catalogue. by rewrite (map_range_perm _ (tools s)). }
  split; [exact Hp|]. split.
  - rewrite Hp. unfold catalogue. by rewrite !length_fmap, length_map_to_list.
  - intros q. rewrite listToolsForService_perm, Hp.
    apply sublist_submseteq, fmap_sublist, sublist_filter.
Qed.

(** X17. With at least one service registered, a services query is
    answered with the array of the registered services' names, in some
    order, whether or not the instruction is a tools query as well;
    the state is untouched. *)
Theorem services_query_lists_names instruction reply st :
  utils.IsListServicesQuery (ToLower unicode_ToLower instruction) = true →
  services (srv st) ≠ ∅ →
  ∃ names,
    ProcessInstruction instruction reply st
    = ((None, list_reply (JArr (JStr <$> names))), st) ∧
    names ≡ₚ service_names (srv st) ∧
    length names = size (services (srv st)).
Proof.
  intros Hq Hne. destruct (services_query_answer _ reply st Hq) as (Hpi & Hp & Harr).
  exists (listServices (srv st)). rewrite Hpi, (Harr Hne).
  split; [reflexivity|]. split; [exact Hp|].
  rewrite Hp. unfold service_names. by rewrite !length_fmap, length_map_to_list.
Qed.


(** X27. A service registered with [RegisterService] is listed by the
    next services query, provided its [RegisterTools] callback leaves
    the services of the server it is handed as they are. *)
Theorem registered_service_is_listed service s w instruction reply o tr :
  services (RegisterService service s w).1
  = <[Service_Name service := service]> (services s) →
  utils.IsListServicesQuery (ToLower unicode_ToLower instruction) = true →
  let st := {| srv := (RegisterService service s w).1;
               world := (RegisterService service s w).2;
               systemPromptOverride := o; trace := tr |} in
  ∃ names,
    ProcessInstruction instruction reply st
    = ((None, list_reply (JArr (JStr <$> names))), st) ∧
    Service_Name service ∈ names.
Proof.
  intros Hsvc Hq st.
  destruct (services_query_answer _ reply st Hq) as (Hpi & Hp & Harr).
  exists (listServices (srv st)). rewrite Hpi, Harr.
  2:{ cbn [srv st]. rewrite Hsvc. apply insert_non_empty. }
  split; [reflexivity|]. rewrite Hp. unfold service_names.
  apply list_elem_of_fmap. exists service. split; [reflexivity|].
  apply list_elem_of_fmap. exists (Service_Name service, service).
  split; [reflexivity|]. apply elem_of_map_to_list. cbn [srv st].
  rewrite Hsvc. apply lookup_insert_eq.
Qed.

End Claims.
End Facts.
End listing_more.

(** * More properties of the loaders *)

Module loading_more.
Import server spec vocab.
Import dispatch loading.

(** As in [loading], the catalogue's handler type is the one the
    loader asserts, and no loaded handler is called. *)
Section OnServer.
Context `{HT : Host} `{IN : !reg.Interp ToolHandler}.

(** A run of the inner loop that returns no error loaded every
    enabled tool it was given. *)
Lemma load_tools_no_error tools0 (r : Server) log r' log' :
  reg.load_tools tools0 r log = (r', log', None) →
  ∀ t, t ∈ tools0 → reg.Enabled t = true → ∃ h, loads t h.
Proof.
  revert r log. induction tools0 as [|tool rest IH]; intros r log Hl t Hin He.
  { by apply elem_of_nil in Hin. }
  cbn [reg.load_tools] in Hl. destruct (reg.Enabled tool) eqn:Het; cbn [negb] in Hl.
  2:{ apply elem_of_cons in Hin as [->|Hin]; [congruence | by eapply IH]. }
  destruct (reg.load_handler tool) as [evs [h|e]] eqn:Hh; [|discriminate].
  apply elem_of_cons in Hin as [->|Hin]; [|by eapply IH].
  exists h. apply load_handler_loads. by rewrite Hh.
Qed.

Lemma register_all_via (l : list reg.ToolConfig) (r : Server) :
  via_RegisterTool r → via_RegisterTool (register_all l r).
Proof.
  revert r. induction l as [|t l IH]; intros r Hr; [done|].
  unfold register_all. cbn [foldl]. apply IH.
  destruct (reg.load_handler t).2; [|done]. by constructor.
Qed.

(** The registry the inner loop leaves is the one after the
    registration of the tools it got to register. *)
Lemma load_tools_via tools0 (r : Server) log :
  via_RegisterTool r → via_RegisterTool (reg.load_tools tools0 r log).1.1.
Proof.
  revert r log. induction tools0 as [|tool rest IH]; intros r log Hr; [done|].
  cbn [reg.load_tools]. destruct (negb (reg.Enabled tool)); [by apply IH|].
  destruct (reg.load_handler tool) as [evs [h|e]]; [|done].
  apply IH. by constructor.
Qed.

Section Claims.

(** X18. [RegisterToolsFromConfig] returns no error exactly when the
    configuration could be read and every enabled tool of every
    enabled service loads. It has then registered all of them, in
    order. When the configuration cannot be read, the error of
    [loadConfig] is returned as it is, nothing is evaluated and the
    registry is untouched. *)
Theorem load_succeeds_iff path (r : Server) :
  ((reg.RegisterToolsFromConfig r path).2 = None ↔
   ∃ cfg, reg.loadConfig path = Ok cfg ∧
          ∀ t, t ∈ enabled_tools (reg.Services cfg) → ∃ h, loads t h) ∧
  (∀ cfg,
     reg.loadConfig path = Ok cfg →
     (∀ t, t ∈ enabled_tools (reg.Services cfg) → ∃ h, loads t h) →
     reg.RegisterToolsFromConfig r path =
       (register_all (enabled_tools (reg.Services cfg)) r,
        concat (load_events <$> enabled_tools (reg.Services cfg)), None)) ∧
  (∀ err,
     reg.loadConfig path = Err err →
     reg.RegisterToolsFromConfig r path = (r, [], Some err)).
Proof.
  assert (Hen : ∀ cfg t, t ∈ enabled_tools (reg.Services cfg) → reg.Enabled t = true).
  { intros cfg t Ht. by apply elem_of_enabled_tools in Ht as (_ & _ & _ & _ & ?). }
  assert (Hok : ∀ cfg,
     reg.loadConfig path = Ok cfg →
     (∀ t, t ∈ enabled_tools (reg.Services cfg) → ∃ h, loads t h) →
     reg.RegisterToolsFromConfig r path =
       (register_all (enabled_tools (reg.Services cfg)) r,
        concat (load_events <$> enabled_tools (reg.Services cfg)), None)).
  { intros cfg Hcfg Hall. unfold reg.RegisterToolsFromConfig.
    rewrite Hcfg, load_services_flat, load_tools_all_load; [reflexivity|].
    intros t Ht. split; [by eapply Hen | by apply Hall]. }
  split; [|split; [exact Hok|]].
  - split.
    + unfold reg.RegisterToolsFromConfig.
      destruct (reg.loadConfig path) as [cfg|e]; [|discriminate].
      rewrite load_services_flat.
      destruct (reg.load_tools _ r []) as [[r' log'] err] eqn:Hl. cbn. intros ->.
      exists cfg. split; [done|]. intros t Ht.
      eapply load_tools_no_error; [exact Hl | exact Ht | by eapply Hen].
    + intros (cfg & Hcfg & Hall). by rewrite (Hok cfg Hcfg Hall).
  - intros err Herr. unfold reg.RegisterToolsFromConfig. by rewrite Herr.
Qed.

(** X19. The loader registers through [RegisterTool], which takes no
    service: whatever service a tool is configured under, it is
    stored with an empty service name. So after loading into a
    catalogue that was filled that way, or was empty, no query that
    names a service lists any tool, the configured service names
    included. *)
Theorem loaded_tools_have_no_service `{RT : GoRuntime} path (r : Server) :
  via_RegisterTool r →
  let s := (reg.RegisterToolsFromConfig r path).1.1 in
  via_RegisterTool s ∧
  (∀ key tool, tools s !! key = Some tool → ServiceName tool = EmptyString) ∧
  (∀ q, gostrings.ToLower unicode_ToLower q ≠ EmptyString →
        listToolsForService s q = []).
Proof.
  intros Hr s.
  assert (Hs : via_RegisterTool s).
  { unfold s, reg.RegisterToolsFromConfig.
    destruct (reg.loadConfig path) as [cfg|e]; [|done].
    rewrite load_services_flat. by apply load_tools_via. }
  split; [exact Hs|]. split.
  - by apply listing.via_RegisterTool_no_service.
  - intros q Hq. by apply listing_more.via_RegisterTool_lists_nothing.
Qed.

End Claims.
End OnServer.

Section CompiledPlugins.
Context `{HT : Host} `{PL : !reg_plugin.Plugins}.

Section Claims.

(** X20. The compiled-plugin loader asserts for a symbol the function
    type that the server calls. After a load in which every tool
    loads, a tool of the configuration is in the catalogue under its
    configured name with the handler its plugin's symbol provided, and
    [CallTool] on that name calls that handler, as long as no later
    tool of the configuration bears the same name; if one does, the
    later one has replaced it. *)
Theorem loaded_tool_is_callable `{HO : !HostOps}
    path cfg before tool after h (r : Server) :
  reg_plugin.loadConfig path = Ok cfg →
  plugin_tools (reg_plugin.Services cfg) = before ++ tool :: after →
  (∀ t, t ∈ plugin_tools (reg_plugin.Services cfg) →
        ∃ h', reg_plugin.load_handler t = Ok h') →
  reg_plugin.load_handler tool = Ok h →
  (∀ t, t ∈ after → reg_plugin.Name t ≠ reg_plugin.Name tool) →
  let s := (reg_plugin.RegisterToolsFromConfig r path).1 in
  tools s !! reg_plugin.Name tool = Some (entry_of tool h) ∧
  ∀ parameters reply w o tr,
    trace (CallTool {| mcp.ToolName := reg_plugin.Name tool;
                       mcp.Parameters := parameters |}
             reply
             {| srv := s; world := w; systemPromptOverride := o; trace := tr |}).2
    = tr ++ [HandlerCall h parameters].
Proof.
  intros Hcfg Hsplit Hall Hh Hafter s.
  assert (Hlook : tools s !! reg_plugin.Name tool = Some (entry_of tool h)).
  { unfold s, reg_plugin.RegisterToolsFromConfig.
    rewrite Hcfg, plugin_loader_loads_every_tool.
    fold (plugin_tools (reg_plugin.Services cfg)).
    rewrite plugin_load_tools_all_load by done.
    cbn [fst]. rewrite Hsplit, plugin_register_all_app.
    change (tool :: after) with ([tool] ++ after).
    rewrite plugin_register_all_app, (plugin_register_all_other after) by done.
    unfold plugin_register_all at 1. cbn [foldl]. rewrite Hh.
    unfold Registry_RegisterTool, Server_Registry, RegisterTool. cbn.
    by rewrite lookup_insert_eq. }
  split; [exact Hlook|].
  intros parameters reply w o tr. unfold CallTool. unfold_M.
  cbn [srv mcp.ToolName]. rewrite Hlook. cbn [Handler entry_of mcp.Parameters].
  destruct (call_handler h parameters _) as [[e|] st'] eqn:Hc;
    apply call_handler_trace in Hc as [Htr _]; exact Htr.
Qed.

(** X21. The loader of compiled plugins stops at the first tool whose
    plugin cannot be opened, whose symbol is not found or whose
    symbol has another signature. It returns an error that names the
    plugin path; the tools before it stay registered and no later
    tool is registered. *)
Theorem plugin_load_failure_aborts path cfg pre tool post err (r : Server) :
  reg_plugin.loadConfig path = Ok cfg →
  plugin_tools (reg_plugin.Services cfg) = pre ++ tool :: post →
  (∀ t, t ∈ pre → ∃ h, reg_plugin.load_handler t = Ok h) →
  reg_plugin.load_handler tool = Err err →
  reg_plugin.RegisterToolsFromConfig r path = (plugin_register_all pre r, Some err) ∧
  (∀ t, t ∈ pre → is_Some (tools (plugin_register_all pre r) !! reg_plugin.Name t)) ∧
  (∀ name,
     tools (plugin_register_all pre r) !! name = None →
     tools r !! name = None ∧ ∀ t, t ∈ pre → reg_plugin.Name t ≠ name) ∧
  ∃ detail,
    err = "failed to open plugin " +:+ reg_plugin.Path (reg_plugin.Plugin tool)
          +:+ ": " +:+ detail ∨
    err = "failed to lookup symbol " +:+ reg_plugin.Symbol (reg_plugin.Plugin tool)
          +:+ " in plugin " +:+ reg_plugin.Path (reg_plugin.Plugin tool)
          +:+ ": " +:+ detail ∨
    err = "plugin symbol " +:+ reg_plugin.Symbol (reg_plugin.Plugin tool)
          +:+ " in " +:+ reg_plugin.Path (reg_plugin.Plugin tool)
          +:+ " does not match expected handler signature".
Proof.
  intros Hcfg Hsplit Hpre Herr. split; [|split; [|split]].
  - unfold reg_plugin.RegisterToolsFromConfig.
    rewrite Hcfg, plugin_loader_loads_every_tool.
    fold (plugin_tools (reg_plugin.Services cfg)).
    rewrite Hsplit, plugin_load_tools_app, plugin_load_tools_all_load by done.
    cbn [reg_plugin.load_tools]. by rewrite Herr.
  - intros t Ht. apply plugin_register_all_registered; [done | by apply Hpre].
  - intros name Hnone. split.
    + destruct (tools r !! name) eqn:Hr; [|done].
      destruct (plugin_register_all_keeps pre r name) as [x Hx]; [by eexists|].
      congruence.
    + intros t Ht <-.
      destruct (plugin_register_all_registered pre r t Ht (Hpre t Ht)) as [x Hx].
      congruence.
  - unfold reg_plugin.load_handler in Herr.
    destruct (reg_plugin.plugin_Open _) as [p|e].
    2:{ injection Herr as <-. exists e. by left. }
    destruct (reg_plugin.Lookup p _) as [v|e].
    2:{ injection Herr as <-. exists e. right. by left. }
    destruct (reg_plugin.as_handler v); [discriminate|].
    injection Herr as <-. exists EmptyString. right. by right.
Qed.

(** X22. The loader of compiled plugins returns no error exactly when
    the configuration could be read and every tool of every service
    loads; all of them are then registered, in order. An unreadable
    configuration gives an error that starts with [failed to load
    config: ] and leaves the registry untouched. *)
Theorem plugin_load_succeeds_iff path (r : Server) :
  ((reg_plugin.RegisterToolsFromConfig r path).2 = None ↔
   ∃ cfg, reg_plugin.loadConfig path = Ok cfg ∧
          ∀ t, t ∈ plugin_tools (reg_plugin.Services cfg) →
               ∃ h, reg_plugin.load_handler t = Ok h) ∧
  (∀ cfg,
     reg_plugin.loadConfig path = Ok cfg →
     (∀ t, t ∈ plugin_tools (reg_plugin.Services cfg) →
           ∃ h, reg_plugin.load_handler t = Ok h) →
     reg_plugin.RegisterToolsFromConfig r path =
       (plugin_register_all (plugin_tools (reg_plugin.Services cfg)) r, None)) ∧
  (∀ err,
     reg_plugin.loadConfig path = Err err →
     reg_plugin.RegisterToolsFromConfig r path =
       (r, Some ("failed to load config: " +:+ err))).
Proof.
  assert (Hok : ∀ cfg,
     reg_plugin.loadConfig path = Ok cfg →
     (∀ t, t ∈ plugin_tools (reg_plugin.Services cfg) →
           ∃ h, reg_plugin.load_handler t = Ok h) →
     reg_plugin.RegisterToolsFromConfig r path =
       (plugin_register_all (plugin_tools (reg_plugin.Services cfg)) r, None)).
  { intros cfg Hcfg Hall. unfold reg_plugin.RegisterToolsFromConfig.
    rewrite Hcfg, plugin_loader_loads_every_tool.
    by apply plugin_load_tools_all_load. }
  split; [|split; [exact Hok|]].
  - split.
    + unfold reg_plugin.RegisterToolsFromConfig.
      destruct (reg_plugin.loadConfig path) as [cfg|e]; [|discriminate].
      rewrite plugin_loader_loads_every_tool.
      destruct (reg_plugin.load_tools _ r) as [r' err] eqn:Hl. cbn. intros ->.
      exists cfg. split; [done|]. by eapply plugin_load_tools_no_error.
    + intros (cfg & Hcfg & Hall). by rewrite (Hok cfg Hcfg Hall).
  - intros err Herr. unfold reg_plugin.RegisterToolsFromConfig. by rewrite Herr.
Qed.

End Claims.
End CompiledPlugins.
End loading_more.

(** * Properties of the HTTP endpoint *)

Module endpoint.
Import gostrings server spec vocab.
Import dispatch.

Section Facts.
Context `{RT : GoRuntime} `{HT : Host} `{HO : !HostOps} `{SP : SystemPrompt}
        `{WI : !transport.Wire}.

(** [ProcessInstruction] either returns no error and a well formed
    reply, or returns the error of a failed model call. *)
Lemma ProcessInstruction_outcome instruction reply st :
  match (ProcessInstruction instruction reply st).1.1 with
  | None => well_formed (ProcessInstruction instruction reply st).1.2
  | Some err =>
    ∃ cause, err = "ProcessInstruction: failed to call LLM: " +:+ cause ∧
             (CallLLM instruction EmptyString (planning_state st)).1.1 = Some cause ∧
             (ProcessInstruction instruction reply st).1.2 = reply
  end.
Proof.
  destruct (utils.IsListServicesQuery (ToLower unicode_ToLower instruction)) eqn:Hs.
  { unfold ProcessInstruction. rewrite Hs. unfold_M. cbn. apply well_formed_list_reply. }
  destruct (utils.IsListToolsQuery (ToLower unicode_ToLower instruction)) eqn:Ht.
  { unfold ProcessInstruction. rewrite Hs, Ht. unfold_M.
    destruct (utils.ExtractServiceName _) as [name [|]]; cbn;
      apply well_formed_list_reply. }
  rewrite (ProcessInstruction_planning _ _ _ Hs Ht).
  destruct (CallLLM instruction EmptyString (planning_state st)) as [[[err|] plan] st1];
    cbn [fst snd].
  { by exists err. }
  destruct (ExecutePlan_envelope plan reply st1) as (resp & st2 & -> & Hwf & _).
  exact Hwf.
Qed.

Section Claims.

(** X23. The endpoint answers a request that is not a POST with 405
    and one whose body cannot be read with 400, touching nothing. A
    body that decodes to a request with a method goes to the JSON-RPC
    codec. Any other body, a JSON object without a method included, is
    taken as an instruction: the answer is 500 with the error text
    when [ProcessInstruction] returns an error, which it does only
    for a failed model call, and otherwise the JSON of a well formed
    reply, whatever went wrong with the plan. *)
Theorem endpoint_routing :
  (∀ method body st,
     method ≠ transport.MethodPost →
     transport.handle_rpc method body st
     = (transport.HTTPError "JSON-RPC requires POST" 405, st)) ∧
  (∀ e st,
     transport.handle_rpc transport.MethodPost (Err e) st
     = (transport.HTTPError "Failed to read request" 400, st)) ∧
  (∀ data req st,
     transport.decode_RPCRequest data = Ok req →
     transport.Method req ≠ EmptyString →
     transport.handle_rpc transport.MethodPost (Ok data) st
     = (transport.Served (transport.ServeRequest data st).1,
        (transport.ServeRequest data st).2)) ∧
  (∀ data st,
     (∀ req, transport.decode_RPCRequest data = Ok req →
             transport.Method req = EmptyString) →
     let processed := ProcessInstruction data transport.zero_reply st in
     let answered := transport.handle_rpc transport.MethodPost (Ok data) st in
     answered.2 = processed.2 ∧
     match processed.1.1 with
     | Some err =>
       answered.1 = transport.HTTPError err 500 ∧
       ∃ cause, err = "ProcessInstruction: failed to call LLM: " +:+ cause ∧
                (CallLLM data EmptyString (planning_state st)).1.1 = Some cause
     | None =>
       answered.1 = transport.JSONReply processed.1.2 ∧ well_formed processed.1.2
     end).
Proof.
  split; [|split; [|split]].
  - intros method body st Hm. unfold transport.handle_rpc.
    apply String.eqb_neq in Hm. by rewrite Hm.
  - reflexivity.
  - intros data req st Hd Hm. unfold transport.handle_rpc.
    rewrite String.eqb_refl. cbn [negb].
    rewrite Hd. apply String.eqb_neq in Hm. rewrite Hm. cbn [negb].
    by destruct (transport.ServeRequest data st).
  - intros data st Hplain processed answered. subst processed answered.
    pose proof (ProcessInstruction_outcome data transport.zero_reply st) as Hout.
    unfold transport.handle_rpc. rewrite String.eqb_refl. cbn [negb].
    assert (match transport.decode_RPCRequest data with
            | Ok req => negb (String.eqb (transport.Method req) EmptyString)
            | Err _ => false
            end = false) as ->.
    { destruct (transport.decode_RPCRequest data) as [req|e]; [|done].
      by rewrite (Hplain req eq_refl). }
    unfold_M.
    destruct (ProcessInstruction data transport.zero_reply st) as [[[err|] r] st'];
      cbn [fst snd] in *.
    + split; [reflexivity|]. split; [reflexivity|].
      destruct Hout as (cause & -> & Hcause & _). by exists cause.
    + done.
Qed.

End Claims.
End Facts.
End endpoint.

(** * The further properties on the concrete host *)

Module more_runs.
Import gostrings server spec vocab.

(** X1, witness: a one-step plan that pulls the image. *)
Lemma ExecutePlan_success_witness :
  demo.ExecutePlan (demo.q "[{'action':'pull_image'}]") new_response demo.st0
  = ((None, with_result new_response plan_success), demo.st1) ∧
  (∃ m, plan_success = JObj m ∧
        m !! "status" = Some (JStr "success") ∧
        m !! "message" = Some (JStr "Plan executed successfully")) ∧
  mcp.Error (with_result new_response plan_success) = None ∧
  trace demo.st1 = trace demo.st0 ++ [demo2.call_pull] ∧
  length [demo2.call_pull] = length [demo.action_named "pull_image"].
Proof.
  apply (dispatch_more.ExecutePlan_success
    (RT := demo.runtime) (HT := demo.host) (HO := demo.host_ops)
    (demo.q "[{'action':'pull_image'}]") new_response
    [demo.action_named "pull_image"] demo.st0 [demo2.call_pull] demo.st1).
  - discriminate.
  - vm_compute. reflexivity.
  - discriminate.
  - apply (steps_ok_cons (HT := demo.host) (HO := demo.host_ops)
      (demo.action_named "pull_image") [] "pull_image" demo2.tool_pull_entry
      demo.st0 demo.st1 [] demo.st1);
      [vm_compute; reflexivity | discriminate | vm_compute; reflexivity
      | vm_compute; reflexivity | constructor].
Defined.

(** X2, witness: the image is pulled, the daemon fails to start, and
    a third step is never reached. *)
Lemma handler_error_aborts_witness :
  demo.ExecutePlan
    (demo.q "[{'action':'pull_image'},{'action':'start'},{'action':'install'}]")
    new_response demo.st0
  = ((None, with_error new_response
              (mcp.NewError (-32000)
                 ("failed to execute tool " +:+ resolved_name "start" +:+ ": "
                  +:+ "daemon not running"))),
     demo2.st_failed) ∧
  trace demo2.st_failed =
    trace demo.st0 ++ [demo2.call_pull]
      ++ [@HandlerCall demo.host (Handler demo2.tool_start_entry)
            (@parameters_field (demo.action_named "start"))].
Proof.
  apply (dispatch_more.handler_error_aborts
    (RT := demo.runtime) (HT := demo.host) (HO := demo.host_ops)
    (demo.q "[{'action':'pull_image'},{'action':'start'},{'action':'install'}]")
    new_response [demo.action_named "pull_image"] (demo.action_named "start")
    [demo.action_named "install"] "start" demo2.tool_start_entry
    "daemon not running" demo.st0 [demo2.call_pull] demo.st1 demo2.st_failed).
  - discriminate.
  - vm_compute. reflexivity.
  - apply (steps_ok_cons (HT := demo.host) (HO := demo.host_ops)
      (demo.action_named "pull_image") [] "pull_image" demo2.tool_pull_entry
      demo.st0 demo.st1 [] demo.st1);
      [vm_compute; reflexivity | discriminate | vm_compute; reflexivity
      | vm_compute; reflexivity | constructor].
  - vm_compute. reflexivity.
  - discriminate.
  - vm_compute. reflexivity.
  - vm_compute. reflexivity.
Defined.

(** X3, witness: the second element of the plan has no action. *)
Lemma invalid_action_after_steps_witness :
  demo.ExecutePlan (demo.q "[{'action':'pull_image'},{'parameters':{}}]")
    new_response demo.st0
  = ((None, with_error new_response (mcp.NewError (-32602) "invalid action format")),
     demo.st1) ∧
  trace demo.st1 = trace demo.st0 ++ [demo2.call_pull] ∧
  length [demo2.call_pull] = length [demo.action_named "pull_image"].
Proof.
  apply (dispatch_more.invalid_action_after_steps
    (RT := demo.runtime) (HT := demo.host) (HO := demo.host_ops)
    (demo.q "[{'action':'pull_image'},{'parameters':{}}]") new_response
    [demo.action_named "pull_image"] {[ "parameters" := JObj ∅ ]} []
    demo.st0 [demo2.call_pull] demo.st1).
  - discriminate.
  - vm_compute. reflexivity.
  - apply (steps_ok_cons (HT := demo.host) (HO := demo.host_ops)
      (demo.action_named "pull_image") [] "pull_image" demo2.tool_pull_entry
      demo.st0 demo.st1 [] demo.st1);
      [vm_compute; reflexivity | discriminate | vm_compute; reflexivity
      | vm_compute; reflexivity | constructor].
  - intros n Hn. vm_compute in Hn. discriminate.
Defined.

(** X4, witness: a number after a well-formed action. *)
Lemma non_object_element_runs_nothing_witness :
  demo.ExecutePlan (demo.q "[{'action':'pull_image'},42]") new_response demo.st0
  = ((None, with_error new_response
              (mcp.NewError (-32700) "plan array contains non-object element")),
     demo.st0).
Proof.
  apply (dispatch_more.non_object_element_runs_nothing
    (RT := demo.runtime) (HT := demo.host) (HO := demo.host_ops)
    (demo.q "[{'action':'pull_image'},42]") new_response
    [JObj (demo.action_named "pull_image"); JNum "42"] (JNum "42") demo.st0).
  - discriminate.
  - vm_compute. reflexivity.
  - right. left.
  - discriminate.
Defined.

(** X5, witness: one action, bare and in an array. *)
Lemma single_object_is_one_step_array_witness :
  demo.ExecutePlan (demo.q "{'action':'pull_image'}") new_response demo.st0
  = demo.ExecutePlan (demo.q "[{'action':'pull_image'}]") new_response demo.st0.
Proof.
  apply (dispatch_more.single_object_is_one_step_array
    (RT := demo.runtime) (HT := demo.host) (HO := demo.host_ops)
    (demo.q "{'action':'pull_image'}") (demo.q "[{'action':'pull_image'}]")
    (demo.action_named "pull_image") new_response demo.st0).
  - discriminate.
  - discriminate.
  - vm_compute. reflexivity.
  - vm_compute. reflexivity.
Defined.

(** X7, witness: [pull_image] with an empty parameter map. *)
Lemma CallTool_is_one_step_plan_witness :
  let called :=
    demo.CallTool {| mcp.ToolName := "pull_image"; mcp.Parameters := Some ∅ |}
      new_response demo.st0 in
  let planned :=
    demo.ExecutePlan (demo.q "{'action':'pull_image','parameters':{}}")
      new_response demo.st0 in
  called.1.1 = None ∧ planned.1.1 = None ∧
  called.2 = planned.2 ∧
  mcp.Code <$> mcp.Error called.1.2 = mcp.Code <$> mcp.Error planned.1.2 ∧
  (mcp.Result called.1.2 = None ↔ mcp.Result planned.1.2 = None).
Proof.
  apply (dispatch_more.CallTool_is_one_step_plan
    (RT := demo.runtime) (HT := demo.host) (HO := demo.host_ops)
    (demo.q "{'action':'pull_image','parameters':{}}") "pull_image" ∅
    new_response new_response demo.st0).
  - discriminate.
  - vm_compute. reflexivity.
  - discriminate.
  - reflexivity.
Defined.

(** X24, witness: the reply to the plan [[]]. *)
Lemma error_codes_are_standard_witness :
  mcp.Code (mcp.NewError (-32602) "received empty plan from LLM")
  ∈ [-32602; -32700; -32601; -32000].
Proof.
  apply (proj1 (dispatch_more.error_codes_are_standard
    (RT := demo.runtime) (HT := demo.host) (HO := demo.host_ops))
    "[]" new_response demo.st0).
  vm_compute. reflexivity.
Defined.


(** The tool calls of the model's answer to [pull mysql]: the two
    that are passed over. *)
Lemma model_calls_fail :
  calls_fail (RT := demo.runtime) (HT := demo.host) (HO := demo2.host_ops_fc)
    [ {| llms.FunctionCall_ := None |}; demo2.call_of "start" "{}" ]
    (demo2.after_model "pull mysql" "You generate JSON plans." [] [])
    (demo2.after_model "pull mysql" "You generate JSON plans." [demo2.call_start] []).
Proof.
  apply calls_fail_skip; [reflexivity|].
  eapply calls_fail_error; [reflexivity | vm_compute; reflexivity | constructor].
Defined.

(** X8, witness: the model's calls for [pull mysql]; the call of
    [pull_image] is the first to succeed and [install] is not run. *)
Lemma CallLLM_first_successful_call_witness :
  @CallLLM demo.runtime demo.host demo2.host_ops_fc demo.prompt
    "pull mysql" EmptyString
    {| srv := demo.s0; world := [];
       systemPromptOverride := "You generate JSON plans."; trace := [] |}
  = ((None, confirmation "pull_image"),
     {| srv := demo.s0; world := ["image pulled"];
        systemPromptOverride := "You generate JSON plans.";
        trace :=
          [ @ModelCall demo.host
              (llm_prompt "pull mysql" "You generate JSON plans.")
              (@registered_tools demo.runtime demo.host demo.s0);
            demo2.call_start; demo2.call_pull ] |}).
Proof.
  apply (planning.CallLLM_first_successful_call
    (RT := demo.runtime) (HT := demo.host) (HO := demo2.host_ops_fc) (SP := demo.prompt)
    "pull mysql" EmptyString _
    {| llms.Content := EmptyString;
       llms.ToolCalls :=
         [ {| llms.FunctionCall_ := None |}; demo2.call_of "start" "{}";
           demo2.call_of "pull_image" "null"; demo2.call_of "install" "{}" ] |}
    []
    [ {| llms.FunctionCall_ := None |}; demo2.call_of "start" "{}" ]
    (demo2.call_of "pull_image" "null")
    {| llms.Name := "pull_image"; llms.Arguments := "null" |}
    [ demo2.call_of "install" "{}" ]
    (demo2.after_model "pull mysql" "You generate JSON plans." [] [])
    (demo2.after_model "pull mysql" "You generate JSON plans." [demo2.call_start] [])
    _ (confirmation "pull_image")).
  - vm_compute. reflexivity.
  - reflexivity.
  - exact model_calls_fail.
  - reflexivity.
  - vm_compute. reflexivity.
Defined.

(** X9, witness: the instruction [pull mysql], answered by a function
    call of [pull_image]: the image is pulled and the reply is a parse
    error. *)
Lemma function_call_reply_is_parse_error_witness :
  demo2.ProcessInstruction_fc "pull mysql" new_response demo.st0
  = ((None, with_error new_response
              (mcp.NewError (-32700)
                 ("failed to parse plan JSON: " +:+ "invalid JSON input"))),
     demo2.after_model "pull mysql" EmptyString
       [demo2.call_start; demo2.call_pull] ["image pulled"]).
Proof.
  apply (planning.function_call_reply_is_parse_error
    (RT := demo.runtime) (HT := demo.host) (HO := demo2.host_ops_fc) (SP := demo.prompt)
    "pull mysql" new_response demo.st0
    {| llms.Content := EmptyString;
       llms.ToolCalls :=
         [ {| llms.FunctionCall_ := None |}; demo2.call_of "start" "{}";
           demo2.call_of "pull_image" "null"; demo2.call_of "install" "{}" ] |}
    []
    [ {| llms.FunctionCall_ := None |}; demo2.call_of "start" "{}" ]
    (demo2.call_of "pull_image" "null")
    {| llms.Name := "pull_image"; llms.Arguments := "null" |}
    [ demo2.call_of "install" "{}" ]
    (demo2.after_model "pull mysql" "You generate JSON plans." [] [])
    (demo2.after_model "pull mysql" "You generate JSON plans." [demo2.call_start] [])
    (demo2.after_model "pull mysql" "You generate JSON plans."
       [demo2.call_start; demo2.call_pull] ["image pulled"])
    (confirmation "pull_image") "invalid JSON input").
  - vm_compute. reflexivity.
  - vm_compute. reflexivity.
  - vm_compute. reflexivity.
  - reflexivity.
  - exact model_calls_fail.
  - reflexivity.
  - vm_compute. reflexivity.
  - vm_compute. reflexivity.
Defined.

(** X10, witness: the instruction [start the daemon], answered by a
    function call of the failing tool. *)
Lemma failed_function_calls_give_empty_plan_witness :
  demo2.ProcessInstruction_fc "start the daemon" new_response demo.st0
  = ((None, with_error new_response
              (mcp.NewError (-32602) "ExecutePlan received empty plan")),
     demo2.after_model "start the daemon" EmptyString [demo2.call_start] []).
Proof.
  apply (planning.failed_function_calls_give_empty_plan
    (RT := demo.runtime) (HT := demo.host) (HO := demo2.host_ops_fc) (SP := demo.prompt)
    "start the daemon" new_response demo.st0
    {| llms.Content := EmptyString;
       llms.ToolCalls := [demo2.call_of "start" "{}"] |}
    [] (demo2.call_of "start" "{}") []
    (demo2.after_model "start the daemon" "You generate JSON plans." [] [])
    (demo2.after_model "start the daemon" "You generate JSON plans."
       [demo2.call_start] [])).
  - vm_compute. reflexivity.
  - vm_compute. reflexivity.
  - vm_compute. reflexivity.
  - reflexivity.
  - eapply calls_fail_error; [reflexivity | vm_compute; reflexivity | constructor].
Defined.

(** X11, witness: the instruction [pull mysql], answered with a plan. *)
Lemma planning_calls_model_once_witness :
  let st' := (demo.ProcessInstruction "pull mysql" new_response demo.st0).2 in
  systemPromptOverride st' = EmptyString ∧
  ∃ calls,
    trace st' =
      trace demo.st0 ++
      @ModelCall demo.host
        (llm_prompt "pull mysql"
           (@utils.GetSystemPrompt demo.prompt (systemPromptOverride demo.st0)))
        (@registered_tools demo.runtime demo.host (srv demo.st0)) :: calls ∧
    Forall (λ e, is_model_call e = false) calls.
Proof.
  apply (planning.planning_calls_model_once
    (RT := demo.runtime) (HT := demo.host) (HO := demo.host_ops) (SP := demo.prompt)
    "pull mysql" new_response demo.st0).
  - vm_compute. reflexivity.
  - vm_compute. reflexivity.
Defined.

(** X25, witness: the instruction [pull mysql], answered with the
    text of a one-step plan. *)
Lemma model_text_is_run_as_plan_witness :
  demo.ProcessInstruction "pull mysql" new_response demo.st0
  = ((None,
      (demo.ExecutePlan (demo.q "[{'action':'pull_image'}]") new_response
         (demo2.after_model "pull mysql" "You generate JSON plans." [] [])).1.2),
     cleared
       (demo.ExecutePlan (demo.q "[{'action':'pull_image'}]") new_response
          (demo2.after_model "pull mysql" "You generate JSON plans." [] [])).2).
Proof.
  apply (planning.model_text_is_run_as_plan
    (RT := demo.runtime) (HT := demo.host) (HO := demo.host_ops) (SP := demo.prompt)
    "pull mysql" new_response demo.st0
    {| llms.Content := demo.q "[{'action':'pull_image'}]"; llms.ToolCalls := [] |} []
    (demo2.after_model "pull mysql" "You generate JSON plans." [] [])).
  - vm_compute. reflexivity.
  - vm_compute. reflexivity.
  - vm_compute. reflexivity.
  - reflexivity.
Defined.

(** X26, witness: a call of [pull_image] with an array for arguments
    is refused without running the handler. *)
Lemma invokeTool_checks_before_calling_witness :
  ∃ msg,
    @invokeTool demo.runtime demo.host demo.host_ops
      {| llms.Name := "pull_image"; llms.Arguments := "[1]" |} demo.st0
    = ((EmptyString, Some msg), demo.st0).
Proof.
  apply (proj1 (proj2 (proj2 (planning.invokeTool_checks_before_calling
    (RT := demo.runtime) (HT := demo.host) (HO := demo.host_ops)
    {| llms.Name := "pull_image"; llms.Arguments := "[1]" |} demo.st0)
    demo2.tool_pull_entry ltac:(vm_compute; reflexivity)))
    (JArr [JNum "1"])).
  - vm_compute. reflexivity.
  - discriminate.
  - discriminate.
Defined.


(** X6, witness: the two-step plan whose second action is unknown
    makes one handler call. *)
Lemma execution_calls_handlers_only_witness :
  ∃ calls,
    trace (demo.ExecutePlan (demo.q "[{'action':'pull_image'},{'action':'zzz'}]")
             new_response demo.st0).2 = trace demo.st0 ++ calls ∧
    Forall (λ e, is_model_call e = false) calls ∧
    (length calls ≤ 2)%nat.
Proof.
  destruct (proj1 (dispatch_more.execution_calls_handlers_only
    (RT := demo.runtime) (HT := demo.host) (HO := demo.host_ops))
    (demo.q "[{'action':'pull_image'},{'action':'zzz'}]") new_response demo.st0)
    as (calls & Htr & Hall & Hlen & _).
  exists calls. split; [exact Htr|]. split; [exact Hall|].
  apply (Hlen [demo.action_named "pull_image"; demo.action_named "zzz"]).
  vm_compute. reflexivity.
Defined.

(** X12, witness: [list tools] names no service and gets every tool. *)
Lemma tools_query_answer_witness :
  ∃ lines,
    demo.ProcessInstruction "list tools" new_response demo.st0
    = ((None, list_reply (json_Marshal_strings lines)), demo.st0) ∧
    lines = @listTools demo.runtime demo.host demo.s0.
Proof.
  destruct (listing_more.tools_query_answer
    (RT := demo.runtime) (HT := demo.host) (HO := demo.host_ops) (SP := demo.prompt)
    "list tools" new_response demo.st0
    ltac:(vm_compute; reflexivity) ltac:(vm_compute; reflexivity))
    as (lines & Hpi & _ & _ & Hall).
  exists lines. split; [exact Hpi|].
  apply Hall; vm_compute; reflexivity.
Defined.

(** X13, witness: [list docker tools] on the catalogue [s0]. *)
Lemma service_tools_query_finds_nothing_witness :
  demo.ProcessInstruction "list docker tools" new_response demo.st0
  = ((None, list_reply JNull), demo.st0).
Proof.
  apply (listing_more.service_tools_query_finds_nothing
    (RT := demo.runtime) (HT := demo.host) (HO := demo.host_ops) (SP := demo.prompt)).
  - cbn [srv demo.st0 demo.state_of]. unfold demo.s0.
    do 3 apply via_RegisterTool_call. apply via_RegisterTool_new.
  - vm_compute. reflexivity.
  - vm_compute. reflexivity.
  - left. vm_compute. reflexivity.
Defined.

(** X14, witness: [LIST Services] and [list services]. *)
Lemma query_predicates_ignore_case_witness :
  utils.IsListServicesQuery (H := demo.runtime) "LIST Services"
  = utils.IsListServicesQuery (H := demo.runtime) "list services" ∧
  utils.IsListToolsQuery (H := demo.runtime) "LIST Services"
  = utils.IsListToolsQuery (H := demo.runtime) "list services".
Proof.
  apply (proj1 (listing_more.query_predicates_ignore_case (RT := demo.runtime))
           "LIST Services" "list services"); reflexivity.
Defined.

(** X15, witness: two registrations under different names, in both
    orders. *)
Lemma RegisterTool_frame_witness :
  RegisterTool (HT := demo.host) "a" "first" None demo.pull_image
    (RegisterTool (HT := demo.host) "b" "second" None demo.failing demo.empty_server)
  = RegisterTool (HT := demo.host) "b" "second" None demo.failing
      (RegisterTool (HT := demo.host) "a" "first" None demo.pull_image
         demo.empty_server).
Proof.
  apply (proj1 (proj2 (proj2 (listing_more.RegisterTool_frame (HT := demo.host))))).
  discriminate.
Defined.

(** X17, witness: the server with the service [docker]. *)
Lemma services_query_lists_names_witness :
  ∃ names,
    demo.ProcessInstruction "what services are available" new_response
      (demo.state_of demo.s_services)
    = ((None, list_reply (JArr (JStr <$> names))), demo.state_of demo.s_services) ∧
    names ≡ₚ @service_names demo.host demo.host_ops (srv (demo.state_of demo.s_services)) ∧
    length names = size (services (srv (demo.state_of demo.s_services))).
Proof.
  apply (listing_more.services_query_lists_names
    (RT := demo.runtime) (HT := demo.host) (HO := demo.host_ops) (SP := demo.prompt)).
  - vm_compute. reflexivity.
  - apply insert_non_empty.
Defined.

(** X27, witness: the service [git] registered on [s0]. *)
Lemma registered_service_is_listed_witness :
  let st := {| srv := (@RegisterService demo.host demo.host_ops "git" demo.s0 []).1;
               world := (@RegisterService demo.host demo.host_ops "git" demo.s0 []).2;
               systemPromptOverride := EmptyString; trace := [] |} in
  ∃ names,
    demo.ProcessInstruction "list services" new_response st
    = ((None, list_reply (JArr (JStr <$> names))), st) ∧
    @Service_Name demo.host demo.host_ops "git" ∈ names.
Proof.
  apply (listing_more.registered_service_is_listed
    (RT := demo.runtime) (HT := demo.host) (HO := demo.host_ops) (SP := demo.prompt)
    "git" demo.s0 [] "list services" new_response EmptyString []).
  - reflexivity.
  - vm_compute. reflexivity.
Defined.

(** X18, witness: a configuration whose enabled tools all load. *)
Lemma load_succeeds_iff_witness :
  (demo2.RegisterToolsFromConfig_ok demo.empty_server "ok.yaml").2 = None.
Proof.
  apply (proj1 (loading_more.load_succeeds_iff
    (HT := demo.host) (IN := demo2.interp_ok) "ok.yaml" demo.empty_server)).
  exists demo2.cfg_ok. split; [reflexivity|].
  intros t Ht.
  change (t ∈ [demo.tool_pull; demo.tool_network; demo2.tool_pull_again]) in Ht.
  repeat (apply elem_of_cons in Ht as [->|Ht]);
    [exists demo.pull_image | exists demo.create_network
    | exists demo.create_network | by apply elem_of_nil in Ht];
    (split; [reflexivity|]; eexists; split; reflexivity).
Defined.

(** X19, witness: the tools configured under the service [docker]
    are not listed for [docker]. *)
Lemma loaded_tools_have_no_service_witness :
  demo.listToolsForService
    (demo2.RegisterToolsFromConfig_ok demo.empty_server "ok.yaml").1.1 "docker" = [].
Proof.
  apply (proj2 (proj2 (loading_more.loaded_tools_have_no_service
    (HT := demo.host) (IN := demo2.interp_ok) (RT := demo.runtime)
    "ok.yaml" demo.empty_server (via_RegisterTool_new ∅)))).
  discriminate.
Defined.

(** X20, witness: [pull_image], opened from [pull.so], is called by
    its configured name; the tool configured after it bears another
    name. *)
Lemma loaded_tool_is_callable_witness :
  let s := (demo2.RegisterToolsFromPlugins demo.empty_server "good.yaml").1 in
  tools s !! "pull_image"
  = Some (entry_of (HT := demo.host) demo2.plugin_pull demo.pull_image) ∧
  ∀ parameters reply w o tr,
    trace (demo.CallTool
             {| mcp.ToolName := "pull_image"; mcp.Parameters := parameters |}
             reply
             {| srv := s; world := w; systemPromptOverride := o; trace := tr |}).2
    = tr ++ [@HandlerCall demo.host demo.pull_image parameters].
Proof.
  apply (loading_more.loaded_tool_is_callable
    (HT := demo.host) (PL := demo2.plugins) (HO := demo.host_ops)
    "good.yaml" (demo2.plugin_cfg [demo2.plugin_pull; demo2.plugin_network])
    [] demo2.plugin_pull [demo2.plugin_network] demo.pull_image demo.empty_server).
  - reflexivity.
  - reflexivity.
  - intros t Ht.
    change (t ∈ [demo2.plugin_pull; demo2.plugin_network]) in Ht.
    repeat (apply elem_of_cons in Ht as [->|Ht]);
      [exists demo.pull_image | exists demo.create_network | by apply elem_of_nil in Ht];
      reflexivity.
  - reflexivity.
  - intros t Ht. apply list_elem_of_singleton in Ht as ->. discriminate.
Defined.

(** X21, witness: the second of three plugins cannot be opened. *)
Lemma plugin_load_failure_aborts_witness :
  demo2.RegisterToolsFromPlugins demo.empty_server "bad.yaml"
  = (plugin_register_all (HT := demo.host) (PL := demo2.plugins)
       [demo2.plugin_pull] demo.empty_server,
     Some "failed to open plugin missing.so: plugin.Open: not found").
Proof.
  apply (loading_more.plugin_load_failure_aborts
    (HT := demo.host) (PL := demo2.plugins)
    "bad.yaml" (demo2.plugin_cfg [demo2.plugin_pull; demo2.plugin_broken;
                                  demo2.plugin_network])
    [demo2.plugin_pull] demo2.plugin_broken [demo2.plugin_network]).
  - reflexivity.
  - reflexivity.
  - intros t Ht. apply list_elem_of_singleton in Ht as ->.
    exists demo.pull_image. reflexivity.
  - reflexivity.
Defined.

(** X22, witness: a configuration whose two plugins load. *)
Lemma plugin_load_succeeds_iff_witness :
  (demo2.RegisterToolsFromPlugins demo.empty_server "good.yaml").2 = None.
Proof.
  apply (proj1 (loading_more.plugin_load_succeeds_iff
    (HT := demo.host) (PL := demo2.plugins) "good.yaml" demo.empty_server)).
  exists (demo2.plugin_cfg [demo2.plugin_pull; demo2.plugin_network]).
  split; [reflexivity|]. intros t Ht.
  change (t ∈ [demo2.plugin_pull; demo2.plugin_network]) in Ht.
  repeat (apply elem_of_cons in Ht as [->|Ht]);
    [exists demo.pull_image | exists demo.create_network | by apply elem_of_nil in Ht];
    reflexivity.
Defined.

(** X23, witness: a plain-text body while the model is unreachable,
    and a plan object sent as a body. *)
Lemma endpoint_routing_witness :
  (demo2.handle_rpc "POST" (Ok "create a network") demo.st0).1
  = transport.HTTPError
      "ProcessInstruction: failed to call LLM: LLM API error: connection refused" 500 ∧
  ∃ reply,
    (demo2.handle_rpc "POST" (Ok (demo.q "{'action':'pull_image'}")) demo.st0).1
    = transport.JSONReply reply ∧ well_formed reply.
Proof.
  pose proof (proj2 (proj2 (proj2 (endpoint.endpoint_routing
    (RT := demo.runtime) (HT := demo.host) (HO := demo.host_ops) (SP := demo.prompt)
    (WI := demo2.wire))))) as H.
  split.
  - assert (Hplain : ∀ req,
      transport.decode_RPCRequest (Wire := demo2.wire) "create a network" = Ok req →
      transport.Method req = EmptyString).
    { intros req Hreq. vm_compute in Hreq. discriminate. }
    destruct (H "create a network" demo.st0 Hplain) as [_ Hout].
    vm_compute in Hout. destruct Hout as [Hout _]. vm_compute. exact Hout.
  - assert (Hplain : ∀ req,
      transport.decode_RPCRequest (Wire := demo2.wire)
        (demo.q "{'action':'pull_image'}") = Ok req →
      transport.Method req = EmptyString).
    { intros req Hreq. vm_compute in Hreq. by injection Hreq as <-. }
    destruct (H (demo.q "{'action':'pull_image'}") demo.st0 Hplain) as [_ Hout].
    assert (Hnone : (demo.ProcessInstruction (demo.q "{'action':'pull_image'}")
                       transport.zero_reply demo.st0).1.1 = None)
      by (vm_compute; reflexivity).
    change (@ProcessInstruction demo.runtime demo.host demo.host_ops demo.prompt)
      with demo.ProcessInstruction in Hout.
    rewrite Hnone in Hout. destruct Hout as [Hans Hwf]. eexists. split; [exact Hans|exact Hwf].
Defined.

End more_runs.

